(** * JMAP client adapter: a shallow embedding of GenericFunctions and of
      the trigger and action nodes, with the properties of its
      specification.

    The embedding follows the TypeScript sources:
    - [GenericFunctions] (session, batch requests, mail operations,
      attachment selection);
    - [JmapTrigger.poll] (the incremental polling cycle);
    - [Jmap.execute] (the operations of the action node, item by item).

    JavaScript values received from the wire are kept dynamically typed
    ([jsval]); asynchronous functions become computations in a state and
    exception monad over the host (the HTTP transport, the log of issued
    calls and the workflow static data). *)

From Stdlib Require Import ZArith List String Ascii Bool Lia.
From Stdlib Require Import DecimalString Permutation.
Import ListNotations.
Local Open Scope string_scope.
Local Open Scope Z_scope.
Set Warnings "-register-all".

(* ================================================================== *)
(** * JavaScript strings *)
(* ================================================================== *)

(** Strings are sequences of ASCII code units; the case mapping and the
    white space of [toLowerCase] and [trim] are the ASCII ones (MIME types
    and JMAP method names are ASCII). *)
Module JsString.

Definition code (c : ascii) : nat := nat_of_ascii c.

(** [c.toLowerCase()] on one code unit. *)
Definition lower_char (c : ascii) : ascii :=
  if (Nat.leb 65 (code c) && Nat.leb (code c) 90)%bool
  then ascii_of_nat (code c + 32) else c.

(** [s.toLowerCase()] *)
Fixpoint toLowerCase (s : string) : string :=
  match s with
  | EmptyString => EmptyString
  | String c s' => String (lower_char c) (toLowerCase s')
  end.

(** White space removed by [trim]: TAB, LF, VT, FF, CR and SPACE. *)
Definition is_space (c : ascii) : bool :=
  (Nat.leb 9 (code c) && Nat.leb (code c) 13)%bool || Nat.eqb (code c) 32.

Fixpoint trimStart (s : string) : string :=
  match s with
  | EmptyString => EmptyString
  | String c s' => if is_space c then trimStart s' else s
  end.

Fixpoint trimEnd (s : string) : string :=
  match s with
  | EmptyString => EmptyString
  | String c s' =>
      match trimEnd s' with
      | EmptyString => if is_space c then EmptyString else String c EmptyString
      | t => String c t
      end
  end.

(** [s.trim()] *)
Definition trim (s : string) : string := trimEnd (trimStart s).

(** [s.startsWith(p)] *)
Fixpoint startsWith (s p : string) {struct p} : bool :=
  match p, s with
  | EmptyString, _ => true
  | String _ _, EmptyString => false
  | String a p', String b s' => Ascii.eqb a b && startsWith s' p'
  end.

(** [s.endsWith(suffix)]: some tail of [s] is [suffix]. *)
Fixpoint endsWith (s suffix : string) : bool :=
  if String.eqb s suffix then true
  else match s with
       | EmptyString => false
       | String _ s' => endsWith s' suffix
       end.

(** [s.slice(0, -1)]: all but the last code unit. *)
Fixpoint slice_0_m1 (s : string) : string :=
  match s with
  | EmptyString => EmptyString
  | String _ EmptyString => EmptyString
  | String c s' => String c (slice_0_m1 s')
  end.

(** [s.split(',')], with the piece being read so far in [cur]. *)
Fixpoint split_from (sep : ascii) (cur : string) (s : string) : list string :=
  match s with
  | EmptyString => [cur]
  | String c s' =>
      if Ascii.eqb c sep then cur :: split_from sep EmptyString s'
      else split_from sep (cur ++ String c EmptyString) s'
  end.

Definition split (sep : ascii) (s : string) : list string :=
  split_from sep EmptyString s.

(** A string that does not start with white space. *)
Definition leading_ok (s : string) : bool :=
  match s with
  | EmptyString => true
  | String c _ => negb (is_space c)
  end.

(** JavaScript truthiness of a string. *)
Definition nonempty (s : string) : bool :=
  match s with EmptyString => false | _ => true end.

End JsString.

(* ================================================================== *)
(** * Attachment selection (GenericFunctions, the MIME matcher) *)
(* ================================================================== *)

Module Attachments.
Import JsString.

(** interface IJmapAttachment *)
Record IJmapAttachment := {
  blobId : string;
  type : string;
  name : string;
  size : Z;
  cid : option string;
  isInline : option bool;
  partId : option string
}.

(** interface IAttachmentOptions, after the defaults of the
    destructuring [{ includeInline = false, mimeTypeFilter = '' }]. *)
Record IAttachmentOptions := {
  includeInline : bool;
  mimeTypeFilter : string
}.

(** function matchesMimeType(mimeType, filter) *)
Definition matchesMimeType (mimeType filter : string) : bool :=
  let normalizedMime := toLowerCase mimeType in
  let normalizedFilter := trim (toLowerCase filter) in
  if endsWith normalizedFilter "/*" then
    let prefix := slice_0_m1 normalizedFilter in
    startsWith normalizedMime prefix
  else String.eqb normalizedMime normalizedFilter.

(** [mimeTypeFilter ? mimeTypeFilter.split(',').map(f => f.trim()).filter(f => f) : []] *)
Definition mimeFilters (mimeTypeFilter : string) : list string :=
  if nonempty mimeTypeFilter
  then filter nonempty (map trim (split "," mimeTypeFilter))
  else [].



End Attachments.

(* ================================================================== *)
(** * JavaScript values *)
(* ================================================================== *)

(** Values as they arrive from the wire ([IDataObject] and its parts),
    with [undefined] for absent properties.  An object is the list of its
    own properties in enumeration order ([Object.keys]).  Numbers are the
    integers the protocol uses (limits, positions, sizes). *)
Inductive jsval : Type :=
| JUndefined
| JNull
| JBool (b : bool)
| JNum (n : Z)
| JStr (s : string)
| JArr (items : list jsval)
| JObj (fields : list (string * jsval)).

(** What a JavaScript function throws. *)
Inductive exn : Type :=
| JsError (message : string)                  (* new Error(message) *)
| TypeError                                   (* raised by the runtime *)
| HttpFailure (reason : jsval)                (* rejection of the HTTP helper *)
| NodeApiError (message : string) (cause : exn).

Inductive outcome (A : Type) : Type :=
| Returned (a : A)
| Thrown (e : exn).
Arguments Returned {A} a.
Arguments Thrown {A} e.

Module Js.

Definition bindO {A B} (o : outcome A) (k : A -> outcome B) : outcome B :=
  match o with
  | Returned a => k a
  | Thrown e => Thrown e
  end.

Fixpoint assoc (k : string) (fields : list (string * jsval)) : option jsval :=
  match fields with
  | [] => None
  | (k', v) :: rest => if String.eqb k k' then Some v else assoc k rest
  end.

Definition or_undefined (o : option jsval) : jsval :=
  match o with Some v => v | None => JUndefined end.

(** ToBoolean *)
Definition truthy (v : jsval) : bool :=
  match v with
  | JUndefined | JNull => false
  | JBool b => b
  | JNum n => negb (n =? 0)
  | JStr s => JsString.nonempty s
  | JArr _ | JObj _ => true
  end.

Definition decimal (i : nat) : string := NilEmpty.string_of_uint (Nat.to_uint i).

Definition decimalZ (n : Z) : string := NilZero.string_of_int (Z.to_int n).

(** [v.k] for a property name [k] (an index is read with [get_index]): a
    TypeError on [undefined] and [null]. *)
Definition get_prop (v : jsval) (k : string) : outcome jsval :=
  match v with
  | JUndefined | JNull => Thrown TypeError
  | JObj fields => Returned (or_undefined (assoc k fields))
  | JArr items =>
      Returned (if String.eqb k "length" then JNum (Z.of_nat (List.length items))
                else JUndefined)
  | JStr s =>
      Returned (if String.eqb k "length" then JNum (Z.of_nat (String.length s))
                else JUndefined)
  | JBool _ | JNum _ => Returned JUndefined
  end.

(** [v[i]] for a literal index [i]. *)
Definition get_index (v : jsval) (i : nat) : outcome jsval :=
  match v with
  | JUndefined | JNull => Thrown TypeError
  | JArr items => Returned (nth i items JUndefined)
  | JObj fields => Returned (or_undefined (assoc (decimal i) fields))
  | JStr s =>
      Returned (match String.get i s with
                | Some c => JStr (String c EmptyString)
                | None => JUndefined
                end)
  | JBool _ | JNum _ => Returned JUndefined
  end.

(** [v === 'literal'] *)
Definition strict_eq_str (v : jsval) (s : string) : bool :=
  match v with
  | JStr t => String.eqb t s
  | _ => false
  end.

(** [v === 0] *)
Definition strict_eq_zero (v : jsval) : bool :=
  match v with
  | JNum n => n =? 0
  | _ => false
  end.

(** The receiver of an array method ([find], [filter], [map]): any
    value without the method raises a TypeError at the call. *)
Definition array_receiver (v : jsval) : outcome (list jsval) :=
  match v with
  | JArr items => Returned items
  | _ => Thrown TypeError
  end.

Fixpoint chars (s : string) : list jsval :=
  match s with
  | EmptyString => []
  | String c s' => JStr (String c EmptyString) :: chars s'
  end.

(** The values a [for ... of] loop runs over. *)
Definition iterate (v : jsval) : outcome (list jsval) :=
  match v with
  | JArr items => Returned items
  | JStr s => Returned (chars s)
  | _ => Thrown TypeError
  end.

(** [Object.keys(v)] *)
Definition Object_keys (v : jsval) : outcome (list string) :=
  match v with
  | JUndefined | JNull => Thrown TypeError
  | JObj fields => Returned (map fst fields)
  | JArr items => Returned (map decimal (seq 0 (List.length items)))
  | JStr s => Returned (map decimal (seq 0 (String.length s)))
  | JBool _ | JNum _ => Returned []
  end.

(** [String(v)], the conversion of a computed property key. *)
Fixpoint String_of (v : jsval) : string :=
  match v with
  | JUndefined => "undefined"
  | JNull => "null"
  | JBool true => "true"
  | JBool false => "false"
  | JNum n => decimalZ n
  | JStr s => s
  | JArr items =>
      String.concat ","
        (map (fun x => match x with
                       | JUndefined | JNull => EmptyString
                       | _ => String_of x
                       end) items)
  | JObj _ => "[object Object]"
  end.

(** [{ ...base, k: v }]: an existing key keeps its place. *)
Fixpoint set_field (k : string) (v : jsval) (fields : list (string * jsval))
  : list (string * jsval) :=
  match fields with
  | [] => [(k, v)]
  | (k', v') :: rest =>
      if String.eqb k k' then (k, v) :: rest else (k', v') :: set_field k v rest
  end.

(** The own properties copied by [...v] in an object literal, for the
    object (or absent) value the callers pass. *)
Definition spread (v : jsval) : list (string * jsval) :=
  match v with
  | JObj fields => fields
  | _ => []
  end.

(** [items.find(p)] with a callback that may throw. *)
Fixpoint find (p : jsval -> outcome bool) (items : list jsval) : outcome jsval :=
  match items with
  | [] => Returned JUndefined
  | x :: rest =>
      bindO (p x) (fun b => if b then Returned x else find p rest)
  end.

(** [items.filter(p)] *)
Fixpoint filter (p : jsval -> outcome bool) (items : list jsval)
  : outcome (list jsval) :=
  match items with
  | [] => Returned []
  | x :: rest =>
      bindO (p x) (fun b =>
      bindO (filter p rest) (fun kept =>
      Returned (if b then x :: kept else kept)))
  end.

(** [items.map(f)] *)
Fixpoint map (f : jsval -> outcome jsval) (items : list jsval)
  : outcome (list jsval) :=
  match items with
  | [] => Returned []
  | x :: rest =>
      bindO (f x) (fun y =>
      bindO (map f rest) (fun ys => Returned (y :: ys)))
  end.

(** [a > b] on the results of [getTime()], where [None] is NaN. *)
Definition gt_time (a b : option Z) : bool :=
  match a, b with
  | Some x, Some y => y <? x
  | _, _ => false
  end.

End Js.

(* ================================================================== *)
(** * The host: transport, issued calls, workflow static data *)
(* ================================================================== *)

Inductive HttpMethod : Type := GET | POST.

(** The arguments of [makeJmapRequest]: method, endpoint and JSON body.
    The credentials and headers the host adds to them do not depend on
    the request. *)
Record HttpCall : Type := {
  hc_method : HttpMethod;
  hc_endpoint : string;
  hc_body : jsval
}.

Inductive HttpReply : Type :=
| Resolved (body : jsval)        (* the parsed JSON of a 2xx response *)
| Rejected (reason : jsval).     (* the helper's promise is rejected *)

(** What the code takes from its platform: the authenticated HTTP helper
    of the host in front of a server with a state of its own, and two
    built-ins of the language, [new Date(v).getTime()] (with [None] for
    NaN) and the text [JSON.stringify(v)] leaves in a template literal. *)
Record Platform : Type := {
  Server : Type;
  httpRequest : Server -> HttpCall -> HttpReply * Server;
  Date_getTime : jsval -> option Z;
  JSON_stringify : jsval -> string
}.

Section Client.

Variable P : Platform.

(** The state an operation runs in.  [issued] is the log of the calls
    handed to the transport, oldest first; [lastProcessedTime] is the
    property of that name of [getWorkflowStaticData('node')]. *)
Record Host : Type := {
  server : Server P;
  issued : list HttpCall;
  lastProcessedTime : jsval
}.

(** An [async] function: it runs from a host state to an outcome and
    the host state it leaves. *)
Definition M (A : Type) : Type := Host -> outcome A * Host.

Definition ret {A} (a : A) : M A := fun h => (Returned a, h).

Definition throw {A} (e : exn) : M A := fun h => (Thrown e, h).

Definition bind {A B} (m : M A) (k : A -> M B) : M B :=
  fun h =>
    match m h with
    | (Returned a, h') => k a h'
    | (Thrown e, h') => (Thrown e, h')
    end.

Definition lift {A} (o : outcome A) : M A := fun h => (o, h).

(** [try { m } catch (error) { handler(error) }] *)
Definition try_catch {A} (m : M A) (handler : exn -> M A) : M A :=
  fun h =>
    match m h with
    | (Returned a, h') => (Returned a, h')
    | (Thrown e, h') => handler e h'
    end.

Notation "x <- c ;; k" := (bind c (fun x => k))
  (at level 61, c at next level, right associativity).
Notation "x <~ c ;; k" := (Js.bindO c (fun x => k))
  (at level 61, c at next level, right associativity).

(* ---------------------------------------------------------------- *)
(** ** GenericFunctions: transport and session *)
(* ---------------------------------------------------------------- *)

Definition JMAP_CAPABILITIES_CORE : string := "urn:ietf:params:jmap:core".
Definition JMAP_CAPABILITIES_MAIL : string := "urn:ietf:params:jmap:mail".
Definition JMAP_CAPABILITIES_SUBMISSION : string := "urn:ietf:params:jmap:submission".

(** async function makeJmapRequest(context, method, endpoint, body) *)
Definition makeJmapRequest (method : HttpMethod) (endpoint : string)
           (body : jsval) : M jsval :=
  fun h =>
    let call := {| hc_method := method; hc_endpoint := endpoint; hc_body := body |} in
    let (reply, s') := httpRequest P (server h) call in
    (match reply with
     | Resolved response => Returned response
     | Rejected reason => Thrown (HttpFailure reason)
     end,
     {| server := s';
        issued := (issued h ++ [call])%list;
        lastProcessedTime := lastProcessedTime h |}).

(** export async function getJmapSession() *)
Definition getJmapSession : M jsval :=
  try_catch (makeJmapRequest GET "/session" JUndefined)
            (fun error => throw (NodeApiError "Failed to get JMAP session" error)).

(** A method call [[name, arguments, callId]]. *)
Definition MethodCall : Type := (string * jsval * string)%type.

Definition encodeCall (c : MethodCall) : jsval :=
  let '(name, args, callId) := c in JArr [JStr name; args; JStr callId].

(** The body [{ using, methodCalls }] of type IJmapRequest ([using_] is
    the source's [using]). *)
Definition IJmapRequest (using_ : list string) (methodCalls : list MethodCall) : jsval :=
  JObj [("using", JArr (List.map JStr using_));
        ("methodCalls", JArr (List.map encodeCall methodCalls))].

Definition defaultUsing : list string :=
  [JMAP_CAPABILITIES_CORE; JMAP_CAPABILITIES_MAIL].

(** export async function jmapApiRequest(methodCalls, using) *)
Definition jmapApiRequest (methodCalls : list MethodCall) (using_ : list string)
  : M jsval :=
  let body := IJmapRequest using_ methodCalls in
  try_catch (makeJmapRequest POST EmptyString body)
            (fun error => throw (NodeApiError "JMAP API request failed" error)).

(** export async function getPrimaryAccountId() *)
Definition getPrimaryAccountId : M jsval :=
  session <- getJmapSession ;;
  let mailCapability := JMAP_CAPABILITIES_MAIL in
  primaryAccounts <- lift (Js.get_prop session "primaryAccounts") ;;
  (* session.primaryAccounts && session.primaryAccounts[mailCapability] *)
  primary <- lift (if Js.truthy primaryAccounts
                   then Js.get_prop primaryAccounts mailCapability
                   else Returned primaryAccounts) ;;
  if Js.truthy primary then ret primary
  else
    accounts <- lift (Js.get_prop session "accounts") ;;
    accountIds <- lift (Js.Object_keys accounts) ;;
    match accountIds with
    | first :: _ => ret (JStr first)
    | [] => throw (JsError "No JMAP account found")
    end.

(* ---------------------------------------------------------------- *)
(** ** GenericFunctions: reading a response envelope *)
(* ---------------------------------------------------------------- *)

(** [response.methodResponses[i]] *)
Definition methodResponse_at (response : jsval) (i : nat) : outcome jsval :=
  methodResponses <~ Js.get_prop response "methodResponses" ;;
  Js.get_index methodResponses i.

(** The reading every single-call operation makes of its response:
<<
    const methodResponse = response.methodResponses[0];
    if (methodResponse[0] === method) { return select(methodResponse[1]); }
    throw new Error(failure);
>> *)
Definition expectFirst (method failure : string)
           (select : jsval -> outcome jsval) (response : jsval) : outcome jsval :=
  methodResponse <~ methodResponse_at response 0 ;;
  name <~ Js.get_index methodResponse 0 ;;
  if Js.strict_eq_str name method
  then (result <~ Js.get_index methodResponse 1 ;; select result)
  else Thrown (JsError failure).

(** [(methodResponse[1] as IDataObject).list] *)
Definition select_list (result : jsval) : outcome jsval := Js.get_prop result "list".

(** [methodResponse[1] as IDataObject] *)
Definition select_all (result : jsval) : outcome jsval := Returned result.

(* ---------------------------------------------------------------- *)
(** ** GenericFunctions: mail operations *)
(* ---------------------------------------------------------------- *)

(** export async function getMailboxes(accountId) *)
Definition getMailboxes (accountId : jsval) : M jsval :=
  response <- jmapApiRequest
                [("Mailbox/get", JObj [("accountId", accountId)], "c1")]
                defaultUsing ;;
  lift (expectFirst "Mailbox/get" "Failed to get mailboxes" select_list response).

(** export async function findMailboxByName(accountId, name) *)
Definition findMailboxByName (accountId : jsval) (name : string) : M jsval :=
  mailboxes <- getMailboxes accountId ;;
  lift (items <~ Js.array_receiver mailboxes ;;
        Js.find (fun mb => n <~ Js.get_prop mb "name" ;;
                           Returned (Js.strict_eq_str n name)) items).

(** export async function findMailboxByRole(accountId, role) *)
Definition findMailboxByRole (accountId : jsval) (role : string) : M jsval :=
  mailboxes <- getMailboxes accountId ;;
  lift (items <~ Js.array_receiver mailboxes ;;
        Js.find (fun mb => r <~ Js.get_prop mb "role" ;;
                           Returned (Js.strict_eq_str r role)) items).

(** The value [{ ids, total }] returned by [queryEmails]. *)
Record QueryResult : Type := { ids : jsval; total : jsval }.

Definition defaultSort : jsval :=
  JArr [JObj [("property", JStr "receivedAt"); ("isAscending", JBool false)]].

Definition queryEmails_calls (accountId filter sort : jsval) (limit position : Z)
  : list MethodCall :=
  [("Email/query",
    JObj [("accountId", accountId); ("filter", filter); ("sort", sort);
          ("limit", JNum limit); ("position", JNum position)],
    "c1")].

(** The reading of the response in [queryEmails]. *)
Definition queryEmails_result (response : jsval) : outcome QueryResult :=
  methodResponse <~ methodResponse_at response 0 ;;
  name <~ Js.get_index methodResponse 0 ;;
  if Js.strict_eq_str name "Email/query"
  then
    result <~ Js.get_index methodResponse 1 ;;
    i <~ Js.get_prop result "ids" ;;
    t <~ Js.get_prop result "total" ;;
    Returned {| ids := i; total := t |}
  else Thrown (JsError "Failed to query emails").

(** export async function queryEmails(accountId, filter, sort, limit, position) *)
Definition queryEmails (accountId filter sort : jsval) (limit position : Z)
  : M QueryResult :=
  response <- jmapApiRequest (queryEmails_calls accountId filter sort limit position)
                             defaultUsing ;;
  lift (queryEmails_result response).

Definition defaultProperties : list string :=
  ["id"; "blobId"; "threadId"; "mailboxIds"; "keywords"; "size";
   "receivedAt"; "from"; "to"; "cc"; "bcc"; "replyTo"; "subject";
   "sentAt"; "hasAttachment"; "preview"; "bodyStructure"; "bodyValues";
   "textBody"; "htmlBody"; "attachments"].

(** export async function getEmails(accountId, ids, properties,
    fetchTextBodyValues, fetchHTMLBodyValues) *)
Definition getEmails (accountId ids : jsval) (properties : list string)
           (fetchTextBodyValues fetchHTMLBodyValues : bool) : M jsval :=
  response <- jmapApiRequest
                [("Email/get",
                  JObj [("accountId", accountId); ("ids", ids);
                        ("properties", JArr (List.map JStr properties));
                        ("fetchTextBodyValues", JBool fetchTextBodyValues);
                        ("fetchHTMLBodyValues", JBool fetchHTMLBodyValues);
                        ("maxBodyValueBytes", JNum 1048576)],
                  "c1")]
                defaultUsing ;;
  lift (expectFirst "Email/get" "Failed to get emails" select_list response).

(** [{ ...email, mailboxIds: { [draftsMailbox.id]: true }, keywords: { $draft: true } }] *)
Definition emailCreate (email draftsMailboxId : jsval) : jsval :=
  JObj (Js.set_field "keywords" (JObj [("$draft", JBool true)])
         (Js.set_field "mailboxIds"
            (JObj [(Js.String_of draftsMailboxId, JBool true)])
            (Js.spread email))).

Definition sendEmail_calls (accountId create identityId : jsval) : list MethodCall :=
  [("Email/set",
    JObj [("accountId", accountId); ("create", JObj [("draft", create)])],
    "c1");
   ("EmailSubmission/set",
    JObj [("accountId", accountId);
          ("create", JObj [("send", JObj [("emailId", JStr "#draft");
                                          ("identityId", identityId)])]);
          ("onSuccessDestroyEmail", JArr [JStr "#send"])],
    "c2")].

(** The loop
<<
    for (const methodResponse of response.methodResponses) {
      if (methodResponse[0] === 'error') {
        throw new Error(`JMAP error: ${JSON.stringify(methodResponse[1])}`);
      }
    }
>> *)
Fixpoint throwOnError (methodResponses : list jsval) : outcome unit :=
  match methodResponses with
  | [] => Returned tt
  | methodResponse :: rest =>
      name <~ Js.get_index methodResponse 0 ;;
      if Js.strict_eq_str name "error"
      then (payload <~ Js.get_index methodResponse 1 ;;
            Thrown (JsError ("JMAP error: " ++ JSON_stringify P payload)))
      else throwOnError rest
  end.

(** The reading of the response in [sendEmail]: the loop, then
    [response.methodResponses[1][1]]. *)
Definition sendEmail_result (response : jsval) : outcome jsval :=
  methodResponses <~ Js.get_prop response "methodResponses" ;;
  entries <~ Js.iterate methodResponses ;;
  _ <~ throwOnError entries ;;
  second <~ methodResponse_at response 1 ;;
  Js.get_index second 1.

(** export async function sendEmail(accountId, email, identityId) *)
Definition sendEmail (accountId email identityId : jsval) : M jsval :=
  draftsMailbox <- findMailboxByRole accountId "drafts" ;;
  if negb (Js.truthy draftsMailbox)
  then throw (JsError "Drafts mailbox not found")
  else
    draftsId <- lift (Js.get_prop draftsMailbox "id") ;;
    response <- jmapApiRequest
                  (sendEmail_calls accountId (emailCreate email draftsId) identityId)
                  [JMAP_CAPABILITIES_CORE; JMAP_CAPABILITIES_MAIL;
                   JMAP_CAPABILITIES_SUBMISSION] ;;
    lift (sendEmail_result response).

(** The reading of the response in [createDraft]. *)
Definition createDraft_result (response : jsval) : outcome jsval :=
  methodResponse <~ methodResponse_at response 0 ;;
  name <~ Js.get_index methodResponse 0 ;;
  if Js.strict_eq_str name "error"
  then (payload <~ Js.get_index methodResponse 1 ;;
        Thrown (JsError ("JMAP error: " ++ JSON_stringify P payload)))
  else
    result <~ Js.get_index methodResponse 1 ;;
    if Js.strict_eq_str name "Email/set"
    then
      created <~ Js.get_prop result "created" ;;
      (* created && created.draft *)
      draft <~ (if Js.truthy created then Js.get_prop created "draft"
                else Returned created) ;;
      if Js.truthy draft then Returned draft else Returned result
    else Returned result.

(** export async function createDraft(accountId, email) *)
Definition createDraft (accountId email : jsval) : M jsval :=
  draftsMailbox <- findMailboxByRole accountId "drafts" ;;
  if negb (Js.truthy draftsMailbox)
  then throw (JsError "Drafts mailbox not found")
  else
    draftsId <- lift (Js.get_prop draftsMailbox "id") ;;
    response <- jmapApiRequest
                  [("Email/set",
                    JObj [("accountId", accountId);
                          ("create", JObj [("draft", emailCreate email draftsId)])],
                    "c1")]
                  defaultUsing ;;
    lift (createDraft_result response).

(** export async function getIdentities(accountId) *)
Definition getIdentities (accountId : jsval) : M jsval :=
  response <- jmapApiRequest
                [("Identity/get", JObj [("accountId", accountId)], "c1")]
                [JMAP_CAPABILITIES_CORE; JMAP_CAPABILITIES_SUBMISSION] ;;
  lift (expectFirst "Identity/get" "Failed to get identities" select_list response).

(** [{ accountId, update: { [emailId]: patch } }] with call id c1. *)
Definition emailSet_update (accountId : jsval) (emailId : string) (patch : jsval)
  : list MethodCall :=
  [("Email/set",
    JObj [("accountId", accountId); ("update", JObj [(emailId, patch)])],
    "c1")].

Definition updateEmailKeywords_calls (accountId : jsval) (emailId : string)
           (keywords : jsval) : list MethodCall :=
  emailSet_update accountId emailId (JObj [("keywords", keywords)]).

(** The reading of the response in [updateEmailKeywords]. *)
Definition updateEmailKeywords_result : jsval -> outcome jsval :=
  expectFirst "Email/set" "Failed to update email" select_all.

(** export async function updateEmailKeywords(accountId, emailId, keywords) *)
Definition updateEmailKeywords (accountId : jsval) (emailId : string)
           (keywords : jsval) : M jsval :=
  response <- jmapApiRequest (updateEmailKeywords_calls accountId emailId keywords)
                             defaultUsing ;;
  lift (updateEmailKeywords_result response).

(** export async function moveEmail(accountId, emailId, targetMailboxId) *)
Definition moveEmail (accountId : jsval) (emailId targetMailboxId : string) : M jsval :=
  response <- jmapApiRequest
                (emailSet_update accountId emailId
                   (JObj [("mailboxIds", JObj [(targetMailboxId, JBool true)])]))
                defaultUsing ;;
  lift (expectFirst "Email/set" "Failed to move email" select_all response).

(** export async function addLabel(accountId, emailId, mailboxId) *)
Definition addLabel (accountId : jsval) (emailId mailboxId : string) : M jsval :=
  response <- jmapApiRequest
                (emailSet_update accountId emailId
                   (JObj [("mailboxIds/" ++ mailboxId, JBool true)]))
                defaultUsing ;;
  lift (expectFirst "Email/set" "Failed to add label" select_all response).

(** export async function removeLabel(accountId, emailId, mailboxId) *)
Definition removeLabel (accountId : jsval) (emailId mailboxId : string) : M jsval :=
  response <- jmapApiRequest
                (emailSet_update accountId emailId
                   (JObj [("mailboxIds/" ++ mailboxId, JNull)]))
                defaultUsing ;;
  lift (expectFirst "Email/set" "Failed to remove label" select_all response).

(** export async function deleteEmails(accountId, emailIds) *)
Definition deleteEmails (accountId : jsval) (emailIds : list string) : M jsval :=
  response <- jmapApiRequest
                [("Email/set",
                  JObj [("accountId", accountId);
                        ("destroy", JArr (List.map JStr emailIds))],
                  "c1")]
                defaultUsing ;;
  lift (expectFirst "Email/set" "Failed to delete emails" select_all response).

(** export async function getThreads(accountId, ids) *)
Definition getThreads (accountId : jsval) (threadIds : list string) : M jsval :=
  response <- jmapApiRequest
                [("Thread/get",
                  JObj [("accountId", accountId);
                        ("ids", JArr (List.map JStr threadIds))],
                  "c1")]
                defaultUsing ;;
  lift (expectFirst "Thread/get" "Failed to get threads" select_list response).

(* ---------------------------------------------------------------- *)
(** ** JmapTrigger: the poll cycle *)
(* ---------------------------------------------------------------- *)

(** The node parameters read by [poll] ([mailbox] is read only for the
    event newEmailInMailbox). *)
Record TriggerParameters : Type := {
  event : string;
  simple : bool;
  options : jsval;
  mailbox : string
}.

Definition getLastProcessedTime : M jsval :=
  fun h => (Returned (lastProcessedTime h), h).

(** [webhookData.lastProcessedTime = v] *)
Definition setLastProcessedTime (v : jsval) : M unit :=
  fun h => (Returned tt,
            {| server := server h; issued := issued h; lastProcessedTime := v |}).

(** The filter built by [poll]. *)
Definition pollFilter (params : TriggerParameters) (lastProcessedTime : jsval) : jsval :=
  JObj ((if String.eqb (event params) "newEmailInMailbox"
         then [("inMailbox", JStr (mailbox params))] else [])
        ++ (if Js.truthy lastProcessedTime
            then [("after", lastProcessedTime)] else []))%list.

(** The property list requested by [poll]. *)
Definition pollProperties (params : TriggerParameters) : outcome (list string) :=
  let properties :=
    ["id"; "blobId"; "threadId"; "mailboxIds"; "keywords"; "receivedAt";
     "from"; "to"; "cc"; "subject"; "preview"; "hasAttachment"] in
  let properties :=
    if negb (simple params)
    then (properties ++ ["bodyValues"; "textBody"; "htmlBody"; "bodyStructure"])%list
    else properties in
  includeAttachments <~ Js.get_prop (options params) "includeAttachments" ;;
  Returned (if Js.truthy includeAttachments
            then (properties ++ ["attachments"])%list else properties).

(** The callback of [emails.filter]:
<<
    const emailTime = new Date(email.receivedAt as string).getTime();
    const lastTime = new Date(lastProcessedTime).getTime();
    return emailTime > lastTime;
>> *)
Definition isNewerThan (lastProcessedTime : jsval) (email : jsval) : outcome bool :=
  receivedAt <~ Js.get_prop email "receivedAt" ;;
  let emailTime := Date_getTime P receivedAt in
  let lastTime := Date_getTime P lastProcessedTime in
  Returned (Js.gt_time emailTime lastTime).

(** [!!(email.keywords as IDataObject)?.k] *)
Definition hasKeyword (email : jsval) (k : string) : outcome jsval :=
  keywords <~ Js.get_prop email "keywords" ;;
  flag <~ (match keywords with
           | JUndefined | JNull => Returned JUndefined
           | _ => Js.get_prop keywords k
           end) ;;
  Returned (JBool (Js.truthy flag)).

(** The callback of [newEmails.map]: one output item per email. *)
Definition toExecutionData (simple : bool) (email : jsval) : outcome jsval :=
  if simple then
    id <~ Js.get_prop email "id" ;;
    threadId <~ Js.get_prop email "threadId" ;;
    from <~ Js.get_prop email "from" ;;
    to <~ Js.get_prop email "to" ;;
    cc <~ Js.get_prop email "cc" ;;
    subject <~ Js.get_prop email "subject" ;;
    preview <~ Js.get_prop email "preview" ;;
    receivedAt <~ Js.get_prop email "receivedAt" ;;
    hasAttachment <~ Js.get_prop email "hasAttachment" ;;
    isRead <~ hasKeyword email "$seen" ;;
    isFlagged <~ hasKeyword email "$flagged" ;;
    Returned (JObj [("json",
                     JObj [("id", id); ("threadId", threadId); ("from", from);
                           ("to", to); ("cc", cc); ("subject", subject);
                           ("preview", preview); ("receivedAt", receivedAt);
                           ("hasAttachment", hasAttachment);
                           ("isRead", isRead); ("isFlagged", isFlagged)])])
  else Returned (JObj [("json", email)]).

(** First part of [poll], from the account lookup to the test
    [emails.length === 0]: [None] when the cycle returns null there,
    else the fetched [emails]. *)
Definition poll_fetch (params : TriggerParameters) (lastProcessedTime : jsval)
  : M (option jsval) :=
  accountId <- getPrimaryAccountId ;;
  let filter := pollFilter params lastProcessedTime in
  q <- queryEmails accountId filter defaultSort 100 0 ;;
  idsLength <- lift (Js.get_prop (ids q) "length") ;;
  if Js.strict_eq_zero idsLength then ret None
  else
    properties <- lift (pollProperties params) ;;
    emails <- getEmails accountId (ids q) properties
                        (negb (simple params)) (negb (simple params)) ;;
    emailsLength <- lift (Js.get_prop emails "length") ;;
    if Js.strict_eq_zero emailsLength then ret None
    else ret (Some emails).

(** Second part of [poll], from the update of the last processed time
    to the return: null ([JNull]) or [[returnData]]. *)
Definition poll_emit (params : TriggerParameters) (lastProcessedTime : jsval)
           (emails : jsval) : M jsval :=
  (* Update the last processed time to the most recent email *)
  mostRecentEmail <- lift (Js.get_index emails 0) ;;
  receivedAt <- lift (Js.get_prop mostRecentEmail "receivedAt") ;;
  _ <- setLastProcessedTime receivedAt ;;
  (* Filter out already processed emails if we had a lastProcessedTime *)
  newEmails <- lift (if Js.truthy lastProcessedTime
                     then (items <~ Js.array_receiver emails ;;
                           kept <~ Js.filter (isNewerThan lastProcessedTime) items ;;
                           Returned (JArr kept))
                     else Returned emails) ;;
  newLength <- lift (Js.get_prop newEmails "length") ;;
  if Js.strict_eq_zero newLength then ret JNull
  else
    returnData <- lift (items <~ Js.array_receiver newEmails ;;
                        Js.map (toExecutionData (simple params)) items) ;;
    ret (JArr [JArr returnData]).

(** async poll(): one cycle of the trigger. *)
Definition poll (params : TriggerParameters) : M jsval :=
  lastProcessedTime <- getLastProcessedTime ;;
  fetched <- poll_fetch params lastProcessedTime ;;
  match fetched with
  | None => ret JNull
  | Some emails => poll_emit params lastProcessedTime emails
  end.

End Client.

Arguments ret {P A} a.
Arguments throw {P A} e.
Arguments bind {P A B} m k.
Arguments lift {P A} o.
Arguments try_catch {P A} m handler.
Arguments server {P} h.
Arguments issued {P} h.
Arguments lastProcessedTime {P} h.

(* ================================================================== *)
(** * Typed envelopes *)
(* ================================================================== *)

(** An entry [[methodName, result, callId]] of [IJmapResponse]. *)
Record MethodResponse : Type := {
  mr_name : string;
  mr_result : jsval;
  mr_callId : string
}.

Definition encodeResponse (r : MethodResponse) : jsval :=
  JArr [JStr (mr_name r); mr_result r; JStr (mr_callId r)].

(** The JSON of a response envelope with the given entries, in order. *)
Definition IJmapResponse (entries : list MethodResponse) (sessionState : string) : jsval :=
  JObj [("methodResponses", JArr (map encodeResponse entries));
        ("sessionState", JStr sessionState)].

(** The same entry under another call id. *)
Definition relabel (f : string -> string) (r : MethodResponse) : MethodResponse :=
  {| mr_name := mr_name r; mr_result := mr_result r; mr_callId := f (mr_callId r) |}.

(** Does the body of an issued call carry a method call named [name]? *)
Definition requestsMethod (name : string) (c : HttpCall) : bool :=
  match Js.get_prop (hc_body c) "methodCalls" with
  | Returned (JArr calls) =>
      existsb (fun call => match Js.get_index call 0 with
                           | Returned n => Js.strict_eq_str n name
                           | Thrown _ => false
                           end) calls
  | _ => false
  end.

(* ================================================================== *)
(** * A reference platform *)
(* ================================================================== *)

(** A platform to run the client on: a server that answers from a script,
    the time value of JMAP's UTCDate strings and the compact JSON text. *)
Module Reference.

(** The server answers the calls with the scripted replies, in order,
    and rejects once the script is exhausted. *)
Definition scripted (script : list HttpReply) (_ : HttpCall)
  : HttpReply * list HttpReply :=
  match script with
  | reply :: rest => (reply, rest)
  | [] => (Rejected JUndefined, [])
  end.

Definition digit (c : ascii) : option Z :=
  let n := Z.of_nat (nat_of_ascii c) in
  if (48 <=? n) && (n <=? 57) then Some (n - 48) else None.

Fixpoint number_from (acc : Z) (s : string) : option Z :=
  match s with
  | EmptyString => Some acc
  | String c s' =>
      match digit c with
      | Some d => number_from (acc * 10 + d) s'
      | None => None
      end
  end.

Definition number (s : string) : option Z :=
  match s with
  | EmptyString => None
  | _ => number_from 0 s
  end.

(** Days from 1970-01-01 to the civil date [y]-[m]-[d]. *)
Definition days_from_civil (y m d : Z) : Z :=
  let y' := if m <=? 2 then y - 1 else y in
  let era := y' / 400 in
  let yoe := y' - era * 400 in
  let mp := if 2 <? m then m - 3 else m + 9 in
  let doy := (153 * mp + 2) / 5 + d - 1 in
  let doe := yoe * 365 + yoe / 4 - yoe / 100 + doy in
  era * 146097 + doe - 719468.

Definition char_at (i : nat) (s : string) (c : string) : bool :=
  String.eqb (substring i 1 s) c.

(** Milliseconds since the epoch of YYYY-MM-DDTHH:MM:SSZ, with an
    optional fraction .sss before the Z. *)
Definition parse_UTCDate (s : string) : option Z :=
  let len := String.length s in
  let shape :=
    (char_at 4 s "-" && char_at 7 s "-" && char_at 10 s "T"
     && char_at 13 s ":" && char_at 16 s ":")%bool in
  let fraction :=
    if Nat.eqb len 20 then (if char_at 19 s "Z" then Some 0 else None)
    else if (Nat.eqb len 24 && char_at 19 s "." && char_at 23 s "Z")%bool
         then number (substring 20 3 s)
         else None in
  if shape then
    match number (substring 0 4 s), number (substring 5 2 s),
          number (substring 8 2 s), number (substring 11 2 s),
          number (substring 14 2 s), number (substring 17 2 s), fraction with
    | Some y, Some mo, Some d, Some hh, Some mi, Some ss, Some ms =>
        if ((1 <=? mo) && (mo <=? 12) && (1 <=? d) && (d <=? 31)
            && (hh <=? 23) && (mi <=? 59) && (ss <=? 59))%bool
        then Some ((((days_from_civil y mo d * 24 + hh) * 60 + mi) * 60 + ss)
                   * 1000 + ms)
        else None
    | _, _, _, _, _, _, _ => None
    end
  else None.

(** [new Date(v).getTime()]: a string is parsed (here, as a UTCDate; the
    other formats Date accepts are outside this instance), an absent value
    is an invalid date, a number is the time value itself within the range
    of Date, and a composite value goes through its string. *)
Definition getTime (v : jsval) : option Z :=
  match v with
  | JUndefined => None
  | JNull => Some 0
  | JBool b => Some (if b then 1 else 0)
  | JNum n => if Z.abs n <=? 8640000000000000 then Some n else None
  | JStr s => parse_UTCDate s
  | JArr _ | JObj _ => parse_UTCDate (Js.String_of v)
  end.

Definition dquote : string := String (ascii_of_nat 34) EmptyString.
Definition backslash : string := String (ascii_of_nat 92) EmptyString.

Definition hex_digit (n : nat) : ascii :=
  ascii_of_nat (if Nat.ltb n 10 then 48 + n else 87 + n).

Definition escape (c : ascii) : string :=
  let n := nat_of_ascii c in
  if Nat.eqb n 34 then backslash ++ dquote
  else if Nat.eqb n 92 then backslash ++ backslash
  else if Nat.eqb n 8 then backslash ++ "b"
  else if Nat.eqb n 9 then backslash ++ "t"
  else if Nat.eqb n 10 then backslash ++ "n"
  else if Nat.eqb n 12 then backslash ++ "f"
  else if Nat.eqb n 13 then backslash ++ "r"
  else if Nat.ltb n 32
       then backslash ++ "u00"
            ++ String (hex_digit (Nat.div n 16))
                 (String (hex_digit (Nat.modulo n 16)) EmptyString)
       else String c EmptyString.

Fixpoint escaped (s : string) : string :=
  match s with
  | EmptyString => EmptyString
  | String c s' => escape c ++ escaped s'
  end.

Definition quoted (s : string) : string := dquote ++ escaped s ++ dquote.

(** The text of [JSON.stringify(v)] in a template literal. *)
Fixpoint stringify (v : jsval) : string :=
  match v with
  | JUndefined => "undefined"
  | JNull => "null"
  | JBool true => "true"
  | JBool false => "false"
  | JNum n => Js.decimalZ n
  | JStr s => quoted s
  | JArr items =>
      "[" ++ String.concat ","
               (map (fun x => match x with
                              | JUndefined => "null"
                              | _ => stringify x
                              end) items) ++ "]"
  | JObj fields =>
      "{" ++ String.concat ","
               ((fix members (fs : list (string * jsval)) : list string :=
                   match fs with
                   | [] => []
                   | (_, JUndefined) :: rest => members rest
                   | (k, x) :: rest =>
                       (quoted k ++ ":" ++ stringify x) :: members rest
                   end) fields) ++ "}"
  end.

Definition platform : Platform :=
  {| Server := list HttpReply;
     httpRequest := scripted;
     Date_getTime := getTime;
     JSON_stringify := stringify |}.

(** A host in front of the scripted server, nothing issued yet. *)
Definition host (script : list HttpReply) (lastProcessedTime : jsval) : Host platform :=
  {| server := (script : Server platform); issued := [];
     lastProcessedTime := lastProcessedTime |}.

(** The session of a server with one account. *)
Definition session : jsval :=
  JObj [("accounts", JObj [("acc1", JObj [("name", JStr "user@example.org")])]);
        ("primaryAccounts", JObj [("urn:ietf:params:jmap:mail", JStr "acc1")]);
        ("apiUrl", JStr "https://jmap.example.org/api")].

Definition email (id receivedAt : string) : jsval :=
  JObj [("id", JStr id); ("threadId", JStr ("t-" ++ id));
        ("receivedAt", JStr receivedAt); ("subject", JStr "hello")].

Definition queryReply (ids : list string) : HttpReply :=
  Resolved (IJmapResponse
              [{| mr_name := "Email/query";
                  mr_result := JObj [("ids", JArr (map JStr ids));
                                     ("total", JNum (Z.of_nat (List.length ids)))];
                  mr_callId := "c1" |}] "s1").

Definition getReply (emails : list jsval) : HttpReply :=
  Resolved (IJmapResponse
              [{| mr_name := "Email/get";
                  mr_result := JObj [("list", JArr emails)];
                  mr_callId := "c1" |}] "s1").

Definition params : TriggerParameters :=
  {| event := "newEmail"; simple := false; options := JObj []; mailbox := EmptyString |}.

Definition mailboxesReply (mailboxes : list jsval) : HttpReply :=
  Resolved (IJmapResponse
              [{| mr_name := "Mailbox/get";
                  mr_result := JObj [("list", JArr mailboxes)];
                  mr_callId := "c1" |}] "s1").

Definition inbox : jsval :=
  JObj [("id", JStr "mb1"); ("name", JStr "Inbox"); ("role", JStr "inbox")].

Definition archive : jsval :=
  JObj [("id", JStr "mb2"); ("name", JStr "Archive"); ("role", JNull)].

End Reference.

(* ================================================================== *)
(** * Notions used by the statements *)
(* ================================================================== *)

(** The entry of the mail capability in the primaryAccounts map of a
    session, [undefined] when the map or the entry is absent. *)
Definition primaryMailEntry (session : jsval) : jsval :=
  match Js.get_prop session "primaryAccounts" with
  | Returned (JObj m) => Js.or_undefined (Js.assoc JMAP_CAPABILITIES_MAIL m)
  | _ => JUndefined
  end.

(** The first entry named error, if any. *)
Definition firstError (entries : list MethodResponse) : option MethodResponse :=
  find (fun e => String.eqb (mr_name e) "error") entries.


(** A computation that leaves the host as it found it. *)
Definition hostPure {P : Platform} {A : Type} (m : M P A) : Prop :=
  forall h, snd (m h) = h.

(** A computation that hands exactly [call] to the transport and leaves
    the last processed time alone. *)
Definition issuesOne {P : Platform} {A : Type} (m : M P A) (call : HttpCall) : Prop :=
  forall h, issued (snd (m h)) = (issued h ++ [call])%list
            /\ lastProcessedTime (snd (m h)) = lastProcessedTime h.

(** The POST of a batch of method calls. *)
Definition apiCall (methodCalls : list MethodCall) (using_ : list string) : HttpCall :=
  {| hc_method := POST; hc_endpoint := EmptyString; hc_body := IJmapRequest using_ methodCalls |}.

Definition sessionCall : HttpCall :=
  {| hc_method := GET; hc_endpoint := "/session"; hc_body := JUndefined |}.

(** A poll cycle from [h] whose account lookup succeeds and whose
    Email/query answers an empty list of ids, leaving the host [h']. *)
Definition emptyQueryCycle (P : Platform) (params : TriggerParameters)
           (h h' : Host P) : Prop :=
  exists accountId q h1,
    getPrimaryAccountId P h = (Returned accountId, h1)
    /\ queryEmails P accountId (pollFilter params (lastProcessedTime h))
                   defaultSort 100 0 h1 = (Returned q, h')
    /\ ids q = JArr [].

(** The host [h] with its last processed time set to [v]. *)
Definition withLastProcessedTime {P : Platform} (h : Host P) (v : jsval) : Host P :=
  {| server := server h; issued := issued h; lastProcessedTime := v |}.


(* ================================================================== *)
(** * More of GenericFunctions: labels *)
(* ================================================================== *)

Section Labels.

Variable P : Platform.

Notation "x <- c ;; k" := (bind c (fun x => k))
  (at level 61, c at next level, right associativity).
Notation "x <~ c ;; k" := (Js.bindO c (fun x => k))
  (at level 61, c at next level, right associativity).

(** The body of the loop of [getLabels] for one key of mailboxIds:
<<
    const mailbox = allMailboxes.find((mb) => mb.id === mailboxId);
    if (mailbox) { labels.push({ id: mailbox.id, name: mailbox.name,
        role: mailbox.role || null, totalEmails: mailbox.totalEmails,
        unreadEmails: mailbox.unreadEmails }); }
    else { labels.push({ id: mailboxId, name: null, role: null }); }
>> *)
Definition labelOf (allMailboxes : jsval) (mailboxId : string) : outcome jsval :=
  items <~ Js.array_receiver allMailboxes ;;
  mailbox <~ Js.find (fun mb => i <~ Js.get_prop mb "id" ;;
                                Returned (Js.strict_eq_str i mailboxId)) items ;;
  if Js.truthy mailbox then
    id <~ Js.get_prop mailbox "id" ;;
    name <~ Js.get_prop mailbox "name" ;;
    role <~ Js.get_prop mailbox "role" ;;
    totalEmails <~ Js.get_prop mailbox "totalEmails" ;;
    unreadEmails <~ Js.get_prop mailbox "unreadEmails" ;;
    Returned (JObj [("id", id); ("name", name);
                    ("role", if Js.truthy role then role else JNull);
                    ("totalEmails", totalEmails); ("unreadEmails", unreadEmails)])
  else Returned (JObj [("id", JStr mailboxId); ("name", JNull); ("role", JNull)]).

(** The loop [for (const mailboxId of Object.keys(mailboxIds))]. *)
Fixpoint labelsOf (allMailboxes : jsval) (mailboxIds : list string)
  : outcome (list jsval) :=
  match mailboxIds with
  | [] => Returned []
  | mailboxId :: rest =>
      label <~ labelOf allMailboxes mailboxId ;;
      labels <~ labelsOf allMailboxes rest ;;
      Returned (label :: labels)
  end.

(** export async function getLabels(accountId, emailId) *)
Definition getLabels (accountId : jsval) (emailId : string) : M P jsval :=
  emails <- getEmails P accountId (JArr [JStr emailId]) ["id"; "mailboxIds"] true true ;;
  emailsLength <- lift (Js.get_prop emails "length") ;;
  if Js.strict_eq_zero emailsLength then throw (JsError "Email not found")
  else
    email <- lift (Js.get_index emails 0) ;;
    mailboxIds <- lift (Js.get_prop email "mailboxIds") ;;
    (* !mailboxIds || Object.keys(mailboxIds).length === 0 *)
    keys <- lift (if Js.truthy mailboxIds then Js.Object_keys mailboxIds
                  else Returned []) ;;
    match keys with
    | [] => ret (JArr [])
    | _ :: _ =>
        allMailboxes <- getMailboxes P accountId ;;
        labels <- lift (labelsOf allMailboxes keys) ;;
        ret (JArr labels)
    end.

End Labels.

(* ================================================================== *)
(** * More JavaScript strings: replace and encodeURIComponent *)
(* ================================================================== *)

Module JsText.
Import JsString.

(** [s.slice(n)] for [n] within the string. *)
Fixpoint drop (n : nat) (s : string) : string :=
  match n, s with
  | O, _ => s
  | S _, EmptyString => EmptyString
  | S n', String _ s' => drop n' s'
  end.

(** The text before and the text after the first occurrence of [pattern]
    in [s], as [s.indexOf(pattern)] finds it. *)
Fixpoint splitAtFirst (pattern s : string) : option (string * string) :=
  if startsWith s pattern
  then Some (EmptyString, drop (String.length pattern) s)
  else match s with
       | EmptyString => None
       | String c s' =>
           match splitAtFirst pattern s' with
           | Some (before, after) => Some (String c before, after)
           | None => None
           end
       end.

(** The text a replacement string stands for when the pattern of
    [replace] is a string (no capture groups): $$ is a dollar, $& the
    match, $` the text before the match, $' the text after it, and any
    other text is itself. *)
Fixpoint substitution (matched before after replacement : string) : string :=
  match replacement with
  | EmptyString => EmptyString
  | String c tail =>
      if Ascii.eqb c "$" then
        match tail with
        | EmptyString => String c EmptyString
        | String d rest =>
            if Ascii.eqb d "$" then String "$" (substitution matched before after rest)
            else if Ascii.eqb d "&" then matched ++ substitution matched before after rest
            else if Ascii.eqb d "`" then before ++ substitution matched before after rest
            else if Ascii.eqb d "'" then after ++ substitution matched before after rest
            else String c (substitution matched before after tail)
        end
      else String c (substitution matched before after tail)
  end.

(** [s.replace(pattern, replacement)] with a string pattern: the first
    occurrence only. *)
Definition replace (s pattern replacement : string) : string :=
  match splitAtFirst pattern s with
  | Some (before, after) =>
      before ++ substitution pattern before after replacement ++ after
  | None => s
  end.

(** The characters [encodeURIComponent] leaves as they are: letters,
    digits and - _ . ! ~ * ' ( ) *)
Definition unreserved (c : ascii) : bool :=
  let n := code c in
  ((Nat.leb 65 n && Nat.leb n 90) || (Nat.leb 97 n && Nat.leb n 122)
   || (Nat.leb 48 n && Nat.leb n 57)
   || Nat.eqb n 45 || Nat.eqb n 95 || Nat.eqb n 46 || Nat.eqb n 33
   || Nat.eqb n 126 || Nat.eqb n 42 || Nat.eqb n 39 || Nat.eqb n 40
   || Nat.eqb n 41)%bool.

Definition hexUpper (n : nat) : ascii :=
  ascii_of_nat (if Nat.ltb n 10 then 48 + n else 55 + n).

(** The escape %XX of one code unit (a unit above 127 is escaped as the
    byte it is in the UTF-8 form of the text). *)
Definition escapeUnit (c : ascii) : string :=
  String "%" (String (hexUpper (Nat.div (code c) 16))
                (String (hexUpper (Nat.modulo (code c) 16)) EmptyString)).

(** [encodeURIComponent(s)] *)
Fixpoint encodeURIComponent (s : string) : string :=
  match s with
  | EmptyString => EmptyString
  | String c s' =>
      (if unreserved c then String c EmptyString else escapeUnit c)
      ++ encodeURIComponent s'
  end.

End JsText.

(* ================================================================== *)
(** * More of GenericFunctions: blobs and attachments *)
(* ================================================================== *)

(** The URL [downloadBlob] builds from the downloadUrl of the session:
<<
    session.downloadUrl
      .replace('{accountId}', accountId)
      .replace('{blobId}', blobId)
      .replace('{name}', encodeURIComponent(name))
      .replace('{type}', encodeURIComponent(type))
>> *)
Definition downloadUrl (template accountId blobId name type : string) : string :=
  JsText.replace
    (JsText.replace
       (JsText.replace
          (JsText.replace template "{accountId}" accountId)
          "{blobId}" blobId)
       "{name}" (JsText.encodeURIComponent name))
    "{type}" (JsText.encodeURIComponent type).

Section Blobs.

Variable P : Platform.

(** [this.helpers.prepareBinaryData(buffer, fileName, mimeType)], a
    helper of the host that makes no request. *)
Variable prepareBinaryData : jsval -> jsval -> jsval -> outcome jsval.

Notation "x <- c ;; k" := (bind c (fun x => k))
  (at level 61, c at next level, right associativity).
Notation "x <~ c ;; k" := (Js.bindO c (fun x => k))
  (at level 61, c at next level, right associativity).

(** The receiver of a string method ([replace], [toLowerCase]): any
    other value raises a TypeError at the call. *)
Definition string_receiver (v : jsval) : outcome string :=
  match v with
  | JStr s => Returned s
  | _ => Thrown TypeError
  end.

(** [await this.helpers.httpRequest({ method: 'GET', url, headers,
    encoding: 'arraybuffer' })]: the binary GET of [downloadBlob], which
    is not wrapped in a try; the bytes the helper resolves with are kept
    as the value they arrive as ([Buffer.from] of an ArrayBuffer). *)
Definition httpGetBinary (url : string) : M P jsval :=
  fun h =>
    let call := {| hc_method := GET; hc_endpoint := url; hc_body := JUndefined |} in
    let (reply, s') := httpRequest P (server h) call in
    (match reply with
     | Resolved response => Returned response
     | Rejected reason => Thrown (HttpFailure reason)
     end,
     {| server := s';
        issued := (issued h ++ [call])%list;
        lastProcessedTime := lastProcessedTime h |}).

(** export async function downloadBlob(accountId, blobId, name, type) *)
Definition downloadBlob (accountId blobId name type : jsval) : M P jsval :=
  session <- getJmapSession P ;;
  template <- lift (t <~ Js.get_prop session "downloadUrl" ;; string_receiver t) ;;
  let url := downloadUrl template (Js.String_of accountId) (Js.String_of blobId)
                         (Js.String_of name) (Js.String_of type) in
  httpGetBinary url.

(** [mimeFilters.some((filter) => matchesMimeType(attachment.type, filter))],
    asked only when there are filters. *)
Definition matchesSomeFilter (filters : list string) (attachment : jsval) : outcome bool :=
  if Nat.ltb 0 (List.length filters) then
    type <~ Js.get_prop attachment "type" ;;
    mimeType <~ string_receiver type ;;
    Returned (existsb (fun f => Attachments.matchesMimeType mimeType f) filters)
  else Returned true.

(** The item pushed for a downloaded attachment. *)
Definition attachmentItem (email attachment binaryData : jsval) (attachmentIndex : Z)
  : outcome jsval :=
  emailId <~ Js.get_prop email "id" ;;
  emailSubject <~ Js.get_prop email "subject" ;;
  fileName <~ Js.get_prop attachment "name" ;;
  mimeType <~ Js.get_prop attachment "type" ;;
  fileSize <~ Js.get_prop attachment "size" ;;
  isInline <~ Js.get_prop attachment "isInline" ;;
  Returned (JObj [("json",
                   JObj [("emailId", emailId); ("emailSubject", emailSubject);
                         ("attachmentIndex", JNum attachmentIndex);
                         ("fileName", fileName); ("mimeType", mimeType);
                         ("fileSize", fileSize);
                         ("isInline", if Js.truthy isInline then isInline
                                      else JBool false)]);
                  ("binary", JObj [("file", binaryData)])]).

(** The loop [for (const attachment of attachments)] of [getAttachments],
    from the attachment index it has reached. *)
Fixpoint downloadAttachments (accountId email : jsval) (includeInline : bool)
         (filters : list string) (attachments : list jsval) (attachmentIndex : Z)
  : M P (list jsval) :=
  match attachments with
  | [] => ret []
  | attachment :: rest =>
      isInline <- lift (Js.get_prop attachment "isInline") ;;
      if (Js.truthy isInline && negb includeInline)%bool
      then downloadAttachments accountId email includeInline filters rest attachmentIndex
      else
        matches <- lift (matchesSomeFilter filters attachment) ;;
        if negb matches
        then downloadAttachments accountId email includeInline filters rest
                                 attachmentIndex
        else
          blobId <- lift (Js.get_prop attachment "blobId") ;;
          name <- lift (Js.get_prop attachment "name") ;;
          type <- lift (Js.get_prop attachment "type") ;;
          buffer <- downloadBlob accountId blobId name type ;;
          binaryData <- lift (prepareBinaryData buffer name type) ;;
          item <- lift (attachmentItem email attachment binaryData attachmentIndex) ;;
          items <- downloadAttachments accountId email includeInline filters rest
                                       (attachmentIndex + 1) ;;
          ret (item :: items)
  end.

(** export async function getAttachments(accountId, emailId, options) *)
Definition getAttachments (accountId : jsval) (emailId : string)
           (options : Attachments.IAttachmentOptions) : M P jsval :=
  emails <- getEmails P accountId (JArr [JStr emailId])
                      ["id"; "subject"; "attachments"] true true ;;
  emailsLength <- lift (Js.get_prop emails "length") ;;
  if Js.strict_eq_zero emailsLength
  then throw (JsError ("Email with ID " ++ emailId ++ " not found"))
  else
    email <- lift (Js.get_index emails 0) ;;
    listed <- lift (Js.get_prop email "attachments") ;;
    let attachments := if Js.truthy listed then listed else JArr [] in
    attachmentsLength <- lift (Js.get_prop attachments "length") ;;
    if Js.strict_eq_zero attachmentsLength then ret (JArr [])
    else
      let mimeFilters := Attachments.mimeFilters (Attachments.mimeTypeFilter options) in
      items <- lift (Js.iterate attachments) ;;
      results <- downloadAttachments accountId email
                   (Attachments.includeInline options) mimeFilters items 0 ;;
      ret (JArr results).

End Blobs.

(** The wire form of an attachment of the interface IJmapAttachment. *)
Definition encodeAttachment (a : Attachments.IJmapAttachment) : jsval :=
  JObj ([("blobId", JStr (Attachments.blobId a)); ("type", JStr (Attachments.type a));
         ("name", JStr (Attachments.name a)); ("size", JNum (Attachments.size a))]
        ++ match Attachments.cid a with Some c => [("cid", JStr c)] | None => [] end
        ++ match Attachments.isInline a with
           | Some b => [("isInline", JBool b)]
           | None => []
           end
        ++ match Attachments.partId a with Some p => [("partId", JStr p)] | None => [] end)%list.


(* ================================================================== *)
(** * Jmap.execute: the action node *)
(* ================================================================== *)

(** What [execute] takes from the node it runs in: the number of input
    items, the node parameters by name and item index (typed as the
    source casts them), [continueOnFail()], the helpers returnJsonArray
    and constructExecutionMetaData (with the item index of itemData), the
    message of the Error objects that the runtime and the library make (a
    TypeError, a NodeApiError), prepareBinaryData, and
    [new Date(v).toISOString()], which throws on an invalid date. *)
Record NodeContext : Type := {
  inputItems : nat;
  paramString : string -> nat -> outcome string;
  paramNumber : string -> nat -> outcome Z;
  paramObject : string -> nat -> outcome jsval;
  paramAttachmentOptions : nat -> outcome Attachments.IAttachmentOptions;
  continueOnFail : bool;
  returnJsonArray : jsval -> list jsval;
  constructExecutionMetaData : list jsval -> nat -> list jsval;
  errorMessage : exn -> jsval;
  nodePrepareBinaryData : jsval -> jsval -> jsval -> outcome jsval;
  Date_toISOString : jsval -> outcome jsval
}.

(** [v > 0] for the number a length is (of the other kinds, a boolean
    counts as 0 or 1 and an absent value is not greater; the strings and
    composite values that [>] would first convert are taken as not
    greater). *)
Definition gt_zero (v : jsval) : bool :=
  match v with
  | JNum n => 0 <? n
  | JBool b => b
  | _ => false
  end.

(** [a || b] *)
Definition or_else (a b : jsval) : jsval := if Js.truthy a then a else b.

(** [s.split(',').map((addr) => ({ email: addr.trim() }))] *)
Definition recipients (s : string) : jsval :=
  JArr (map (fun addr => JObj [("email", JStr (JsString.trim addr))])
            (JsString.split "," s)).

Definition bodyValues (message : string) : jsval :=
  JObj [("body", JObj [("value", JStr message); ("isEncodingProblem", JBool false);
                       ("isTruncated", JBool false)])].

(** The assignment of htmlBody or textBody to the email being built. *)
Definition withBodyPart (emailType : string) (email : list (string * jsval))
  : list (string * jsval) :=
  if String.eqb emailType "html"
  then Js.set_field "htmlBody"
         (JArr [JObj [("partId", JStr "body"); ("type", JStr "text/html")]]) email
  else Js.set_field "textBody"
         (JArr [JObj [("partId", JStr "body"); ("type", JStr "text/plain")]]) email.

(** [if (options.k) { email.k = (options.k as string).split(',').map(...) }] *)
Definition withRecipients (k : string) (options : jsval) (email : list (string * jsval))
  : outcome (list (string * jsval)) :=
  Js.bindO (Js.get_prop options k) (fun listed =>
  if Js.truthy listed
  then Js.bindO (string_receiver listed)
         (fun s => Returned (Js.set_field k (recipients s) email))
  else Returned email).

(** The email built by the operations send and createDraft. *)
Definition composeEmail (to subject emailType message : string) (options : jsval)
  : outcome jsval :=
  let email := [("to", recipients to); ("subject", JStr subject);
                ("bodyValues", bodyValues message)] in
  let email := withBodyPart emailType email in
  Js.bindO (withRecipients "cc" options email) (fun email =>
  Js.bindO (withRecipients "bcc" options email) (fun email =>
  Returned (JObj email))).

(** The email built by the operation reply from the original email. *)
Definition replyEmail (originalEmail : jsval) (emailType message : string)
  : outcome jsval :=
  Js.bindO (Js.get_prop originalEmail "replyTo") (fun replyTo =>
  Js.bindO (if Js.truthy replyTo then Returned replyTo
            else Js.get_prop originalEmail "from") (fun to =>
  Js.bindO (Js.get_prop originalEmail "subject") (fun subject =>
  Js.bindO (Js.get_prop originalEmail "id") (fun id =>
  Js.bindO (Js.get_prop originalEmail "threadId") (fun threadId =>
  Returned (JObj (withBodyPart emailType
                    [("to", to); ("subject", JStr ("Re: " ++ Js.String_of subject));
                     ("inReplyTo", id); ("references", id); ("threadId", threadId);
                     ("bodyValues", bodyValues message)]))))))).

Section Execute.

Variable P : Platform.
Variable ctx : NodeContext.

Notation "x <- c ;; k" := (bind c (fun x => k))
  (at level 61, c at next level, right associativity).
Notation "x <~ c ;; k" := (Js.bindO c (fun x => k))
  (at level 61, c at next level, right associativity).

(** [if (options.k) { filter.target = value }] on the filter being built. *)
Definition filterWhen (options : jsval) (k target : string)
           (value : jsval -> outcome jsval) (filter : list (string * jsval))
  : outcome (list (string * jsval)) :=
  chosen <~ Js.get_prop options k ;;
  if Js.truthy chosen
  then (v <~ value chosen ;; Returned (Js.set_field target v filter))
  else Returned filter.

(** The filter built by the operation getMany of the resource email. *)
Definition getManyFilter (mailbox : string) (options : jsval) : outcome jsval :=
  let filter := if JsString.nonempty mailbox then [("inMailbox", JStr mailbox)] else [] in
  filter <~ filterWhen options "after" "after" (Date_toISOString ctx) filter ;;
  filter <~ filterWhen options "before" "before" (Date_toISOString ctx) filter ;;
  filter <~ filterWhen options "from" "from" (fun v => Returned v) filter ;;
  filter <~ filterWhen options "to" "to" (fun v => Returned v) filter ;;
  filter <~ filterWhen options "subject" "subject" (fun v => Returned v) filter ;;
  filter <~ filterWhen options "text" "text" (fun v => Returned v) filter ;;
  filter <~ filterWhen options "hasAttachment" "hasAttachment"
                       (fun _ => Returned (JBool true)) filter ;;
  filter <~ filterWhen options "unreadOnly" "notKeyword"
                       (fun _ => Returned (JStr "$seen")) filter ;;
  filter <~ filterWhen options "flaggedOnly" "hasKeyword"
                       (fun _ => Returned (JStr "$flagged")) filter ;;
  Returned (JObj filter).

(** One [if (operation === name) { responseData = await action }]. *)
Definition whenOperation (operation name : string) (action : M P jsval)
           (responseData : jsval) : M P jsval :=
  if String.eqb operation name then action else ret responseData.

Definition operation_send (accountId : jsval) (i : nat) : M P jsval :=
  fromIdentity <- lift (paramString ctx "fromIdentity" i) ;;
  to <- lift (paramString ctx "to" i) ;;
  subject <- lift (paramString ctx "subject" i) ;;
  emailType <- lift (paramString ctx "emailType" i) ;;
  message <- lift (paramString ctx "message" i) ;;
  options <- lift (paramObject ctx "options" i) ;;
  email <- lift (composeEmail to subject emailType message options) ;;
  sendEmail P accountId email (JStr fromIdentity).

Definition operation_createDraft (accountId : jsval) (i : nat) : M P jsval :=
  to <- lift (paramString ctx "to" i) ;;
  subject <- lift (paramString ctx "subject" i) ;;
  emailType <- lift (paramString ctx "emailType" i) ;;
  message <- lift (paramString ctx "message" i) ;;
  options <- lift (paramObject ctx "options" i) ;;
  email <- lift (composeEmail to subject emailType message options) ;;
  createDraft P accountId email.

Definition operation_get (accountId : jsval) (i : nat) : M P jsval :=
  emailId <- lift (paramString ctx "emailId" i) ;;
  emails <- getEmails P accountId (JArr [JStr emailId]) defaultProperties true true ;;
  first <- lift (Js.get_index emails 0) ;;
  ret (or_else first (JObj [])).

Definition operation_getLabels (accountId : jsval) (i : nat) : M P jsval :=
  emailId <- lift (paramString ctx "emailId" i) ;;
  labels <- getLabels P accountId emailId ;;
  count <- lift (Js.get_prop labels "length") ;;
  ret (JObj [("emailId", JStr emailId); ("labels", labels); ("count", count)]).

(** The branch getAttachments, which pushes its items itself:
    [{ ...result, pairedItem: { item: i } }] for each result. *)
Definition operation_getAttachments (accountId : jsval) (i : nat) : M P (list jsval) :=
  emailId <- lift (paramString ctx "emailId" i) ;;
  attachmentOptions <- lift (paramAttachmentOptions ctx i) ;;
  attachmentResults <- getAttachments P (nodePrepareBinaryData ctx) accountId emailId
                                      attachmentOptions ;;
  results <- lift (Js.iterate attachmentResults) ;;
  ret (map (fun result =>
              JObj (Js.set_field "pairedItem" (JObj [("item", JNum (Z.of_nat i))])
                                 (Js.spread result)))
           results).

Definition operation_getMany (accountId : jsval) (i : nat) : M P jsval :=
  mailbox <- lift (paramString ctx "mailbox" i) ;;
  limit <- lift (paramNumber ctx "limit" i) ;;
  options <- lift (paramObject ctx "getManyOptions" i) ;;
  filter <- lift (getManyFilter mailbox options) ;;
  q <- queryEmails P accountId filter defaultSort limit 0 ;;
  idsLength <- lift (Js.get_prop (ids q) "length") ;;
  if gt_zero idsLength
  then getEmails P accountId (ids q) defaultProperties true true
  else ret (JArr []).

Definition operation_delete (accountId : jsval) (i : nat) : M P jsval :=
  emailId <- lift (paramString ctx "emailId" i) ;;
  deleteEmails P accountId [emailId].

Definition operation_markAs (seen : bool) (accountId : jsval) (i : nat) : M P jsval :=
  emailId <- lift (paramString ctx "emailId" i) ;;
  updateEmailKeywords P accountId emailId (JObj [("$seen", JBool seen)]).

Definition operation_move (accountId : jsval) (i : nat) : M P jsval :=
  emailId <- lift (paramString ctx "emailId" i) ;;
  targetMailbox <- lift (paramString ctx "targetMailbox" i) ;;
  moveEmail P accountId emailId targetMailbox.

Definition operation_addLabel (accountId : jsval) (i : nat) : M P jsval :=
  emailId <- lift (paramString ctx "emailId" i) ;;
  label <- lift (paramString ctx "label" i) ;;
  addLabel P accountId emailId label.

Definition operation_removeLabel (accountId : jsval) (i : nat) : M P jsval :=
  emailId <- lift (paramString ctx "emailId" i) ;;
  label <- lift (paramString ctx "label" i) ;;
  removeLabel P accountId emailId label.

(** The operation reply; the NodeOperationError it throws is an Error
    with the message Original email not found (the node and the item
    index it also carries belong to the host). *)
Definition operation_reply (accountId : jsval) (i : nat) : M P jsval :=
  emailId <- lift (paramString ctx "emailId" i) ;;
  fromIdentity <- lift (paramString ctx "fromIdentity" i) ;;
  emailType <- lift (paramString ctx "emailType" i) ;;
  message <- lift (paramString ctx "message" i) ;;
  emails <- getEmails P accountId (JArr [JStr emailId]) defaultProperties true true ;;
  (* const [originalEmail] = emails *)
  items <- lift (Js.iterate emails) ;;
  let originalEmail := hd JUndefined items in
  if negb (Js.truthy originalEmail)
  then throw (JsError "Original email not found")
  else
    email <- lift (replyEmail originalEmail emailType message) ;;
    sendEmail P accountId email (JStr fromIdentity).

Definition operation_mailbox_get (accountId : jsval) (i : nat) : M P jsval :=
  mailboxId <- lift (paramString ctx "mailboxId" i) ;;
  mailboxes <- getMailboxes P accountId ;;
  mailbox <- lift (items <~ Js.array_receiver mailboxes ;;
                   Js.find (fun mb => id <~ Js.get_prop mb "id" ;;
                                      Returned (Js.strict_eq_str id mailboxId)) items) ;;
  ret (or_else mailbox (JObj [])).

Definition operation_thread_get (accountId : jsval) (i : nat) : M P jsval :=
  threadId <- lift (paramString ctx "threadId" i) ;;
  threads <- getThreads P accountId [threadId] ;;
  first <- lift (Js.get_index threads 0) ;;
  ret (or_else first (JObj [])).

Definition operation_thread_getMany (accountId : jsval) (i : nat) : M P jsval :=
  threadId <- lift (paramString ctx "threadId" i) ;;
  threads <- getThreads P accountId [threadId] ;;
  (* threads.length > 0 && threads[0].emailIds *)
  threadsLength <- lift (Js.get_prop threads "length") ;;
  emailIds <- lift (if gt_zero threadsLength
                    then (first <~ Js.get_index threads 0 ;; Js.get_prop first "emailIds")
                    else Returned (JBool false)) ;;
  if Js.truthy emailIds
  then getEmails P accountId emailIds defaultProperties true true
  else ret (JArr []).

(** The body of the try for the input item [i]: the items it pushes to
    returnData. *)
Definition execute_item (accountId : jsval) (resource operation : string) (i : nat)
  : M P (list jsval) :=
  let wrap (responseData : jsval) : M P (list jsval) :=
    ret (constructExecutionMetaData ctx (returnJsonArray ctx responseData) i) in
  let afterEmail (responseData : jsval) : M P (list jsval) :=
    responseData <- (if String.eqb resource "mailbox" then
                       responseData <- whenOperation operation "getMany"
                                         (getMailboxes P accountId) responseData ;;
                       whenOperation operation "get"
                         (operation_mailbox_get accountId i) responseData
                     else ret responseData) ;;
    responseData <- (if String.eqb resource "thread" then
                       responseData <- whenOperation operation "get"
                                         (operation_thread_get accountId i) responseData ;;
                       whenOperation operation "getMany"
                         (operation_thread_getMany accountId i) responseData
                     else ret responseData) ;;
    wrap responseData in
  let responseData := JObj [] in
  if String.eqb resource "email" then
    responseData <- whenOperation operation "send" (operation_send accountId i)
                      responseData ;;
    responseData <- whenOperation operation "createDraft"
                      (operation_createDraft accountId i) responseData ;;
    responseData <- whenOperation operation "get" (operation_get accountId i)
                      responseData ;;
    responseData <- whenOperation operation "getLabels"
                      (operation_getLabels accountId i) responseData ;;
    if String.eqb operation "getAttachments"
    then operation_getAttachments accountId i
    else
      responseData <- whenOperation operation "getMany"
                        (operation_getMany accountId i) responseData ;;
      responseData <- whenOperation operation "delete"
                        (operation_delete accountId i) responseData ;;
      responseData <- whenOperation operation "markAsRead"
                        (operation_markAs true accountId i) responseData ;;
      responseData <- whenOperation operation "markAsUnread"
                        (operation_markAs false accountId i) responseData ;;
      responseData <- whenOperation operation "move"
                        (operation_move accountId i) responseData ;;
      responseData <- whenOperation operation "addLabel"
                        (operation_addLabel accountId i) responseData ;;
      responseData <- whenOperation operation "removeLabel"
                        (operation_removeLabel accountId i) responseData ;;
      responseData <- whenOperation operation "reply"
                        (operation_reply accountId i) responseData ;;
      afterEmail responseData
  else afterEmail responseData.

(** [(error as Error).message] in the catch of the loop, a property
    access on whatever was thrown.  An Error made by [new Error(text)] has
    the text as message, and the host gives the message of a TypeError and
    of a NodeApiError.  The value a rejected request was rejected with is
    thrown as it is by [downloadBlob]: reading its message throws a
    TypeError when that value is undefined or null. *)
Definition thrownMessage (error : exn) : outcome jsval :=
  match error with
  | JsError message => Returned (JStr message)
  | HttpFailure reason => Js.get_prop reason "message"
  | TypeError | NodeApiError _ _ => Returned (errorMessage ctx error)
  end.

(** The item pushed for an input item whose operation failed, when the
    node continues on failure:
    [{ json: { error: (error as Error).message }, pairedItem: { item: i } }]. *)
Definition errorItem (error : exn) (i : nat) : outcome jsval :=
  message <~ thrownMessage error ;;
  Returned (JObj [("json", JObj [("error", message)]);
                  ("pairedItem", JObj [("item", JNum (Z.of_nat i))])]).

(** The loop [for (let i = 0; i < itemsToProcess; i++)], from the item
    [i] with [remaining] items to go and the items pushed so far. *)
Fixpoint execute_loop (body : nat -> M P (list jsval)) (i remaining : nat)
         (returnData : list jsval) : M P (list jsval) :=
  match remaining with
  | O => ret returnData
  | S remaining' =>
      pushed <- try_catch (body i)
                  (fun error => if continueOnFail ctx
                                then (item <- lift (errorItem error i) ;; ret [item])
                                else throw error) ;;
      execute_loop body (S i) remaining' (returnData ++ pushed)
  end.

(** async execute() *)
Definition execute : M P jsval :=
  resource <- lift (paramString ctx "resource" 0) ;;
  operation <- lift (paramString ctx "operation" 0) ;;
  accountId <- getPrimaryAccountId P ;;
  let itemsToProcess := if String.eqb operation "getMany" then 1%nat
                        else inputItems ctx in
  returnData <- execute_loop (execute_item accountId resource operation)
                             0 itemsToProcess [] ;;
  ret (JArr [JArr returnData]).

End Execute.

(* ================================================================== *)
(** * The option lists of the nodes (methods.loadOptions) *)
(* ================================================================== *)

Section LoadOptions.

Variable P : Platform.

Notation "x <- c ;; k" := (bind c (fun x => k))
  (at level 61, c at next level, right associativity).
Notation "x <~ c ;; k" := (Js.bindO c (fun x => k))
  (at level 61, c at next level, right associativity).

(** [(mailbox) => ({ name: `${mailbox.name} (${mailbox.totalEmails} emails)`,
                     value: mailbox.id })] *)
Definition mailboxOption (mailbox : jsval) : outcome jsval :=
  name <~ Js.get_prop mailbox "name" ;;
  totalEmails <~ Js.get_prop mailbox "totalEmails" ;;
  id <~ Js.get_prop mailbox "id" ;;
  Returned (JObj [("name", JStr (Js.String_of name ++ " (" ++ Js.String_of totalEmails
                                 ++ " emails)"));
                  ("value", id)]).

(** [(identity) => ({ name: `${identity.name} <${identity.email}>`,
                      value: identity.id })] *)
Definition identityOption (identity : jsval) : outcome jsval :=
  name <~ Js.get_prop identity "name" ;;
  email <~ Js.get_prop identity "email" ;;
  id <~ Js.get_prop identity "id" ;;
  Returned (JObj [("name", JStr (Js.String_of name ++ " <" ++ Js.String_of email ++ ">"));
                  ("value", id)]).

(** loadOptions.getMailboxes, of the trigger and of the action node. *)
Definition loadOptions_getMailboxes : M P jsval :=
  accountId <- getPrimaryAccountId P ;;
  mailboxes <- getMailboxes P accountId ;;
  lift (items <~ Js.array_receiver mailboxes ;;
        options <~ Js.map mailboxOption items ;;
        Returned (JArr options)).

(** loadOptions.getIdentities, of the action node. *)
Definition loadOptions_getIdentities : M P jsval :=
  accountId <- getPrimaryAccountId P ;;
  identities <- getIdentities P accountId ;;
  lift (items <~ Js.array_receiver identities ;;
        options <~ Js.map identityOption items ;;
        Returned (JArr options)).

End LoadOptions.

(* ================================================================== *)
(** * Notions used by the further statements *)
(* ================================================================== *)

(** [created.draft] of an Email/set result with the given members,
    [undefined] when there is no created map. *)
Definition createdDraft (fields : list (string * jsval)) : jsval :=
  match Js.get_prop (Js.or_undefined (Js.assoc "created" fields)) "draft" with
  | Returned draft => draft
  | Thrown _ => JUndefined
  end.

(** The Email/get request of [getEmails]. *)
Definition emailGetCall (accountId ids : jsval) (properties : list string)
           (fetchTextBodyValues fetchHTMLBodyValues : bool) : HttpCall :=
  apiCall [("Email/get",
            JObj [("accountId", accountId); ("ids", ids);
                  ("properties", JArr (map JStr properties));
                  ("fetchTextBodyValues", JBool fetchTextBodyValues);
                  ("fetchHTMLBodyValues", JBool fetchHTMLBodyValues);
                  ("maxBodyValueBytes", JNum 1048576)],
            "c1")] defaultUsing.

(** The Mailbox/get request of [getMailboxes]. *)
Definition mailboxGetCall (accountId : jsval) : HttpCall :=
  apiCall [("Mailbox/get", JObj [("accountId", accountId)], "c1")] defaultUsing.

(** The four variables of a download URL template. *)
Inductive placeholder : Type := PAccountId | PBlobId | PName | PType.

Definition placeholderText (v : placeholder) : string :=
  match v with
  | PAccountId => "{accountId}"
  | PBlobId => "{blobId}"
  | PName => "{name}"
  | PType => "{type}"
  end.

Definition placeholder_eqb (v w : placeholder) : bool :=
  match v, w with
  | PAccountId, PAccountId | PBlobId, PBlobId | PName, PName | PType, PType => true
  | _, _ => false
  end.

(** A template as a sequence of literal texts and variables. *)
Inductive piece : Type :=
| Lit (text : string)
| Var (v : placeholder).

Fixpoint render (pieces : list piece) : string :=
  match pieces with
  | [] => EmptyString
  | Lit text :: rest => text ++ render rest
  | Var v :: rest => placeholderText v ++ render rest
  end.

(** The pieces with the first occurrence of the variable [v] replaced by
    the literal [text]. *)
Fixpoint substFirst (v : placeholder) (text : string) (pieces : list piece)
  : list piece :=
  match pieces with
  | [] => []
  | Lit t :: rest => Lit t :: substFirst v text rest
  | Var w :: rest =>
      if placeholder_eqb v w then Lit text :: rest
      else Var w :: substFirst v text rest
  end.

(** The text [s] has no occurrence of the character [c]. *)
Fixpoint freeOf (c : ascii) (s : string) : bool :=
  match s with
  | EmptyString => true
  | String d s' => negb (Ascii.eqb d c) && freeOf c s'
  end.

(** Every literal of the template is free of the opening brace. *)
Fixpoint literalsBraceFree (pieces : list piece) : bool :=
  match pieces with
  | [] => true
  | Lit text :: rest => freeOf "{" text && literalsBraceFree rest
  | Var _ :: rest => literalsBraceFree rest
  end.

(* ================================================================== *)
(** * Sample data for runs on the reference platform *)
(* ================================================================== *)

Module Samples.

Definition sessionWithDownloads : jsval :=
  JObj [("accounts", JObj [("acc1", JObj [("name", JStr "user@example.org")])]);
        ("primaryAccounts", JObj [("urn:ietf:params:jmap:mail", JStr "acc1")]);
        ("downloadUrl",
         JStr "https://jmap.example.org/download/{accountId}/{blobId}/{name}?type={type}")].

Definition logo : Attachments.IJmapAttachment :=
  {| Attachments.blobId := "b1"; Attachments.type := "image/png";
     Attachments.name := "logo.png"; Attachments.size := 512;
     Attachments.cid := Some "logo@example.org"; Attachments.isInline := Some true;
     Attachments.partId := None |}.

Definition report : Attachments.IJmapAttachment :=
  {| Attachments.blobId := "b2"; Attachments.type := "application/pdf";
     Attachments.name := "report 1.pdf"; Attachments.size := 20480;
     Attachments.cid := None; Attachments.isInline := None;
     Attachments.partId := Some "2" |}.

Definition photo : Attachments.IJmapAttachment :=
  {| Attachments.blobId := "b3"; Attachments.type := "image/jpeg";
     Attachments.name := "photo.jpg"; Attachments.size := 90000;
     Attachments.cid := None; Attachments.isInline := Some false;
     Attachments.partId := Some "3" |}.

Definition emailWithAttachments : jsval :=
  JObj [("id", JStr "m1"); ("subject", JStr "files");
        ("attachments", JArr (map encodeAttachment [logo; report; photo]))].

(** A host helper that keeps the bytes and the file name. *)
Definition prepareBinaryData (buffer fileName mimeType : jsval) : outcome jsval :=
  Returned (JObj [("data", buffer); ("fileName", fileName); ("mimeType", mimeType)]).

(** A node context in the manner of the n8n host: every string parameter
    is given by name, returnJsonArray wraps each element of an array (or
    the one object) as the json of an item, constructExecutionMetaData
    pairs each item with the input item, and the message of a
    NodeApiError is its text. *)
Definition parameter (resource operation : string) (name : string) : string :=
  if String.eqb name "resource" then resource
  else if String.eqb name "operation" then operation
  else if String.eqb name "emailId" then "m1"
  else if String.eqb name "emailType" then "text"
  else if String.eqb name "fromIdentity" then "identity1"
  else if String.eqb name "message" then "thanks"
  else EmptyString.

Definition node (items : nat) (resource operation : string) (continue : bool)
  : NodeContext :=
  {| inputItems := items;
     paramString := fun name _ => Returned (parameter resource operation name);
     paramNumber := fun _ _ => Returned 50;
     paramObject := fun _ _ => Returned (JObj []);
     paramAttachmentOptions := fun _ =>
       Returned {| Attachments.includeInline := false;
                   Attachments.mimeTypeFilter := EmptyString |};
     continueOnFail := continue;
     returnJsonArray := fun data =>
       match data with
       | JArr elements => map (fun e => JObj [("json", e)]) elements
       | _ => [JObj [("json", data)]]
       end;
     constructExecutionMetaData := fun inputData i =>
       map (fun data => JObj (Js.set_field "pairedItem" (JObj [("item", JNum (Z.of_nat i))])
                                           (Js.spread data)))
           inputData;
     errorMessage := fun error =>
       match error with
       | NodeApiError message _ => JStr message
       | _ => JStr "Cannot read properties of undefined"
       end;
     nodePrepareBinaryData := prepareBinaryData;
     Date_toISOString := fun v => Returned v |}.

End Samples.
(* ================================================================== *)
(** * Properties of the string functions *)
(* ================================================================== *)

Module JsStringFacts.
Import JsString.

Lemma append_nil_r (s : string) : s ++ EmptyString = s.
Proof. induction s as [|c s IH]; simpl; [reflexivity | now rewrite IH]. Qed.

Lemma append_assoc (a b c : string) : (a ++ b) ++ c = a ++ (b ++ c).
Proof. induction a as [|x a IH]; simpl; [reflexivity | now rewrite IH]. Qed.

Lemma endsWith_unfold (s suffix : string) :
  endsWith s suffix =
  if String.eqb s suffix then true
  else match s with
       | EmptyString => false
       | String _ s' => endsWith s' suffix
       end.
Proof. destruct s; reflexivity. Qed.

Lemma endsWith_spec (s suffix : string) :
  endsWith s suffix = true <-> exists p, s = p ++ suffix.
Proof.
  induction s as [|c s IH]; rewrite endsWith_unfold.
  - destruct (String.eqb_spec EmptyString suffix) as [E|E]; split; intros H.
    + exists EmptyString. now rewrite <- E.
    + reflexivity.
    + discriminate.
    + destruct H as [p Hp]. destruct p; simpl in Hp; [congruence | discriminate].
  - destruct (String.eqb_spec (String c s) suffix) as [E|E]; split; intros H.
    + exists EmptyString. exact E.
    + reflexivity.
    + apply IH in H. destruct H as [p Hp]. exists (String c p). simpl. now rewrite Hp.
    + destruct H as [p Hp]. destruct p as [|a p]; simpl in Hp.
      * congruence.
      * apply IH. exists p. now inversion Hp.
Qed.

Lemma slice_0_m1_snoc (p : string) (c : ascii) :
  slice_0_m1 (p ++ String c EmptyString) = p.
Proof.
  induction p as [|a p IH]; simpl; [reflexivity|].
  rewrite IH. destruct p; reflexivity.
Qed.

Lemma startsWith_spec (s p : string) :
  startsWith s p = true <-> exists rest, s = p ++ rest.
Proof.
  revert s. induction p as [|a p IH]; intros s; simpl.
  - split; [intros _; now exists s | reflexivity].
  - destruct s as [|b s].
    + split; [discriminate | intros [r Hr]; discriminate].
    + rewrite andb_true_iff, IH. split.
      * intros [E [r Hr]]. apply Ascii.eqb_eq in E. subst. now exists r.
      * intros [r Hr]. inversion Hr; subst. split; [apply Ascii.eqb_refl | now exists r].
Qed.

Lemma is_space_lower (c : ascii) : is_space (lower_char c) = is_space c.
Proof. destruct c as [[] [] [] [] [] [] [] []]; reflexivity. Qed.

Lemma toLowerCase_trimStart (s : string) :
  toLowerCase (trimStart s) = trimStart (toLowerCase s).
Proof.
  induction s as [|c s IH]; simpl; [reflexivity|].
  rewrite is_space_lower. destruct (is_space c); [exact IH | reflexivity].
Qed.

Lemma toLowerCase_trimEnd (s : string) :
  toLowerCase (trimEnd s) = trimEnd (toLowerCase s).
Proof.
  induction s as [|c s IH]; simpl; [reflexivity|].
  rewrite <- IH, is_space_lower.
  destruct (trimEnd s); simpl; [destruct (is_space c)|]; reflexivity.
Qed.

Lemma toLowerCase_trim (s : string) : toLowerCase (trim s) = trim (toLowerCase s).
Proof. unfold trim. now rewrite toLowerCase_trimEnd, toLowerCase_trimStart. Qed.

Lemma trimEnd_idem (s : string) : trimEnd (trimEnd s) = trimEnd s.
Proof.
  induction s as [|c s IH]; simpl; [reflexivity|].
  destruct (trimEnd s) as [|a t] eqn:E.
  - destruct (is_space c) eqn:Hc; simpl; [reflexivity | now rewrite Hc].
  - simpl in *. destruct (trimEnd t) eqn:Et.
    + destruct (is_space a); [discriminate | now inversion IH].
    + now inversion IH.
Qed.


Lemma trimStart_leading_ok (s : string) : leading_ok (trimStart s) = true.
Proof.
  induction s as [|c s IH]; simpl; [reflexivity|].
  destruct (is_space c) eqn:Hc; [exact IH | simpl; now rewrite Hc].
Qed.

Lemma trimStart_fix (s : string) : leading_ok s = true -> trimStart s = s.
Proof.
  destruct s as [|c s]; simpl; [reflexivity|].
  intros H. apply negb_true_iff in H. now rewrite H.
Qed.

Lemma trimEnd_leading_ok (s : string) :
  leading_ok s = true -> leading_ok (trimEnd s) = true.
Proof.
  destruct s as [|c s]; simpl; [reflexivity|].
  intros H. apply negb_true_iff in H.
  destruct (trimEnd s); [rewrite H|]; simpl; rewrite H; reflexivity.
Qed.

Lemma trim_idem (s : string) : trim (trim s) = trim s.
Proof.
  unfold trim.
  rewrite (trimStart_fix _ (trimEnd_leading_ok _ (trimStart_leading_ok s))).
  apply trimEnd_idem.
Qed.

End JsStringFacts.

(* ================================================================== *)
(** * Properties of the attachment selection *)
(* ================================================================== *)

Module AttachmentFacts.
Import JsString JsStringFacts Attachments.

(** Every pattern [getAttachments] derives from the option is trimmed. *)
Lemma mimeFilters_trimmed (raw f : string) :
  In f (mimeFilters raw) -> trim f = f.
Proof.
  unfold mimeFilters. destruct (nonempty raw); [|intros []].
  intros H. apply filter_In in H. destruct H as [H _].
  apply in_map_iff in H. destruct H as [g [Hg _]]. subst f. apply trim_idem.
Qed.

Lemma wildcard_prefix (p : string) : slice_0_m1 (p ++ "/*") = p ++ "/".
Proof.
  change "/*" with ("/" ++ "*"). rewrite <- append_assoc. apply slice_0_m1_snoc.
Qed.

(** With [pattern] the filter lowercased and then trimmed: a pattern
    ending in /* matches the types that start, lowercased, with what
    precedes the star, and any other pattern matches the types equal to
    it once lowercased. *)
Lemma matchesMimeType_on_pattern (mimeType filter : string) :
  let pattern := trim (toLowerCase filter) in
  (forall p, pattern = p ++ "/*" ->
     (matchesMimeType mimeType filter = true <->
      exists rest, toLowerCase mimeType = p ++ "/" ++ rest))
  /\ ((forall p, pattern <> p ++ "/*") ->
      (matchesMimeType mimeType filter = true <-> toLowerCase mimeType = pattern)).
Proof.
  intros pattern. unfold matchesMimeType. fold pattern. split.
  - intros p Hp.
    assert (E : endsWith pattern "/*" = true) by (apply endsWith_spec; now exists p).
    rewrite E, Hp, wildcard_prefix. rewrite startsWith_spec.
    split; intros [rest Hr]; exists rest; now rewrite Hr, append_assoc.
  - intros Hn. destruct (endsWith pattern "/*") eqn:E.
    + apply endsWith_spec in E. destruct E as [p Hp]. now destruct (Hn p).
    + apply String.eqb_eq.
Qed.

Lemma toLowerCase_append (a b : string) :
  toLowerCase (a ++ b) = toLowerCase a ++ toLowerCase b.
Proof. induction a as [|c a IH]; simpl; [reflexivity | now rewrite IH]. Qed.

Lemma lower_char_slash (c : ascii) : lower_char c = "/"%char -> c = "/"%char.
Proof. destruct c as [[] [] [] [] [] [] [] []]; intros H; try reflexivity; discriminate H. Qed.

Lemma lower_char_star (c : ascii) : lower_char c = "*"%char -> c = "*"%char.
Proof. destruct c as [[] [] [] [] [] [] [] []]; intros H; try reflexivity; discriminate H. Qed.

(** Lowercasing neither makes nor unmakes a final /*. *)
Lemma toLowerCase_wildcard (s q : string) :
  toLowerCase s = q ++ "/*" -> exists p, s = p ++ "/*".
Proof.
  revert q. induction s as [|c s IH]; intros q H.
  - destruct q; discriminate H.
  - destruct q as [|d q]; cbn in H.
    + destruct s as [|c2 [|c3 s]]; cbn in H; try discriminate H.
      injection H as H1 H2.
      apply lower_char_slash in H1. apply lower_char_star in H2. subst.
      now exists EmptyString.
    + injection H as _ H. destruct (IH q H) as [p Hp].
      exists (String c p). cbn. now rewrite Hp.
Qed.

End AttachmentFacts.

(** C8: for every MIME type and every filter pattern that reaches the
    matcher, that is every pattern of the list [getAttachments] parses
    from its option (the matcher is private to the module and this is its
    only caller): for a pattern type/* the matcher answers true exactly
    when the lowercased type starts with the lowercased prefix before the
    star, and for a pattern without the final /* exactly when the type and
    the pattern are equal once lowercased.  The three sample calls give
    true, false and true, and with an empty filter list the filter by
    MIME type of [getAttachments] accepts every attachment. *)
Theorem C8_matchesMimeType_wildcard_and_exact (raw mimeType filter : string) :
  In filter (Attachments.mimeFilters raw) ->
  (forall p, filter = p ++ "/*" ->
     (Attachments.matchesMimeType mimeType filter = true <->
      exists rest,
        JsString.toLowerCase mimeType = JsString.toLowerCase (p ++ "/") ++ rest))
  /\ ((forall p, filter <> p ++ "/*") ->
      (Attachments.matchesMimeType mimeType filter = true <->
       JsString.toLowerCase mimeType = JsString.toLowerCase filter))
  /\ Attachments.matchesMimeType "image/png" "image/*" = true
  /\ Attachments.matchesMimeType "image/png" "image/jpeg" = false
  /\ Attachments.matchesMimeType "IMAGE/PNG" "image/png" = true
  /\ (forall attachment, matchesSomeFilter [] attachment = Returned true).
Proof.
  intros Hin.
  assert (Hp : JsString.trim (JsString.toLowerCase filter) = JsString.toLowerCase filter).
  { rewrite <- JsStringFacts.toLowerCase_trim.
    now rewrite (AttachmentFacts.mimeFilters_trimmed _ _ Hin). }
  destruct (AttachmentFacts.matchesMimeType_on_pattern mimeType filter) as [Hw He].
  rewrite Hp in Hw, He.
  split; [|split; [|repeat split]].
  - intros p ->.
    rewrite (Hw (JsString.toLowerCase p))
      by (now rewrite AttachmentFacts.toLowerCase_append).
    rewrite AttachmentFacts.toLowerCase_append.
    split; intros [rest Hr]; exists rest; rewrite Hr;
      [symmetry|]; apply JsStringFacts.append_assoc.
  - intros Hn. apply He. intros q Hq.
    destruct (AttachmentFacts.toLowerCase_wildcard _ _ Hq) as [p Hp']. now destruct (Hn p).
Qed.

(** The patterns parsed from an option with a wildcard and an exact
    pattern, written with capitals and with white space around. *)
Lemma C8_matchesMimeType_wildcard_and_exact_witness :
  (Attachments.matchesMimeType "Image/PNG" "Image/*" = true <->
   exists rest, JsString.toLowerCase "Image/PNG" = JsString.toLowerCase ("Image" ++ "/") ++ rest)
  /\ (Attachments.matchesMimeType "text/plain" "Text/Plain" = true <->
      JsString.toLowerCase "text/plain" = JsString.toLowerCase "Text/Plain").
Proof.
  split.
  - apply (proj1 (C8_matchesMimeType_wildcard_and_exact " Image/* , Text/Plain ,"
                    "Image/PNG" "Image/*" (or_introl eq_refl)) "Image").
    reflexivity.
  - apply (proj1 (proj2 (C8_matchesMimeType_wildcard_and_exact " Image/* , Text/Plain ,"
                           "text/plain" "Text/Plain" (or_intror (or_introl eq_refl))))).
    intros p Hp.
    assert (E : JsString.endsWith "Text/Plain" "/*" = true)
      by (apply JsStringFacts.endsWith_spec; exists p; exact Hp).
    discriminate E.
Defined.

(* ================================================================== *)
(** * The primary account *)
(* ================================================================== *)


Lemma get_prop_truthy (v : jsval) (k : string) :
  Js.truthy v = true -> exists x, Js.get_prop v k = Returned x.
Proof. destruct v; simpl; try discriminate; eauto. Qed.

Lemma primaryMailEntry_guard (session pas : jsval) :
  Js.get_prop session "primaryAccounts" = Returned pas ->
  exists primary,
    (if Js.truthy pas then Js.get_prop pas JMAP_CAPABILITIES_MAIL else Returned pas)
    = Returned primary
    /\ Js.truthy primary = Js.truthy (primaryMailEntry session)
    /\ (Js.truthy primary = true -> primary = primaryMailEntry session).
Proof.
  intros H. unfold primaryMailEntry. rewrite H.
  destruct pas as [| |b|n|s|items|m]; simpl;
    [ | | destruct b | destruct (n =? 0) eqn:E | destruct s | | ]; simpl;
    eexists; (split; [reflexivity|]); simpl; try rewrite E;
    (split; [reflexivity | intros; try discriminate; reflexivity]).
Qed.

(** C7, as amended: for every session whose accounts member is an object,
    [getPrimaryAccountId] returns the primaryAccounts entry of the mail
    capability when that entry is truthy (present and not the empty
    string); otherwise the first key of accounts when there is one; and it
    fails with the error No JMAP account found exactly when accounts is
    empty and there is no truthy primary mail entry. *)
Theorem C7_getPrimaryAccountId_resolution
        (P : Platform) (h h' : Host P) (session : jsval)
        (accounts : list (string * jsval)) :
  getJmapSession P h = (Returned session, h') ->
  Js.get_prop session "accounts" = Returned (JObj accounts) ->
  let primary := primaryMailEntry session in
  getPrimaryAccountId P h =
    ((if Js.truthy primary then Returned primary
      else match accounts with
           | (first, _) :: _ => Returned (JStr first)
           | [] => Thrown (JsError "No JMAP account found")
           end), h')
  /\ (fst (getPrimaryAccountId P h) = Thrown (JsError "No JMAP account found")
      <-> (Js.truthy primary = false /\ accounts = [])).
Proof.
  intros Hs Ha primary.
  assert (Heq : getPrimaryAccountId P h =
    ((if Js.truthy primary then Returned primary
      else match accounts with
           | (first, _) :: _ => Returned (JStr first)
           | [] => Thrown (JsError "No JMAP account found")
           end), h')).
  { unfold getPrimaryAccountId, bind. rewrite Hs. unfold lift.
    assert (Hp : exists pas, Js.get_prop session "primaryAccounts" = Returned pas).
    { destruct session; simpl in *; try discriminate; eauto. }
    destruct Hp as [pas Hp]. rewrite Hp.
    destruct (primaryMailEntry_guard _ _ Hp) as [x [Hx [Ht Hv]]].
    rewrite Hx. fold primary in Ht, Hv. rewrite Ht.
    destruct (Js.truthy primary) eqn:E.
    - rewrite Hv by (now rewrite Ht). reflexivity.
    - rewrite Ha. simpl. destruct accounts as [|[first a] rest]; reflexivity. }
  split; [exact Heq|].
  rewrite Heq. simpl. destruct (Js.truthy primary).
  - split; [discriminate | intros [H _]; discriminate].
  - destruct accounts as [|[first a] rest].
    + split; auto.
    + split; [discriminate | intros [_ H]; discriminate].
Qed.

(** A session with a primary mail account, and one without the map. *)
Lemma C7_getPrimaryAccountId_resolution_witness :
  fst (getPrimaryAccountId Reference.platform
         (Reference.host [Resolved Reference.session] JUndefined))
  = Returned (JStr "acc1")
  /\ fst (getPrimaryAccountId Reference.platform
            (Reference.host [Resolved (JObj [("accounts", JObj [])])] JUndefined))
     = Thrown (JsError "No JMAP account found").
Proof.
  split.
  - rewrite (proj1 (@C7_getPrimaryAccountId_resolution Reference.platform
                      (Reference.host [Resolved Reference.session] JUndefined) _
                      Reference.session _ eq_refl eq_refl)).
    reflexivity.
  - apply (proj2 (@C7_getPrimaryAccountId_resolution Reference.platform
                    (Reference.host [Resolved (JObj [("accounts", JObj [])])] JUndefined) _
                    (JObj [("accounts", JObj [])]) [] eq_refl eq_refl)).
    split; reflexivity.
Defined.

(** C7, as stated, fails on a session whose primary mail entry is present
    but is the empty string: the entry is not returned, the first account
    key is; and with no account the call fails although the entry exists. *)
Lemma C7_present_but_empty_entry_counterexample :
  let withAccount :=
    JObj [("accounts", JObj [("acc1", JObj [])]);
          ("primaryAccounts", JObj [("urn:ietf:params:jmap:mail", JStr EmptyString)])] in
  let withoutAccount :=
    JObj [("accounts", JObj []);
          ("primaryAccounts", JObj [("urn:ietf:params:jmap:mail", JStr EmptyString)])] in
  Js.get_prop withAccount "primaryAccounts"
    = Returned (JObj [(JMAP_CAPABILITIES_MAIL, JStr EmptyString)])
  /\ fst (getPrimaryAccountId Reference.platform
            (Reference.host [Resolved withAccount] JUndefined))
     = Returned (JStr "acc1")
  /\ fst (getPrimaryAccountId Reference.platform
            (Reference.host [Resolved withoutAccount] JUndefined))
     = Thrown (JsError "No JMAP account found").
Proof. repeat split. Qed.

(* ================================================================== *)
(** * Reading typed envelopes *)
(* ================================================================== *)

Section Envelopes.

Variable P : Platform.


Lemma throwOnError_typed (entries : list MethodResponse) :
  throwOnError P (map encodeResponse entries) =
  match firstError entries with
  | Some e => Thrown (JsError ("JMAP error: " ++ JSON_stringify P (mr_result e)))
  | None => Returned tt
  end.
Proof.
  induction entries as [|e rest IH]; simpl; [reflexivity|].
  destruct (String.eqb (mr_name e) "error"); [reflexivity | exact IH].
Qed.

Lemma sendEmail_result_typed (entries : list MethodResponse) (st : string) :
  sendEmail_result P (IJmapResponse entries st) =
  match firstError entries with
  | Some e => Thrown (JsError ("JMAP error: " ++ JSON_stringify P (mr_result e)))
  | None =>
      match nth_error entries 1 with
      | Some second => Returned (mr_result second)
      | None => Thrown TypeError
      end
  end.
Proof.
  unfold sendEmail_result. simpl. rewrite throwOnError_typed.
  destruct (firstError entries); simpl; [reflexivity|].
  destruct entries as [|e0 [|e1 rest]]; reflexivity.
Qed.

Lemma expectFirst_typed (method failure : string) (select : jsval -> outcome jsval)
      (entries : list MethodResponse) (st : string) :
  expectFirst method failure select (IJmapResponse entries st) =
  match entries with
  | [] => Thrown TypeError
  | first :: _ =>
      if String.eqb (mr_name first) method then select (mr_result first)
      else Thrown (JsError failure)
  end.
Proof. destruct entries; reflexivity. Qed.

Lemma queryEmails_result_typed (entries : list MethodResponse) (st : string) :
  queryEmails_result (IJmapResponse entries st) =
  match entries with
  | [] => Thrown TypeError
  | first :: _ =>
      if String.eqb (mr_name first) "Email/query"
      then Js.bindO (Js.get_prop (mr_result first) "ids") (fun i =>
           Js.bindO (Js.get_prop (mr_result first) "total") (fun t =>
           Returned {| ids := i; total := t |}))
      else Thrown (JsError "Failed to query emails")
  end.
Proof. destruct entries; reflexivity. Qed.

Lemma createDraft_result_error (first : MethodResponse)
      (rest : list MethodResponse) (st : string) :
  mr_name first = "error" ->
  createDraft_result P (IJmapResponse (first :: rest) st) =
  Thrown (JsError ("JMAP error: " ++ JSON_stringify P (mr_result first))).
Proof. intros H. unfold createDraft_result. simpl. now rewrite H. Qed.

Lemma firstError_relabel (f : string -> string) (entries : list MethodResponse) :
  firstError (map (relabel f) entries) = option_map (relabel f) (firstError entries).
Proof.
  induction entries as [|e rest IH]; simpl; [reflexivity|].
  destruct (String.eqb (mr_name e) "error"); [reflexivity | exact IH].
Qed.

Lemma firstError_some (entries : list MethodResponse) :
  (exists e, In e entries /\ mr_name e = "error") ->
  exists e, firstError entries = Some e /\ In e entries /\ mr_name e = "error".
Proof.
  intros [e [Hin He]]. unfold firstError.
  destruct (find (fun e => String.eqb (mr_name e) "error") entries) as [x|] eqn:F.
  - apply find_some in F. destruct F as [Hx Hn]. apply String.eqb_eq in Hn. eauto.
  - apply (find_none _ _ F) in Hin. rewrite He in Hin. discriminate.
Qed.

Lemma firstError_none (entries : list MethodResponse) :
  (forall e, In e entries -> mr_name e <> "error") -> firstError entries = None.
Proof.
  intros H. unfold firstError.
  destruct (find (fun e => String.eqb (mr_name e) "error") entries) as [x|] eqn:F;
    [|reflexivity].
  apply find_some in F. destruct F as [Hx Hn]. apply String.eqb_eq in Hn.
  now destruct (H x Hx).
Qed.

End Envelopes.

(** C4, as amended: the client reads a response envelope by position and
    never looks at the call ids.  Changing the call ids of the entries
    changes neither the result of [sendEmail] nor that of [queryEmails];
    [sendEmail] returns the result of the second entry once no entry is
    named error, and [queryEmails] reads ids and total from the first
    entry when it is named Email/query.  The results belong to the right
    calls when the server answers in call order. *)
Theorem C4_responses_read_by_position
        (P : Platform) (entries : list MethodResponse) (st : string) :
  (forall f, sendEmail_result P (IJmapResponse (map (relabel f) entries) st)
             = sendEmail_result P (IJmapResponse entries st))
  /\ (forall f, queryEmails_result (IJmapResponse (map (relabel f) entries) st)
                = queryEmails_result (IJmapResponse entries st))
  /\ (forall e0 e1 rest,
        entries = e0 :: e1 :: rest ->
        (forall e, In e entries -> mr_name e <> "error") ->
        sendEmail_result P (IJmapResponse entries st) = Returned (mr_result e1))
  /\ (forall e0 rest,
        entries = e0 :: rest ->
        mr_name e0 = "Email/query" ->
        queryEmails_result (IJmapResponse entries st) =
        Js.bindO (Js.get_prop (mr_result e0) "ids") (fun i =>
        Js.bindO (Js.get_prop (mr_result e0) "total") (fun t =>
        Returned {| ids := i; total := t |}))).
Proof.
  repeat split.
  - intros f. rewrite !sendEmail_result_typed, firstError_relabel.
    destruct (firstError entries); cbn [option_map]; [reflexivity|].
    rewrite nth_error_map. destruct (nth_error entries 1); reflexivity.
  - intros f. rewrite !queryEmails_result_typed. destruct entries; reflexivity.
  - intros e0 e1 rest He Hn. rewrite sendEmail_result_typed, (firstError_none _ Hn).
    now subst entries.
  - intros e0 rest He Hn. rewrite queryEmails_result_typed. subst entries.
    now rewrite Hn.
Qed.

(** A send envelope answered in call order. *)
Lemma C4_responses_read_by_position_witness :
  let created := {| mr_name := "Email/set"; mr_result := JObj [("created", JNull)];
                    mr_callId := "c1" |} in
  let sent := {| mr_name := "EmailSubmission/set";
                 mr_result := JObj [("created", JObj [])]; mr_callId := "c2" |} in
  let found := {| mr_name := "Email/query";
                  mr_result := JObj [("ids", JArr [JStr "e1"]); ("total", JNum 1)];
                  mr_callId := "c1" |} in
  sendEmail_result Reference.platform (IJmapResponse [created; sent] "s1")
  = Returned (JObj [("created", JObj [])])
  /\ queryEmails_result (IJmapResponse [found] "s1")
     = Returned {| ids := JArr [JStr "e1"]; total := JNum 1 |}.
Proof.
  intros created sent found. split.
  - apply (proj1 (proj2 (proj2
             (C4_responses_read_by_position Reference.platform [created; sent] "s1")))
             created sent [] eq_refl).
    intros e [H|[H|[]]]; subst e; discriminate.
  - apply (proj2 (proj2 (proj2
             (C4_responses_read_by_position Reference.platform [found] "s1")))
             found [] eq_refl eq_refl).
Defined.

(** C4, as stated, fails: when the two entries of a send envelope arrive
    in the other order, [sendEmail] returns the result that bears the call
    id c1 of the draft creation, not the one of the submission c2. *)
Lemma C4_reordered_envelope_counterexample :
  let draft := {| mr_name := "Email/set";
                  mr_result := JObj [("created", JObj [("draft", JObj [("id", JStr "m1")])])];
                  mr_callId := "c1" |} in
  let submission := {| mr_name := "EmailSubmission/set";
                       mr_result := JObj [("created", JObj [("send", JObj [("id", JStr "s1")])])];
                       mr_callId := "c2" |} in
  Permutation [draft; submission] [submission; draft]
  /\ sendEmail_result Reference.platform (IJmapResponse [draft; submission] "s1")
     = Returned (mr_result submission)
  /\ sendEmail_result Reference.platform (IJmapResponse [submission; draft] "s1")
     = Returned (mr_result draft)
  /\ mr_callId draft = "c1"
  /\ mr_result draft <> mr_result submission.
Proof.
  intros draft submission.
  split; [apply perm_swap|].
  repeat split. discriminate.
Qed.

(** The reading of an error entry: when some entry of the response is
    named error, [sendEmail] throws an Error whose message is JMAP error:
    followed by the JSON text of the payload of an entry named error (the
    first one), and [createDraft] does so when its first entry is named
    error.  Every other operation reads the first entry only, and throws
    when that entry is named error (the method name it expects being
    another one), as [updateEmailKeywords] does. *)
Lemma error_entry_aborts_send_and_draft
      (P : Platform) (entries : list MethodResponse) (st : string) :
  ((exists e, In e entries /\ mr_name e = "error") ->
   exists e, In e entries /\ mr_name e = "error"
             /\ sendEmail_result P (IJmapResponse entries st)
                = Thrown (JsError ("JMAP error: " ++ JSON_stringify P (mr_result e))))
  /\ (forall e0 rest,
        entries = e0 :: rest -> mr_name e0 = "error" ->
        createDraft_result P (IJmapResponse entries st)
        = Thrown (JsError ("JMAP error: " ++ JSON_stringify P (mr_result e0))))
  /\ (forall e0 rest method failure select,
        entries = e0 :: rest -> mr_name e0 = "error" -> method <> "error" ->
        exists e, expectFirst method failure select (IJmapResponse entries st)
                  = Thrown e)
  /\ (forall e0 rest,
        entries = e0 :: rest -> mr_name e0 = "error" ->
        exists e, updateEmailKeywords_result (IJmapResponse entries st) = Thrown e).
Proof.
  repeat split.
  - intros H. destruct (firstError_some _ H) as [e [Hf [Hin He]]].
    exists e. repeat split; auto. now rewrite sendEmail_result_typed, Hf.
  - intros e0 rest -> He. now apply createDraft_result_error.
  - intros e0 rest method failure select -> He Hm. exists (JsError failure).
    rewrite expectFirst_typed, He.
    destruct (String.eqb_spec "error" method); [congruence | reflexivity].
  - intros e0 rest -> He. exists (JsError "Failed to update email").
    unfold updateEmailKeywords_result. rewrite expectFirst_typed, He. reflexivity.
Qed.

(* ================================================================== *)
(** * Effects of the operations on the host *)
(* ================================================================== *)

Section Runs.

Context {P : Platform}.

Lemma hostPure_ret A (a : A) : hostPure (@ret P A a).
Proof. intros h. reflexivity. Qed.

Lemma hostPure_throw A (e : exn) : hostPure (@throw P A e).
Proof. intros h. reflexivity. Qed.

Lemma hostPure_lift A (o : outcome A) : hostPure (@lift P A o).
Proof. intros h. reflexivity. Qed.

Lemma hostPure_bind A B (m : M P A) (k : A -> M P B) :
  hostPure m -> (forall a, hostPure (k a)) -> hostPure (bind m k).
Proof.
  intros Hm Hk h. unfold bind. specialize (Hm h).
  destruct (m h) as [[a|e] h1]; simpl in Hm; subst h1; [apply Hk | reflexivity].
Qed.

Lemma issuesOne_makeJmapRequest method endpoint body :
  issuesOne (makeJmapRequest P method endpoint body)
            {| hc_method := method; hc_endpoint := endpoint; hc_body := body |}.
Proof.
  intros h. unfold makeJmapRequest.
  destruct (httpRequest P (server h) _) as [reply s']. split; reflexivity.
Qed.

Lemma issuesOne_try_throw A (m : M P A) (wrap : exn -> exn) call :
  issuesOne m call -> issuesOne (try_catch m (fun e => throw (wrap e))) call.
Proof.
  intros Hm h. unfold try_catch, throw. specialize (Hm h).
  destruct (m h) as [[a|e] h1]; exact Hm.
Qed.

Lemma issuesOne_bind_pure A B (m : M P A) (k : A -> M P B) call :
  issuesOne m call -> (forall a, hostPure (k a)) -> issuesOne (bind m k) call.
Proof.
  intros Hm Hk h. unfold bind. specialize (Hm h).
  destruct (m h) as [[a|e] h1]; simpl in Hm; [rewrite Hk|]; exact Hm.
Qed.

Lemma issuesOne_jmapApiRequest methodCalls using_ :
  issuesOne (jmapApiRequest P methodCalls using_) (apiCall methodCalls using_).
Proof. apply issuesOne_try_throw, issuesOne_makeJmapRequest. Qed.

Lemma issuesOne_getJmapSession : issuesOne (getJmapSession P) sessionCall.
Proof. apply issuesOne_try_throw, issuesOne_makeJmapRequest. Qed.

Lemma issuesOne_getPrimaryAccountId : issuesOne (getPrimaryAccountId P) sessionCall.
Proof.
  apply issuesOne_bind_pure; [apply issuesOne_getJmapSession|].
  intros session.
  apply hostPure_bind; [apply hostPure_lift|]. intros primaryAccounts.
  apply hostPure_bind; [apply hostPure_lift|]. intros primary.
  destruct (Js.truthy primary); [apply hostPure_ret|].
  apply hostPure_bind; [apply hostPure_lift|]. intros accounts.
  apply hostPure_bind; [apply hostPure_lift|]. intros accountIds.
  destruct accountIds; [apply hostPure_throw | apply hostPure_ret].
Qed.

Lemma issuesOne_queryEmails accountId filter sort limit position :
  issuesOne (queryEmails P accountId filter sort limit position)
            (apiCall (queryEmails_calls accountId filter sort limit position)
                     defaultUsing).
Proof.
  apply issuesOne_bind_pure; [apply issuesOne_jmapApiRequest|].
  intros response. apply hostPure_lift.
Qed.

Lemma issuesOne_getMailboxes accountId :
  issuesOne (getMailboxes P accountId)
            (apiCall [("Mailbox/get", JObj [("accountId", accountId)], "c1")]
                     defaultUsing).
Proof.
  apply issuesOne_bind_pure; [apply issuesOne_jmapApiRequest|].
  intros response. apply hostPure_lift.
Qed.

Lemma issuesOne_findMailboxByRole accountId role :
  issuesOne (findMailboxByRole P accountId role)
            (apiCall [("Mailbox/get", JObj [("accountId", accountId)], "c1")]
                     defaultUsing).
Proof.
  apply issuesOne_bind_pure; [apply issuesOne_getMailboxes|].
  intros mailboxes. apply hostPure_lift.
Qed.

Lemma issuesOne_updateEmailKeywords accountId emailId keywords :
  issuesOne (updateEmailKeywords P accountId emailId keywords)
            (apiCall (updateEmailKeywords_calls accountId emailId keywords)
                     defaultUsing).
Proof.
  apply issuesOne_bind_pure; [apply issuesOne_jmapApiRequest|].
  intros response. apply hostPure_lift.
Qed.

(** The run of a computation keeps the last processed time when the
    computation issues one call. *)
Lemma issuesOne_keeps {A} {m : M P A} {call h r h'} :
  issuesOne m call -> m h = (r, h') -> lastProcessedTime h' = lastProcessedTime h.
Proof. intros Hm E. specialize (Hm h). rewrite E in Hm. apply Hm. Qed.

(* ------------------------------------------------------------------ *)
(** ** The two parts of a poll cycle *)
(* ------------------------------------------------------------------ *)

Lemma poll_run (params : TriggerParameters) (h : Host P) :
  poll P params h =
  match poll_fetch P params (lastProcessedTime h) h with
  | (Returned None, h1) => (Returned JNull, h1)
  | (Returned (Some emails), h1) =>
      poll_emit P params (lastProcessedTime h) emails h1
  | (Thrown e, h1) => (Thrown e, h1)
  end.
Proof.
  unfold poll, bind, getLastProcessedTime.
  destruct (poll_fetch P params (lastProcessedTime h) h) as [[[emails|]|e] h1];
    reflexivity.
Qed.

Lemma poll_fetch_empty_query {params : TriggerParameters} {h h' : Host P} :
  emptyQueryCycle P params h h' ->
  poll_fetch P params (lastProcessedTime h) h = (Returned None, h')
  /\ lastProcessedTime h' = lastProcessedTime h.
Proof.
  intros [accountId [q [h1 [Ha [Hq Hi]]]]]. split.
  - unfold poll_fetch, bind. rewrite Ha, Hq. unfold lift. rewrite Hi. reflexivity.
  - rewrite (issuesOne_keeps (issuesOne_queryEmails _ _ _ _ _) Hq).
    apply (issuesOne_keeps issuesOne_getPrimaryAccountId Ha).
Qed.

End Runs.

(** C9: a poll cycle whose Email/query answers an empty list of ids
    returns null and leaves the last processed time as it was; a second
    such cycle right after it returns null again and the last processed
    time is still the one the first cycle started from. *)
Theorem C9_empty_query_cycle_is_idempotent
        (P : Platform) (params : TriggerParameters) (h h' : Host P) :
  emptyQueryCycle P params h h' ->
  poll P params h = (Returned JNull, h')
  /\ lastProcessedTime h' = lastProcessedTime h
  /\ (forall h'', emptyQueryCycle P params h' h'' ->
                  poll P params h' = (Returned JNull, h'')
                  /\ lastProcessedTime h'' = lastProcessedTime h).
Proof.
  assert (once : forall a b, emptyQueryCycle P params a b ->
                 poll P params a = (Returned JNull, b)
                 /\ lastProcessedTime b = lastProcessedTime a).
  { intros a b Hc. destruct (poll_fetch_empty_query Hc) as [Hf Hw].
    split; [|exact Hw]. rewrite poll_run, Hf. reflexivity. }
  intros Hc. destruct (once _ _ Hc) as [Hp Hw].
  split; [exact Hp|]. split; [exact Hw|].
  intros h'' Hc'. destruct (once _ _ Hc') as [Hp' Hw'].
  split; [exact Hp'|]. now rewrite Hw'.
Qed.

(* ================================================================== *)
(** * The deduplication of a poll cycle *)
(* ================================================================== *)

Section PollFacts.

Context {P : Platform}.


Lemma filter_nil_head {p : jsval -> outcome bool} {a : jsval} {items : list jsval} :
  Js.filter p (a :: items) = Returned [] -> p a = Returned false.
Proof.
  simpl. destruct (p a) as [b|e]; simpl; [|discriminate].
  destruct (Js.filter p items) as [k|e]; simpl; [|discriminate].
  destruct b; [discriminate | reflexivity].
Qed.





Lemma isNewerThan_false {wm email : jsval} :
  isNewerThan P wm email = Returned false ->
  exists receivedAt,
    Js.get_prop email "receivedAt" = Returned receivedAt
    /\ Js.gt_time (Date_getTime P receivedAt) (Date_getTime P wm) = false.
Proof.
  unfold isNewerThan. destruct (Js.get_prop email "receivedAt") as [r|e]; simpl;
    [|discriminate].
  intros H. inversion H. eauto.
Qed.


(** Fetched emails none of which is later than the last processed time
    are all removed by the strict filter. *)
Lemma filter_none_newer (wm : jsval) (items : list jsval) :
  (forall email, In email items ->
     exists receivedAt,
       Js.get_prop email "receivedAt" = Returned receivedAt
       /\ Js.gt_time (Date_getTime P receivedAt) (Date_getTime P wm) = false) ->
  Js.filter (isNewerThan P wm) items = Returned [].
Proof.
  induction items as [|a items IH]; intros H; [reflexivity|].
  cbn [Js.filter]. destruct (H a (or_introl eq_refl)) as [r [Hr Hgt]].
  unfold isNewerThan at 1. rewrite Hr. cbn [Js.bindO]. rewrite Hgt.
  rewrite IH; [reflexivity|]. intros email He. apply H. now right.
Qed.

(** Whatever it returns, the second part of a cycle stores the receivedAt
    of the first element of the fetched list. *)
Lemma poll_emit_stores_first_receivedAt {params : TriggerParameters}
      {wm emails : jsval} {h h' : Host P} {result : jsval} :
  poll_emit P params wm emails h = (Returned result, h') ->
  exists first receivedAt,
    Js.get_index emails 0 = Returned first
    /\ Js.get_prop first "receivedAt" = Returned receivedAt
    /\ h' = withLastProcessedTime h receivedAt.
Proof.
  unfold poll_emit, bind, lift, setLastProcessedTime, ret. intros H.
  destruct (Js.get_index emails 0) as [first|e]; [|discriminate].
  destruct (Js.get_prop first "receivedAt") as [r|e] eqn:Er; [|discriminate].
  exists first, r. split; [reflexivity|]. split; [exact Er|].
  destruct (if Js.truthy wm then _ else _) as [newEmails|e]; [|discriminate].
  destruct (Js.get_prop newEmails "length") as [n|e]; [|discriminate].
  destruct (Js.strict_eq_zero n); [now inversion H|].
  destruct (Js.bindO (Js.array_receiver newEmails) _) as [batch|e]; [|discriminate].
  now inversion H.
Qed.

(** The fetched list of a cycle that goes on to the emission is not empty. *)
Lemma poll_fetch_some {params : TriggerParameters} {wm : jsval} {h h' : Host P}
      {items : list jsval} :
  poll_fetch P params wm h = (Returned (Some (JArr items)), h') ->
  items <> [].
Proof.
  unfold poll_fetch, bind, lift, ret. intros H.
  destruct (getPrimaryAccountId P h) as [[accountId|e] h1]; [|discriminate].
  destruct (queryEmails P _ _ _ _ _ h1) as [[q|e] h2]; [|discriminate].
  destruct (Js.get_prop (ids q) "length") as [n|e]; [|discriminate].
  destruct (Js.strict_eq_zero n); [discriminate|].
  destruct (pollProperties params) as [properties|e]; [|discriminate].
  destruct (getEmails P _ _ _ _ _ h2) as [[emails|e] h3]; [|discriminate].
  destruct (Js.get_prop emails "length") as [m|e] eqn:El; [|discriminate].
  destruct (Js.strict_eq_zero m) eqn:Ez; [discriminate|].
  inversion H; subst. intros ->. simpl in El. inversion El; subst. discriminate.
Qed.

Lemma poll_emit_all_removed (params : TriggerParameters) {wm first : jsval}
      {rest : list jsval} (h : Host P) :
  Js.truthy wm = true ->
  Js.filter (isNewerThan P wm) (first :: rest) = Returned [] ->
  exists receivedAt,
    Js.get_prop first "receivedAt" = Returned receivedAt
    /\ Js.gt_time (Date_getTime P receivedAt) (Date_getTime P wm) = false
    /\ poll_emit P params wm (JArr (first :: rest)) h
       = (Returned JNull, withLastProcessedTime h receivedAt).
Proof.
  intros Ht Hf.
  destruct (isNewerThan_false (filter_nil_head Hf)) as [r [Hr Hgt]].
  exists r. split; [exact Hr|]. split; [exact Hgt|].
  unfold poll_emit, bind, lift, setLastProcessedTime, ret.
  rewrite Ht. cbn [Js.get_index nth]. rewrite Hr.
  cbn [Js.array_receiver Js.bindO]. rewrite Hf. reflexivity.
Qed.

End PollFacts.


(** In a poll cycle that starts with a last processed time, when the
    strict filter removes every fetched email the cycle returns null and
    stores the receivedAt of the first fetched email as the last
    processed time; the time of that value, when it has one, is not
    greater than the time of the old one. *)
Lemma poll_emptied_cycle_stores_first_receivedAt
        (P : Platform) (params : TriggerParameters) (h h1 : Host P)
        (items : list jsval) :
  Js.truthy (lastProcessedTime h) = true ->
  poll_fetch P params (lastProcessedTime h) h = (Returned (Some (JArr items)), h1) ->
  Js.filter (isNewerThan P (lastProcessedTime h)) items = Returned [] ->
  exists first rest receivedAt,
    items = first :: rest
    /\ Js.get_prop first "receivedAt" = Returned receivedAt
    /\ poll P params h = (Returned JNull, withLastProcessedTime h1 receivedAt)
    /\ Js.gt_time (Date_getTime P receivedAt)
                  (Date_getTime P (lastProcessedTime h)) = false
    /\ (forall t w, Date_getTime P receivedAt = Some t ->
                    Date_getTime P (lastProcessedTime h) = Some w ->
                    w <= t -> t = w).
Proof.
  intros Ht Hf Hd.
  destruct items as [|first rest]; [now destruct (poll_fetch_some Hf)|].
  destruct (poll_emit_all_removed params h1 Ht Hd) as [r [Hr [Hgt He]]].
  exists first, rest, r. repeat split; auto.
  - rewrite poll_run, Hf. exact He.
  - intros t w Et Ew Hle. rewrite Et, Ew in Hgt. simpl in Hgt.
    apply Z.ltb_ge in Hgt. lia.
Qed.

(* ================================================================== *)
(** * Sending without a Drafts mailbox; the keyword operations *)
(* ================================================================== *)

Section OperationFacts.

Context {P : Platform}.

Lemma find_none_matching (p : jsval -> outcome bool) (items : list jsval) :
  (forall x, In x items -> p x = Returned false) ->
  Js.find p items = Returned JUndefined.
Proof.
  induction items as [|a items IH]; simpl; intros H; [reflexivity|].
  rewrite (H a (or_introl eq_refl)). simpl. apply IH. intros x Hx. apply H. now right.
Qed.

Lemma findMailboxByRole_none (accountId : jsval) (role : string) (h h' : Host P)
      (mailboxes : list jsval) :
  getMailboxes P accountId h = (Returned (JArr mailboxes), h') ->
  (forall mb, In mb mailboxes ->
      exists r, Js.get_prop mb "role" = Returned r /\ Js.strict_eq_str r role = false) ->
  findMailboxByRole P accountId role h = (Returned JUndefined, h').
Proof.
  intros Hg Hn. unfold findMailboxByRole, bind. rewrite Hg. unfold lift. simpl.
  rewrite find_none_matching; [reflexivity|].
  intros mb Hmb. destruct (Hn mb Hmb) as [r [Hr Hs]]. rewrite Hr. simpl. now rewrite Hs.
Qed.

End OperationFacts.

(** C6: when the mailbox list of the account has no mailbox whose role is
    drafts, [sendEmail] fails with the error Drafts mailbox not found, and
    the only call it has handed to the transport is the Mailbox/get
    request, which carries no Email/set. *)
Theorem C6_send_without_drafts_mailbox_fails_before_email_set
        (P : Platform) (accountId email identityId : jsval) (h h' : Host P)
        (mailboxes : list jsval) :
  getMailboxes P accountId h = (Returned (JArr mailboxes), h') ->
  (forall mb, In mb mailboxes ->
      exists r, Js.get_prop mb "role" = Returned r
                /\ Js.strict_eq_str r "drafts" = false) ->
  sendEmail P accountId email identityId h
    = (Thrown (JsError "Drafts mailbox not found"), h')
  /\ issued h' =
     (issued h ++ [apiCall [("Mailbox/get", JObj [("accountId", accountId)], "c1")]
                           defaultUsing])%list
  /\ requestsMethod "Email/set"
       (apiCall [("Mailbox/get", JObj [("accountId", accountId)], "c1")] defaultUsing)
     = false.
Proof.
  intros Hg Hn. split; [|split; [|reflexivity]].
  - unfold sendEmail, bind. rewrite (findMailboxByRole_none _ _ _ _ _ Hg Hn).
    reflexivity.
  - pose proof (issuesOne_getMailboxes accountId h) as Hi. rewrite Hg in Hi.
    apply Hi.
Qed.

(** C10: for every email id, the operations markAsRead and markAsUnread
    of [execute], on an input item whose parameter emailId is that id,
    hand one call to the transport, an Email/set whose update maps the
    email id to the patch with the single key keywords, and the value
    there is the object with the single key $seen set to true (false):
    the whole keywords map is replaced, there is no path key and no other
    keyword in the patch. *)
Theorem C10_mark_as_read_replaces_the_keywords_map
        (P : Platform) (ctx : NodeContext) (accountId : jsval) (emailId : string)
        (i : nat) (h : Host P) (b : bool) :
  paramString ctx "emailId" i = Returned emailId ->
  let keywords := JObj [("$seen", JBool b)] in
  let patch := JObj [("keywords", keywords)] in
  issued (snd (execute_item P ctx accountId "email"
                            (if b then "markAsRead" else "markAsUnread") i h))
  = (issued h ++
     [{| hc_method := POST; hc_endpoint := EmptyString;
         hc_body :=
           JObj [("using", JArr [JStr "urn:ietf:params:jmap:core";
                                 JStr "urn:ietf:params:jmap:mail"]);
                 ("methodCalls",
                  JArr [JArr [JStr "Email/set";
                              JObj [("accountId", accountId);
                                    ("update", JObj [(emailId, patch)])];
                              JStr "c1"]])] |}])%list
  /\ Js.Object_keys patch = Returned ["keywords"]
  /\ Js.Object_keys keywords = Returned ["$seen"].
Proof.
  intros Hid keywords patch. split; [|split; reflexivity].
  assert (Hop : operation_markAs P ctx b accountId i h
                = updateEmailKeywords P accountId emailId keywords h)
    by (unfold operation_markAs; rewrite Hid; reflexivity).
  pose proof (issuesOne_updateEmailKeywords accountId emailId keywords h) as [Hi _].
  rewrite <- Hop in Hi.
  unfold execute_item, whenOperation.
  destruct b; cbn [String.eqb Ascii.eqb Bool.eqb andb]; unfold bind, ret;
    destruct (operation_markAs P ctx _ accountId i h) as [[r|e] h1]; exact Hi.
Qed.

(** The second of two input items is marked as read. *)
Lemma C10_mark_as_read_replaces_the_keywords_map_witness :
  let h := Reference.host [] JUndefined in
  map hc_body
      (issued (snd (execute_item Reference.platform
                      (Samples.node 2 "email" "markAsRead" false) (JStr "acc1")
                      "email" "markAsRead" 1 h)))
  = [JObj [("using", JArr [JStr "urn:ietf:params:jmap:core";
                           JStr "urn:ietf:params:jmap:mail"]);
           ("methodCalls",
            JArr [JArr [JStr "Email/set";
                        JObj [("accountId", JStr "acc1");
                              ("update",
                               JObj [("m1", JObj [("keywords",
                                                   JObj [("$seen", JBool true)])])])];
                        JStr "c1"]])]].
Proof.
  intros h.
  rewrite (proj1 (@C10_mark_as_read_replaces_the_keywords_map Reference.platform
                    (Samples.node 2 "email" "markAsRead" false) (JStr "acc1") "m1"
                    1 h true eq_refl)).
  reflexivity.
Defined.

(* ================================================================== *)
(** * Runs on the reference platform *)
(* ================================================================== *)

Example parse_UTCDate_samples :
  Reference.parse_UTCDate "1970-01-02T00:00:01Z" = Some 86401000
  /\ Reference.parse_UTCDate "2024-03-01T12:30:45.123Z" = Some 1709296245123
  /\ Reference.parse_UTCDate "2024-03-01 12:30:45" = None.
Proof. repeat split. Qed.

Example stringify_sample :
  Reference.stringify (JObj [("n", JUndefined);
                             ("a", JArr [JNum (-12); JUndefined; JBool true])])
  = "{" ++ Reference.dquote ++ "a" ++ Reference.dquote ++ ":[-12,null,true]}".
Proof. reflexivity. Qed.

Example poll_first_cycle :
  let h := Reference.host [Resolved Reference.session; Reference.queryReply ["e1"];
                           Reference.getReply [Reference.email "e1" "2024-01-01T00:00:00Z"]]
                          JUndefined in
  fst (poll Reference.platform Reference.params h)
    = Returned (JArr [JArr [JObj [("json", Reference.email "e1" "2024-01-01T00:00:00Z")]]])
  /\ lastProcessedTime (snd (poll Reference.platform Reference.params h))
     = JStr "2024-01-01T00:00:00Z"
  /\ map hc_method (issued (snd (poll Reference.platform Reference.params h)))
     = [GET; POST; POST].
Proof. repeat split. Qed.

(** An empty query answer, twice in a row. *)
Lemma C9_empty_query_cycle_is_idempotent_witness :
  let h := Reference.host [Resolved Reference.session; Reference.queryReply [];
                           Resolved Reference.session; Reference.queryReply []]
                          (JStr "2024-01-02T00:00:00Z") in
  let h' := snd (poll Reference.platform Reference.params h) in
  poll Reference.platform Reference.params h = (Returned JNull, h')
  /\ lastProcessedTime h' = JStr "2024-01-02T00:00:00Z"
  /\ fst (poll Reference.platform Reference.params h') = Returned JNull
  /\ lastProcessedTime (snd (poll Reference.platform Reference.params h'))
     = JStr "2024-01-02T00:00:00Z".
Proof.
  intros h h'.
  assert (first : emptyQueryCycle Reference.platform Reference.params h h').
  { exists (JStr "acc1"), {| ids := JArr []; total := JNum 0 |},
      (snd (getPrimaryAccountId Reference.platform h)).
    repeat split. }
  assert (second : emptyQueryCycle Reference.platform Reference.params h'
                     (snd (poll Reference.platform Reference.params h'))).
  { exists (JStr "acc1"), {| ids := JArr []; total := JNum 0 |},
      (snd (getPrimaryAccountId Reference.platform h')).
    repeat split. }
  destruct (C9_empty_query_cycle_is_idempotent _ _ _ _ first) as [Hp [Hw Hnext]].
  destruct (Hnext _ second) as [Hp' Hw'].
  split; [exact Hp|]. split; [exact Hw|].
  split; [now rewrite Hp' | exact Hw'].
Defined.


(** C1 on a cycle whose fetched emails are all removed by the strict
    filter: the cycle fetches one email older than the last processed
    time and returns null, but the last processed time has moved back to
    the receivedAt of that email, and it is erased when the email carries
    no receivedAt; the cycles that return null earlier, as on an empty
    answer of Email/get, leave it as it was. *)
Theorem C1_emptied_cycle_rewrites_the_watermark :
  let cycle emails :=
    poll Reference.platform Reference.params
         (Reference.host [Resolved Reference.session; Reference.queryReply ["e1"];
                          Reference.getReply emails]
                         (JStr "2024-01-02T00:00:00Z")) in
  let stale := Reference.email "e1" "2024-01-01T00:00:00Z" in
  let undated := JObj [("id", JStr "e1"); ("subject", JStr "hello")] in
  Js.filter (isNewerThan Reference.platform (JStr "2024-01-02T00:00:00Z")) [stale]
    = Returned []
  /\ fst (cycle [stale]) = Returned JNull
  /\ lastProcessedTime (snd (cycle [stale])) = JStr "2024-01-01T00:00:00Z"
  /\ fst (cycle [undated]) = Returned JNull
  /\ lastProcessedTime (snd (cycle [undated])) = JUndefined
  /\ fst (cycle []) = Returned JNull
  /\ lastProcessedTime (snd (cycle [])) = JStr "2024-01-02T00:00:00Z".
Proof. repeat split. Qed.


(** C5 on envelopes with an error entry: [updateEmailKeywords] throws the
    same fixed Error, without the type and the description of the server,
    for two different error payloads, and reads an envelope with a success
    before an error as a success; [sendEmail] throws the fixed Error of
    the mailbox lookup when the error entry answers its Mailbox/get, and
    keeps the payload in the message only when the error entry is in the
    answer to its second request. *)
Theorem C5_error_payload_is_dropped :
  let invalid := {| mr_name := "error";
                    mr_result := JObj [("type", JStr "invalidArguments");
                                       ("description", JStr "unknown keyword")];
                    mr_callId := "c1" |} in
  let missing := {| mr_name := "error";
                    mr_result := JObj [("type", JStr "accountNotFound")];
                    mr_callId := "c1" |} in
  let updated := {| mr_name := "Email/set";
                    mr_result := JObj [("updated", JObj [("m1", JNull)])];
                    mr_callId := "c1" |} in
  let drafts := JObj [("id", JStr "mb9"); ("name", JStr "Drafts"); ("role", JStr "drafts")] in
  let answering entries := Reference.host [Resolved (IJmapResponse entries "s1")] JUndefined in
  let markRead h :=
    fst (updateEmailKeywords Reference.platform (JStr "acc1") "m1"
                             (JObj [("$seen", JBool true)]) h) in
  let send h :=
    fst (sendEmail Reference.platform (JStr "acc1") (JObj [("subject", JStr "hello")])
                   (JStr "id1") h) in
  markRead (answering [invalid]) = Thrown (JsError "Failed to update email")
  /\ markRead (answering [missing]) = Thrown (JsError "Failed to update email")
  /\ mr_result invalid <> mr_result missing
  /\ markRead (answering [updated; invalid]) = Returned (mr_result updated)
  /\ send (answering [invalid]) = Thrown (JsError "Failed to get mailboxes")
  /\ send (Reference.host [Reference.mailboxesReply [drafts];
                           Resolved (IJmapResponse [updated; invalid] "s1")] JUndefined)
     = Thrown (JsError ("JMAP error: " ++ Reference.stringify (mr_result invalid))).
Proof. repeat split. discriminate. Qed.

(** An account with an inbox and an archive, and no Drafts mailbox. *)
Lemma C6_send_without_drafts_mailbox_fails_before_email_set_witness :
  let h := Reference.host [Reference.mailboxesReply [Reference.inbox; Reference.archive]]
                          JUndefined in
  let email := JObj [("subject", JStr "hello")] in
  fst (sendEmail Reference.platform (JStr "acc1") email (JStr "id1") h)
    = Thrown (JsError "Drafts mailbox not found")
  /\ List.length (issued (snd (sendEmail Reference.platform (JStr "acc1") email
                                          (JStr "id1") h))) = 1%nat.
Proof.
  intros h email.
  destruct (@C6_send_without_drafts_mailbox_fails_before_email_set Reference.platform
              (JStr "acc1") email (JStr "id1") h
              (snd (getMailboxes Reference.platform (JStr "acc1") h))
              [Reference.inbox; Reference.archive] eq_refl) as [Hs [Hi _]].
  - intros mb [H|[H|[]]]; subst mb; eexists; split; reflexivity.
  - rewrite Hs. split; reflexivity.
Defined.

(** C3 on a fetched list that is not in descending order of receivedAt
    (Email/get may answer in another order than the ids it was given):
    both emails are emitted, and the last processed time becomes the
    receivedAt of the first fetched email, which is older than the other
    one; the next cycle, asked for what comes after that time, emits the
    newer email a second time. *)
Theorem C3_watermark_is_first_fetched_not_maximum :
  let older := Reference.email "e1" "2024-01-01T00:00:00Z" in
  let newer := Reference.email "e2" "2024-01-02T00:00:00Z" in
  let h := Reference.host [Resolved Reference.session; Reference.queryReply ["e2"; "e1"];
                           Reference.getReply [older; newer];
                           Resolved Reference.session; Reference.queryReply ["e2"];
                           Reference.getReply [newer]]
                          JUndefined in
  let h' := snd (poll Reference.platform Reference.params h) in
  fst (poll Reference.platform Reference.params h)
    = Returned (JArr [JArr [JObj [("json", older)]; JObj [("json", newer)]]])
  /\ lastProcessedTime h' = JStr "2024-01-01T00:00:00Z"
  /\ Reference.getTime (JStr "2024-01-01T00:00:00Z") = Some 1704067200000
  /\ Reference.getTime (JStr "2024-01-02T00:00:00Z") = Some 1704153600000
  /\ fst (poll Reference.platform Reference.params h')
     = Returned (JArr [JArr [JObj [("json", newer)]]]).
Proof. repeat split. Qed.

(* ================================================================== *)
(** * Further properties: drafts and sending *)
(* ================================================================== *)

Lemma assoc_set_field (k k' : string) (v : jsval) (fields : list (string * jsval)) :
  Js.assoc k (Js.set_field k' v fields) =
  if String.eqb k k' then Some v else Js.assoc k fields.
Proof.
  induction fields as [|[k0 v0] fields IH]; simpl.
  - reflexivity.
  - destruct (String.eqb_spec k' k0) as [E|E]; simpl.
    + subst k0. destruct (String.eqb k k'); reflexivity.
    + destruct (String.eqb_spec k k0) as [E0|E0].
      * subst k0. destruct (String.eqb_spec k k'); [congruence | reflexivity].
      * exact IH.
Qed.

(** X1 (sendEmail, createDraft).  The draft built by [sendEmail] and [createDraft] from an email object
    has the keywords map with the single keyword $draft and the mailboxIds
    map with the single Drafts mailbox id, whatever the email carried under
    those two keys; every other property is the email's own. *)
Theorem emailCreate_overrides_keywords_and_mailboxIds
        (fields : list (string * jsval)) (draftsId : jsval) :
  let draft := emailCreate (JObj fields) draftsId in
  Js.get_prop draft "keywords" = Returned (JObj [("$draft", JBool true)])
  /\ Js.get_prop draft "mailboxIds"
     = Returned (JObj [(Js.String_of draftsId, JBool true)])
  /\ (forall k, k <> "keywords" -> k <> "mailboxIds" ->
                Js.get_prop draft k = Js.get_prop (JObj fields) k).
Proof.
  unfold emailCreate. cbn [Js.spread Js.get_prop].
  repeat split.
  - now rewrite assoc_set_field.
  - now rewrite !assoc_set_field.
  - intros k Hk Hm. rewrite !assoc_set_field.
    destruct (String.eqb_spec k "keywords"); [congruence|].
    destruct (String.eqb_spec k "mailboxIds"); [congruence | reflexivity].
Qed.

Lemma emailCreate_overrides_keywords_and_mailboxIds_witness :
  let email := JObj [("subject", JStr "hello"); ("keywords", JObj [("$seen", JBool true)])] in
  Js.get_prop (emailCreate email (JStr "mb9")) "subject" = Js.get_prop email "subject".
Proof.
  intros email.
  apply (proj2 (proj2 (emailCreate_overrides_keywords_and_mailboxIds
                         [("subject", JStr "hello");
                          ("keywords", JObj [("$seen", JBool true)])] (JStr "mb9"))));
    discriminate.
Defined.

(** X2 (sendEmail).  When the account has a Drafts mailbox, [sendEmail] hands exactly two
    calls to the transport whatever the server answers to the second: the
    Mailbox/get lookup, then one envelope using the core, mail and
    submission capabilities, with Email/set creating the draft under the
    creation id draft (call c1) before EmailSubmission/set (call c2),
    which refers to it as #draft and asks to destroy the email on
    success. *)
Theorem sendEmail_issues_lookup_then_one_envelope
        (P : Platform) (accountId email identityId draftsMailbox draftsId : jsval)
        (h h1 : Host P) :
  findMailboxByRole P accountId "drafts" h = (Returned draftsMailbox, h1) ->
  Js.truthy draftsMailbox = true ->
  Js.get_prop draftsMailbox "id" = Returned draftsId ->
  issued (snd (sendEmail P accountId email identityId h)) =
  (issued h ++
   [apiCall [("Mailbox/get", JObj [("accountId", accountId)], "c1")] defaultUsing;
    {| hc_method := POST; hc_endpoint := EmptyString;
       hc_body :=
         JObj [("using", JArr [JStr "urn:ietf:params:jmap:core";
                               JStr "urn:ietf:params:jmap:mail";
                               JStr "urn:ietf:params:jmap:submission"]);
               ("methodCalls",
                JArr [JArr [JStr "Email/set";
                            JObj [("accountId", accountId);
                                  ("create",
                                   JObj [("draft", emailCreate email draftsId)])];
                            JStr "c1"];
                      JArr [JStr "EmailSubmission/set";
                            JObj [("accountId", accountId);
                                  ("create",
                                   JObj [("send",
                                          JObj [("emailId", JStr "#draft");
                                                ("identityId", identityId)])]);
                                  ("onSuccessDestroyEmail", JArr [JStr "#send"])];
                            JStr "c2"]])] |}])%list.
Proof.
  intros Hf Ht Hid.
  pose proof (issuesOne_findMailboxByRole accountId "drafts" h) as [Hi _].
  rewrite Hf in Hi. simpl in Hi.
  unfold sendEmail, bind at 1. rewrite Hf, Ht. cbn [negb].
  unfold bind at 1, lift at 1. rewrite Hid.
  match goal with
  | |- issued (snd (bind (jmapApiRequest P ?calls ?u) ?k h1)) = _ =>
      pose proof (issuesOne_bind_pure _ _ (jmapApiRequest P calls u) k _
                    (issuesOne_jmapApiRequest calls u)
                    (fun r => hostPure_lift _ _) h1) as [Hj _]
  end.
  rewrite Hj, Hi, <- app_assoc. reflexivity.
Qed.

Lemma sendEmail_issues_lookup_then_one_envelope_witness :
  let drafts := JObj [("id", JStr "mb3"); ("name", JStr "Drafts"); ("role", JStr "drafts")] in
  let h := Reference.host [Reference.mailboxesReply [Reference.inbox; drafts]] JUndefined in
  map (requestsMethod "Email/set")
      (issued (snd (sendEmail Reference.platform (JStr "acc1")
                              (JObj [("subject", JStr "hello")]) (JStr "id1") h)))
  = [false; true].
Proof.
  intros drafts h.
  rewrite (@sendEmail_issues_lookup_then_one_envelope Reference.platform
             (JStr "acc1") (JObj [("subject", JStr "hello")]) (JStr "id1")
             drafts (JStr "mb3") h
             (snd (findMailboxByRole Reference.platform (JStr "acc1") "drafts" h))
             eq_refl eq_refl eq_refl).
  reflexivity.
Defined.

(** X3 (createDraft).  For a response whose first entry is not named error and has an object
    as payload, [createDraft] never throws: it returns the draft found
    under created.draft of an Email/set entry when there is one, and the
    payload itself otherwise, so that a draft the server refused (listed
    under notCreated) comes back as a result and not as an error. *)
Theorem createDraft_result_returns_payload_without_draft
        (P : Platform) (first : MethodResponse) (rest : list MethodResponse)
        (st : string) (fields : list (string * jsval)) :
  mr_name first <> "error" ->
  mr_result first = JObj fields ->
  createDraft_result P (IJmapResponse (first :: rest) st) =
  Returned (if (String.eqb (mr_name first) "Email/set"
                && Js.truthy (createdDraft fields))%bool
            then createdDraft fields else JObj fields).
Proof.
  intros Hn Hr. unfold createDraft_result, createdDraft. simpl. rewrite Hr.
  destruct (String.eqb_spec (mr_name first) "error") as [E|E]; [congruence|].
  simpl. destruct (String.eqb (mr_name first) "Email/set"); [|reflexivity].
  simpl. destruct (Js.or_undefined (Js.assoc "created" fields)) as [| |b|z|s|l|m];
    simpl; try reflexivity.
  - destruct b; simpl; reflexivity.
  - destruct (z =? 0) eqn:Ez; simpl; rewrite ?Ez; reflexivity.
  - destruct s; simpl; reflexivity.
  - destruct (Js.truthy (Js.or_undefined (Js.assoc "draft" m))); simpl; reflexivity.
Qed.

Lemma createDraft_result_returns_payload_without_draft_witness :
  let refused := JObj [("created", JNull);
                       ("notCreated",
                        JObj [("draft", JObj [("type", JStr "invalidProperties")])])] in
  let accepted := JObj [("created", JObj [("draft", JObj [("id", JStr "m7")])])] in
  createDraft_result Reference.platform
    (IJmapResponse [{| mr_name := "Email/set"; mr_result := refused; mr_callId := "c1" |}]
                   "s1") = Returned refused
  /\ createDraft_result Reference.platform
       (IJmapResponse [{| mr_name := "Email/set"; mr_result := accepted; mr_callId := "c1" |}]
                      "s1") = Returned (JObj [("id", JStr "m7")]).
Proof.
  intros refused accepted. split.
  - rewrite (createDraft_result_returns_payload_without_draft Reference.platform
               {| mr_name := "Email/set"; mr_result := refused; mr_callId := "c1" |} []
               "s1"
               [("created", JNull);
                ("notCreated",
                 JObj [("draft", JObj [("type", JStr "invalidProperties")])])]);
      [reflexivity | discriminate | reflexivity].
  - rewrite (createDraft_result_returns_payload_without_draft Reference.platform
               {| mr_name := "Email/set"; mr_result := accepted; mr_callId := "c1" |} []
               "s1" [("created", JObj [("draft", JObj [("id", JStr "m7")])])]);
      [reflexivity | discriminate | reflexivity].
Defined.

(* ================================================================== *)
(** * Further properties: failures of the transport *)
(* ================================================================== *)

Section TransportFacts.

Context {P : Platform}.

Lemma jmapApiRequest_rejected (methodCalls : list MethodCall) (using_ : list string)
      (h : Host P) (reason : jsval) (s' : Server P) :
  httpRequest P (server h) (apiCall methodCalls using_) = (Rejected reason, s') ->
  fst (jmapApiRequest P methodCalls using_ h)
  = Thrown (NodeApiError "JMAP API request failed" (HttpFailure reason)).
Proof.
  intros H. unfold jmapApiRequest, try_catch, makeJmapRequest, throw.
  unfold apiCall in H. rewrite H. reflexivity.
Qed.

Lemma bind_thrown A B (m : M P A) (k : A -> M P B) (h : Host P) (e : exn) :
  fst (m h) = Thrown e -> fst (bind m k h) = Thrown e.
Proof.
  unfold bind. destruct (m h) as [[a|e'] h1]; simpl; intros H;
    [discriminate H | now inversion H].
Qed.

Lemma getJmapSession_rejected (h : Host P) (reason : jsval) (s' : Server P) :
  httpRequest P (server h) sessionCall = (Rejected reason, s') ->
  fst (getJmapSession P h)
  = Thrown (NodeApiError "Failed to get JMAP session" (HttpFailure reason)).
Proof.
  intros H. unfold getJmapSession, try_catch, makeJmapRequest, throw.
  unfold sessionCall in H. rewrite H. reflexivity.
Qed.

End TransportFacts.

(** X4 (makeJmapRequest, getJmapSession, jmapApiRequest).  When the transport rejects the next call, every operation fails with
    a NodeApiError that has the rejection as its cause: the message is
    Failed to get JMAP session for the operations that start with the
    session ([getPrimaryAccountId], [poll]) and JMAP API request failed
    for those that start with a batch request, among them [sendEmail],
    which fails on its mailbox lookup. *)
Theorem transport_rejection_surfaces_as_NodeApiError
        (P : Platform) (h : Host P) (reason : jsval) (s' : Server P) :
  (forall call, httpRequest P (server h) call = (Rejected reason, s')) ->
  let sessionError := NodeApiError "Failed to get JMAP session" (HttpFailure reason) in
  let apiError := NodeApiError "JMAP API request failed" (HttpFailure reason) in
  fst (getPrimaryAccountId P h) = Thrown sessionError
  /\ (forall params, fst (poll P params h) = Thrown sessionError)
  /\ (forall a, fst (getMailboxes P a h) = Thrown apiError)
  /\ (forall a f s l p, fst (queryEmails P a f s l p h) = Thrown apiError)
  /\ (forall a i ps t u, fst (getEmails P a i ps t u h) = Thrown apiError)
  /\ (forall a i k, fst (updateEmailKeywords P a i k h) = Thrown apiError)
  /\ (forall a i m, fst (moveEmail P a i m h) = Thrown apiError)
  /\ (forall a i m, fst (addLabel P a i m h) = Thrown apiError)
  /\ (forall a i m, fst (removeLabel P a i m h) = Thrown apiError)
  /\ (forall a l, fst (deleteEmails P a l h) = Thrown apiError)
  /\ (forall a l, fst (getThreads P a l h) = Thrown apiError)
  /\ (forall a, fst (getIdentities P a h) = Thrown apiError)
  /\ (forall a e i, fst (sendEmail P a e i h) = Thrown apiError)
  /\ (forall a e, fst (createDraft P a e h) = Thrown apiError).
Proof.
  intros H sessionError apiError.
  assert (Hs : fst (getJmapSession P h) = Thrown sessionError)
    by (apply (getJmapSession_rejected h reason s'), H).
  assert (Ha : forall calls u, fst (jmapApiRequest P calls u h) = Thrown apiError)
    by (intros; apply (jmapApiRequest_rejected _ _ h reason s'), H).
  assert (Hm : forall a, fst (getMailboxes P a h) = Thrown apiError)
    by (intros; apply bind_thrown, Ha).
  assert (Hf : forall a r, fst (findMailboxByRole P a r h) = Thrown apiError)
    by (intros; apply bind_thrown, Hm).
  assert (Hp : fst (getPrimaryAccountId P h) = Thrown sessionError)
    by (apply bind_thrown, Hs).
  repeat split; intros; try (apply bind_thrown; auto; fail); auto.
  assert (Hpf : fst (poll_fetch P params (lastProcessedTime h) h) = Thrown sessionError)
    by (unfold poll_fetch; apply bind_thrown, Hp).
  rewrite poll_run.
  destruct (poll_fetch P params (lastProcessedTime h) h) as [[[emails|]|e] h1];
    simpl in Hpf; try discriminate.
  now inversion Hpf.
Qed.

Lemma transport_rejection_surfaces_as_NodeApiError_witness :
  let h := Reference.host [Rejected (JStr "ECONNREFUSED")] (JStr "2024-01-02T00:00:00Z") in
  fst (poll Reference.platform Reference.params h)
  = Thrown (NodeApiError "Failed to get JMAP session" (HttpFailure (JStr "ECONNREFUSED")))
  /\ fst (deleteEmails Reference.platform (JStr "acc1") ["m1"] h)
     = Thrown (NodeApiError "JMAP API request failed" (HttpFailure (JStr "ECONNREFUSED"))).
Proof.
  intros h.
  pose proof (@transport_rejection_surfaces_as_NodeApiError Reference.platform h
                (JStr "ECONNREFUSED") [] (fun call => eq_refl)) as H.
  split.
  - apply (proj1 (proj2 H)).
  - apply (proj1 (proj2 (proj2 (proj2 (proj2 (proj2 (proj2 (proj2 (proj2 (proj2 H)))))))))).
Defined.

(* ================================================================== *)
(** * Further properties: the poll cycle *)
(* ================================================================== *)

Section PollEffects.

Context {P : Platform}.

Lemma issuesOne_getEmails accountId ids properties fetchText fetchHTML :
  issuesOne (getEmails P accountId ids properties fetchText fetchHTML)
            (emailGetCall accountId ids properties fetchText fetchHTML).
Proof.
  apply issuesOne_bind_pure; [apply issuesOne_jmapApiRequest|].
  intros response. apply hostPure_lift.
Qed.

Lemma issuesOne_run {A} {m : M P A} {call : HttpCall} {h : Host P}
      {r : outcome A} {h' : Host P} :
  issuesOne m call -> m h = (r, h') ->
  issued h' = (issued h ++ [call])%list /\ lastProcessedTime h' = lastProcessedTime h.
Proof. intros Hm E. specialize (Hm h). now rewrite E in Hm. Qed.

(** The first part of a cycle hands at most three calls to the
    transport, none of which carries an Email/set, and leaves the last
    processed time alone. *)
Lemma poll_fetch_effect (params : TriggerParameters) (wm : jsval) (h : Host P) :
  exists calls,
    issued (snd (poll_fetch P params wm h)) = (issued h ++ calls)%list
    /\ (List.length calls <= 3)%nat
    /\ Forall (fun c => requestsMethod "Email/set" c = false) calls
    /\ lastProcessedTime (snd (poll_fetch P params wm h)) = lastProcessedTime h.
Proof.
  unfold poll_fetch, bind.
  destruct (getPrimaryAccountId P h) as [[accountId|e] h1] eqn:Ea;
    destruct (issuesOne_run issuesOne_getPrimaryAccountId Ea) as [Ia Wa].
  2:{ exists [sessionCall]. simpl. repeat split; auto. }
  destruct (queryEmails P accountId (pollFilter params wm) defaultSort 100 0 h1)
    as [[q|e] h2] eqn:Eq;
    destruct (issuesOne_run (issuesOne_queryEmails _ _ _ _ _) Eq) as [Iq Wq].
  2:{ eexists [sessionCall; _]. simpl. rewrite Iq, Ia, <- app_assoc.
      repeat split; auto. congruence. }
  assert (two : exists calls,
             issued h2 = (issued h ++ calls)%list /\ (List.length calls <= 3)%nat
             /\ Forall (fun c => requestsMethod "Email/set" c = false) calls
             /\ lastProcessedTime h2 = lastProcessedTime h).
  { eexists [sessionCall; _]. rewrite Iq, Ia, <- app_assoc.
    repeat split; auto. congruence. }
  unfold lift, ret.
  destruct (Js.get_prop (ids q) "length") as [n|e]; [|exact two].
  destruct (Js.strict_eq_zero n); [exact two|].
  destruct (pollProperties params) as [properties|e]; [|exact two].
  destruct (getEmails P accountId (ids q) properties (negb (simple params))
                      (negb (simple params)) h2) as [[emails|e] h3] eqn:Eg;
    destruct (issuesOne_run (issuesOne_getEmails _ _ _ _ _) Eg) as [Ig Wg].
  2:{ eexists [sessionCall; _; _]. simpl. rewrite Ig, Iq, Ia, <- !app_assoc.
      repeat split; auto. congruence. }
  assert (three : exists calls,
             issued h3 = (issued h ++ calls)%list /\ (List.length calls <= 3)%nat
             /\ Forall (fun c => requestsMethod "Email/set" c = false) calls
             /\ lastProcessedTime h3 = lastProcessedTime h).
  { eexists [sessionCall; _; _]. rewrite Ig, Iq, Ia, <- !app_assoc.
    repeat split; auto. congruence. }
  destruct (Js.get_prop emails "length") as [m|e]; [|exact three].
  destruct (Js.strict_eq_zero m); exact three.
Qed.

(** The second part of a cycle hands nothing to the transport. *)
Lemma poll_emit_issues_nothing (params : TriggerParameters) (wm emails : jsval)
      (h : Host P) :
  issued (snd (poll_emit P params wm emails h)) = issued h.
Proof.
  unfold poll_emit, bind, lift, setLastProcessedTime, ret.
  destruct (Js.get_index emails 0) as [first|e]; [|reflexivity].
  destruct (Js.get_prop first "receivedAt") as [r|e]; [|reflexivity].
  destruct (if Js.truthy wm then _ else _) as [newEmails|e]; [|reflexivity].
  destruct (Js.get_prop newEmails "length") as [n|e]; [|reflexivity].
  destruct (Js.strict_eq_zero n); [reflexivity|].
  destruct (Js.bindO (Js.array_receiver newEmails) _) as [batch|e]; reflexivity.
Qed.

Lemma map_full_output (items : list jsval) :
  Js.map (toExecutionData false) items
  = Returned (map (fun email => JObj [("json", email)]) items).
Proof.
  induction items as [|a items IH]; simpl; [reflexivity|]. now rewrite IH.
Qed.

End PollEffects.

(** X5 (JmapTrigger.poll).  A poll cycle hands at most three calls to the transport (the session,
    the query, the fetch) and none of them carries an Email/set, whatever
    the options of the trigger are: the cycle never changes an email on
    the server, so the fetched emails are not marked as read. *)
Theorem poll_never_issues_Email_set
        (P : Platform) (params : TriggerParameters) (h : Host P) :
  exists calls,
    issued (snd (poll P params h)) = (issued h ++ calls)%list
    /\ (List.length calls <= 3)%nat
    /\ Forall (fun c => requestsMethod "Email/set" c = false) calls.
Proof.
  destruct (poll_fetch_effect params (lastProcessedTime h) h)
    as [calls [Hi [Hl [Hf _]]]].
  exists calls. split; [|split; assumption].
  rewrite poll_run.
  destruct (poll_fetch P params (lastProcessedTime h) h) as [[[emails|]|e] h1];
    simpl in Hi; try exact Hi.
  now rewrite poll_emit_issues_nothing.
Qed.

(** X6 (JmapTrigger.poll).  A poll cycle that ends before the emission, because the query or the
    fetch answers an empty list or because a step of the fetch fails,
    returns null or throws that failure and leaves the last processed time
    as it was. *)
Theorem poll_without_fetched_emails_keeps_watermark
        (P : Platform) (params : TriggerParameters) (h h1 : Host P)
        (fetched : outcome (option jsval)) :
  poll_fetch P params (lastProcessedTime h) h = (fetched, h1) ->
  (forall emails, fetched <> Returned (Some emails)) ->
  poll P params h =
    (match fetched with
     | Thrown e => Thrown e
     | Returned _ => Returned JNull
     end, h1)
  /\ lastProcessedTime h1 = lastProcessedTime h.
Proof.
  intros Hf Hn. split.
  - rewrite poll_run, Hf. destruct fetched as [[emails|]|e]; try reflexivity.
    now destruct (Hn emails).
  - destruct (poll_fetch_effect params (lastProcessedTime h) h) as [calls [_ [_ [_ Hw]]]].
    now rewrite Hf in Hw.
Qed.

Lemma poll_without_fetched_emails_keeps_watermark_witness :
  let h := Reference.host [Resolved Reference.session; Reference.queryReply ["e1"];
                           Reference.getReply []]
                          (JStr "2024-01-02T00:00:00Z") in
  fst (poll Reference.platform Reference.params h) = Returned JNull
  /\ lastProcessedTime (snd (poll Reference.platform Reference.params h))
     = JStr "2024-01-02T00:00:00Z".
Proof.
  intros h.
  destruct (@poll_without_fetched_emails_keeps_watermark Reference.platform
              Reference.params h
              (snd (poll_fetch Reference.platform Reference.params (lastProcessedTime h) h))
              (Returned None) eq_refl) as [Hp Hw].
  - intros emails. discriminate.
  - rewrite Hp. split; [reflexivity | exact Hw].
Defined.

(** X7 (JmapTrigger.poll).  A poll cycle that starts without a last processed time and fetches a
    list of emails emits, with the full output, every fetched email, one
    item per email in the order of the list, and stores the receivedAt of
    the first one: the first cycle of a trigger delivers the mail that is
    already there (up to the page of the query). *)
Theorem poll_first_cycle_emits_every_fetched_email
        (P : Platform) (params : TriggerParameters) (h h1 : Host P)
        (first receivedAt : jsval) (rest : list jsval) :
  Js.truthy (lastProcessedTime h) = false ->
  simple params = false ->
  poll_fetch P params (lastProcessedTime h) h
    = (Returned (Some (JArr (first :: rest))), h1) ->
  Js.get_prop first "receivedAt" = Returned receivedAt ->
  poll P params h =
    (Returned (JArr [JArr (map (fun email => JObj [("json", email)]) (first :: rest))]),
     withLastProcessedTime h1 receivedAt).
Proof.
  intros Hw Hs Hf Hr. rewrite poll_run, Hf.
  unfold poll_emit, bind, lift, setLastProcessedTime, ret.
  cbn [Js.get_index nth]. rewrite Hr, Hw, Hs.
  cbn [Js.get_prop String.eqb Ascii.eqb Bool.eqb Js.strict_eq_zero Js.array_receiver Js.bindO].
  rewrite map_full_output. reflexivity.
Qed.

Lemma poll_first_cycle_emits_every_fetched_email_witness :
  let e1 := Reference.email "e1" "2024-01-03T00:00:00Z" in
  let e2 := Reference.email "e2" "2023-06-01T00:00:00Z" in
  let h := Reference.host [Resolved Reference.session; Reference.queryReply ["e1"; "e2"];
                           Reference.getReply [e1; e2]] JUndefined in
  fst (poll Reference.platform Reference.params h)
  = Returned (JArr [JArr [JObj [("json", e1)]; JObj [("json", e2)]]]).
Proof.
  intros e1 e2 h.
  rewrite (@poll_first_cycle_emits_every_fetched_email Reference.platform
             Reference.params h
             (snd (poll_fetch Reference.platform Reference.params (lastProcessedTime h) h))
             e1 (JStr "2024-01-03T00:00:00Z") [e2] eq_refl eq_refl eq_refl eq_refl).
  reflexivity.
Defined.

(** X8 (JmapTrigger.poll, the simple output).  The simple output of an email object never fails, whatever properties
    the email lacks: it has the eleven keys of the projection, an absent
    property comes out as [undefined], and isRead (isFlagged) is always a
    boolean, true exactly when the keywords of the email hold a truthy
    value under $seen ($flagged). *)
Theorem simple_output_of_an_email_object (fields : list (string * jsval)) :
  let prop k := Js.or_undefined (Js.assoc k fields) in
  let flag k := JBool (match Js.get_prop (prop "keywords") k with
                       | Returned v => Js.truthy v
                       | Thrown _ => false
                       end) in
  toExecutionData true (JObj fields) =
  Returned (JObj [("json",
                   JObj [("id", prop "id"); ("threadId", prop "threadId");
                         ("from", prop "from"); ("to", prop "to"); ("cc", prop "cc");
                         ("subject", prop "subject"); ("preview", prop "preview");
                         ("receivedAt", prop "receivedAt");
                         ("hasAttachment", prop "hasAttachment");
                         ("isRead", flag "$seen"); ("isFlagged", flag "$flagged")])]).
Proof.
  intros prop flag. unfold toExecutionData, hasKeyword, flag, prop.
  cbn [Js.get_prop Js.bindO].
  destruct (Js.or_undefined (Js.assoc "keywords" fields)); reflexivity.
Qed.

(* ================================================================== *)
(** * Further properties: labels *)
(* ================================================================== *)

Section LabelFacts.

Context {P : Platform}.

Lemma find_among_objects (p : jsval -> outcome bool) (items : list jsval) :
  (forall x, In x items -> exists b, p x = Returned b) ->
  exists v, Js.find p items = Returned v
            /\ ((v = JUndefined /\ forall x, In x items -> p x = Returned false)
                \/ (In v items /\ p v = Returned true)).
Proof.
  induction items as [|a items IH]; intros H; simpl.
  - exists JUndefined. split; [reflexivity|]. left. split; [reflexivity | intros x []].
  - destruct (H a (or_introl eq_refl)) as [b Hb]. rewrite Hb. simpl.
    destruct b.
    + exists a. split; [reflexivity|]. right. auto.
    + destruct IH as [v [Hv Hc]]; [intros x Hx; apply H; now right|].
      exists v. split; [exact Hv|]. destruct Hc as [[E Hall]|[Hin Hp]].
      * left. split; [exact E|]. intros x [Hx|Hx]; [now subst | now apply Hall].
      * right. split; [now right | exact Hp].
Qed.

(** The label of a mailbox id among mailbox objects carries that id. *)
Lemma labelOf_carries_the_id (mailboxes : list jsval) (mailboxId : string) :
  Forall (fun mb => exists fields, mb = JObj fields) mailboxes ->
  exists label,
    labelOf (JArr mailboxes) mailboxId = Returned label
    /\ Js.get_prop label "id" = Returned (JStr mailboxId)
    /\ ((forall fields, In (JObj fields) mailboxes ->
                        Js.assoc "id" fields <> Some (JStr mailboxId)) ->
        label = JObj [("id", JStr mailboxId); ("name", JNull); ("role", JNull)]).
Proof.
  intros Hobj. rewrite Forall_forall in Hobj. unfold labelOf. cbn [Js.array_receiver Js.bindO].
  destruct (find_among_objects
              (fun mb => Js.bindO (Js.get_prop mb "id")
                           (fun i => Returned (Js.strict_eq_str i mailboxId)))
              mailboxes) as [v [Hv Hc]].
  { intros x Hx. destruct (Hobj x Hx) as [f ->]. simpl. eauto. }
  rewrite Hv. cbn [Js.bindO]. destruct Hc as [[E Hall]|[Hin Hp]].
  - subst v. simpl. eexists. split; [reflexivity|]. split; [reflexivity|]. reflexivity.
  - destruct (Hobj v Hin) as [f ->]. simpl in Hp. injection Hp as Heq.
    cbn [Js.truthy Js.get_prop Js.bindO].
    eexists. split; [reflexivity|]. split.
    + cbn [Js.get_prop Js.assoc String.eqb Ascii.eqb Bool.eqb Js.or_undefined].
      destruct (Js.or_undefined (Js.assoc "id" f)) as [| | | |s| |]; simpl in Heq;
        try discriminate.
      apply String.eqb_eq in Heq. now subst.
    + intros Hno. exfalso. apply (Hno f Hin).
      destruct (Js.assoc "id" f) as [[| | | |s| |]|]; simpl in Heq; try discriminate.
      apply String.eqb_eq in Heq. now subst.
Qed.

Lemma labelsOf_carry_the_ids (mailboxes : list jsval) (keys : list string) :
  Forall (fun mb => exists fields, mb = JObj fields) mailboxes ->
  exists labels,
    labelsOf (JArr mailboxes) keys = Returned labels
    /\ map (fun label => Js.get_prop label "id") labels
       = map (fun k => Returned (JStr k)) keys
    /\ (forall k, In k keys ->
          (forall fields, In (JObj fields) mailboxes ->
                          Js.assoc "id" fields <> Some (JStr k)) ->
          In (JObj [("id", JStr k); ("name", JNull); ("role", JNull)]) labels).
Proof.
  intros Hobj. induction keys as [|k keys IH].
  - exists []. repeat split. intros k [].
  - destruct (labelOf_carries_the_id mailboxes k Hobj) as [label [Hl [Hid Hph]]].
    destruct IH as [labels [Hls [Hids Hphs]]].
    exists (label :: labels). cbn [labelsOf]. rewrite Hl. cbn [Js.bindO].
    rewrite Hls. cbn [Js.bindO]. split; [reflexivity|]. split.
    + simpl. now rewrite Hid, Hids.
    + intros k' [E|Hin] Hno.
      * subst k'. left. now apply Hph.
      * right. now apply Hphs.
Qed.

End LabelFacts.

(** X9 (getLabels).  [getLabels] answers one label per key of the mailboxIds of the email,
    in the order of the keys, and each label carries its key as id; a key
    that no mailbox of the account has as id does not fail the operation,
    it gives the label with that id and null as name and role. *)
Theorem getLabels_gives_one_label_per_mailbox_id
        (P : Platform) (accountId email : jsval) (emailId : string)
        (others mailboxes : list jsval) (mailboxIds : list (string * jsval))
        (h h1 h2 : Host P) :
  getEmails P accountId (JArr [JStr emailId]) ["id"; "mailboxIds"] true true h
    = (Returned (JArr (email :: others)), h1) ->
  Js.get_prop email "mailboxIds" = Returned (JObj mailboxIds) ->
  mailboxIds <> [] ->
  getMailboxes P accountId h1 = (Returned (JArr mailboxes), h2) ->
  Forall (fun mb => exists fields, mb = JObj fields) mailboxes ->
  exists labels,
    getLabels P accountId emailId h = (Returned (JArr labels), h2)
    /\ map (fun label => Js.get_prop label "id") labels
       = map (fun kv => Returned (JStr (fst kv))) mailboxIds
    /\ (forall k, In k (map fst mailboxIds) ->
          (forall fields, In (JObj fields) mailboxes ->
                          Js.assoc "id" fields <> Some (JStr k)) ->
          In (JObj [("id", JStr k); ("name", JNull); ("role", JNull)]) labels).
Proof.
  intros He Hm Hne Hg Hobj.
  destruct (labelsOf_carry_the_ids mailboxes (map fst mailboxIds) Hobj)
    as [labels [Hls [Hids Hph]]].
  exists labels. split; [|split; [now rewrite Hids, map_map | exact Hph]].
  unfold getLabels, bind at 1. rewrite He.
  unfold bind at 1, lift at 1.
  cbn [Js.get_prop String.eqb Ascii.eqb Bool.eqb Js.strict_eq_zero].
  replace (Z.of_nat (List.length (email :: others)) =? 0) with false
    by (symmetry; apply Z.eqb_neq; simpl; lia).
  unfold bind at 1, lift at 1. cbn [Js.get_index nth].
  unfold bind at 1, lift at 1. rewrite Hm.
  unfold bind at 1, lift at 1. cbn [Js.truthy Js.Object_keys].
  destruct mailboxIds as [|[k v] ids]; [congruence|]. cbn [map fst].
  unfold bind at 1. rewrite Hg.
  unfold bind, lift, ret. cbn [map fst] in Hls. rewrite Hls. reflexivity.
Qed.

Lemma getLabels_gives_one_label_per_mailbox_id_witness :
  let email := JObj [("id", JStr "m1");
                     ("mailboxIds", JObj [("mb1", JBool true); ("gone", JBool true)])] in
  let h := Reference.host [Reference.getReply [email];
                           Reference.mailboxesReply [Reference.inbox; Reference.archive]]
                          JUndefined in
  exists labels,
    fst (getLabels Reference.platform (JStr "acc1") "m1" h) = Returned (JArr labels)
    /\ map (fun label => Js.get_prop label "id") labels
       = [Returned (JStr "mb1"); Returned (JStr "gone")]
    /\ In (JObj [("id", JStr "gone"); ("name", JNull); ("role", JNull)]) labels.
Proof.
  intros email h.
  destruct (@getLabels_gives_one_label_per_mailbox_id Reference.platform
              (JStr "acc1") email "m1" [] [Reference.inbox; Reference.archive]
              [("mb1", JBool true); ("gone", JBool true)] h
              (snd (getEmails Reference.platform (JStr "acc1") (JArr [JStr "m1"])
                              ["id"; "mailboxIds"] true true h))
              (snd (getLabels Reference.platform (JStr "acc1") "m1" h))
              eq_refl eq_refl) as [labels [Hl [Hids Hph]]].
  - discriminate.
  - reflexivity.
  - repeat constructor; eexists; reflexivity.
  - exists labels. split; [now rewrite Hl|]. split; [exact Hids|].
    apply Hph; [right; left; reflexivity|].
    intros fields [H|[H|[]]]; inversion H; subst; discriminate.
Defined.

(** X10 (getLabels).  When Email/get answers an empty list, [getLabels] fails with the error
    Email not found; when the email it answers has no mailboxIds (absent,
    null or the empty object), [getLabels] answers the empty list; in both
    cases the Email/get request is the only call it has handed to the
    transport: the mailbox list is not asked for. *)
Theorem getLabels_without_mailbox_ids_asks_for_no_mailbox_list
        (P : Platform) (accountId emails : jsval) (emailId : string) (h h1 : Host P) :
  getEmails P accountId (JArr [JStr emailId]) ["id"; "mailboxIds"] true true h
    = (Returned emails, h1) ->
  (emails = JArr [] ->
   getLabels P accountId emailId h = (Thrown (JsError "Email not found"), h1))
  /\ (forall email others mailboxIds,
        emails = JArr (email :: others) ->
        Js.get_prop email "mailboxIds" = Returned mailboxIds ->
        Js.truthy mailboxIds = false \/ mailboxIds = JObj [] ->
        getLabels P accountId emailId h = (Returned (JArr []), h1))
  /\ issued h1 =
     (issued h ++ [emailGetCall accountId (JArr [JStr emailId]) ["id"; "mailboxIds"]
                                true true])%list.
Proof.
  intros He. split; [|split].
  - intros ->. unfold getLabels, bind at 1. rewrite He. reflexivity.
  - intros email others mailboxIds -> Hm Hc.
    unfold getLabels, bind at 1. rewrite He.
    unfold bind at 1, lift at 1.
    cbn [Js.get_prop String.eqb Ascii.eqb Bool.eqb Js.strict_eq_zero].
    replace (Z.of_nat (List.length (email :: others)) =? 0) with false
      by (symmetry; apply Z.eqb_neq; simpl; lia).
    unfold bind at 1, lift at 1. cbn [Js.get_index nth].
    unfold bind at 1, lift at 1. rewrite Hm.
    unfold bind at 1, lift at 1.
    destruct Hc as [Hf| ->]; [rewrite Hf|]; reflexivity.
  - apply (issuesOne_run (issuesOne_getEmails _ _ _ _ _) He).
Qed.

Lemma getLabels_without_mailbox_ids_asks_for_no_mailbox_list_witness :
  let h := Reference.host [Reference.getReply []] JUndefined in
  let h' := Reference.host [Reference.getReply [JObj [("id", JStr "m1")]]] JUndefined in
  fst (getLabels Reference.platform (JStr "acc1") "m1" h)
    = Thrown (JsError "Email not found")
  /\ fst (getLabels Reference.platform (JStr "acc1") "m1" h') = Returned (JArr []).
Proof.
  intros h h'. split.
  - rewrite (proj1 (@getLabels_without_mailbox_ids_asks_for_no_mailbox_list
                      Reference.platform (JStr "acc1") (JArr []) "m1" h
                      (snd (getEmails Reference.platform (JStr "acc1") (JArr [JStr "m1"])
                                      ["id"; "mailboxIds"] true true h)) eq_refl) eq_refl).
    reflexivity.
  - rewrite (proj1 (proj2 (@getLabels_without_mailbox_ids_asks_for_no_mailbox_list
                      Reference.platform (JStr "acc1") (JArr [JObj [("id", JStr "m1")]])
                      "m1" h'
                      (snd (getEmails Reference.platform (JStr "acc1") (JArr [JStr "m1"])
                                      ["id"; "mailboxIds"] true true h')) eq_refl))
                   (JObj [("id", JStr "m1")]) [] JUndefined eq_refl eq_refl
                   (or_introl eq_refl)).
    reflexivity.
Defined.

(* ================================================================== *)
(** * Further properties: the download URL *)
(* ================================================================== *)

Module DownloadUrlFacts.
Import JsString JsText.

Lemma splitAtFirst_unfold (pattern s : string) :
  splitAtFirst pattern s =
  if startsWith s pattern
  then Some (EmptyString, drop (String.length pattern) s)
  else match s with
       | EmptyString => None
       | String c s' =>
           match splitAtFirst pattern s' with
           | Some (before, after) => Some (String c before, after)
           | None => None
           end
       end.
Proof. destruct s; reflexivity. Qed.

(** The first occurrence of a pattern that starts with a brace is not in
    a text without braces. *)
Lemma splitAtFirst_skips_brace_free (p s r : string) :
  freeOf "{" s = true ->
  splitAtFirst (String "{" p) (s ++ r) =
  match splitAtFirst (String "{" p) r with
  | Some (before, after) => Some (s ++ before, after)
  | None => None
  end.
Proof.
  induction s as [|c s IH]; intros Hf.
  - simpl. now destruct (splitAtFirst (String "{" p) r) as [[b a]|].
  - simpl in Hf. apply andb_true_iff in Hf. destruct Hf as [Hc Hs].
    cbn [append]. rewrite splitAtFirst_unfold. cbn [startsWith].
    apply negb_true_iff in Hc. rewrite Ascii.eqb_sym, Hc. cbn [andb].
    rewrite (IH Hs). now destruct (splitAtFirst (String "{" p) r) as [[b a]|].
Qed.

Lemma splitAtFirst_skips_other_placeholder (v w : placeholder) (r : string) :
  placeholder_eqb v w = false ->
  splitAtFirst (placeholderText v) (placeholderText w ++ r) =
  match splitAtFirst (placeholderText v) r with
  | Some (before, after) => Some (placeholderText w ++ before, after)
  | None => None
  end.
Proof.
  intros Hvw.
  destruct w.
  - change (placeholderText PAccountId ++ r) with (String "{" ("accountId}" ++ r)).
    rewrite splitAtFirst_unfold.
    destruct v; try discriminate; cbn [placeholderText startsWith Ascii.eqb Bool.eqb andb];
      rewrite (splitAtFirst_skips_brace_free _ "accountId}" r eq_refl);
      now destruct (splitAtFirst _ r) as [[b a]|].
  - change (placeholderText PBlobId ++ r) with (String "{" ("blobId}" ++ r)).
    rewrite splitAtFirst_unfold.
    destruct v; try discriminate; cbn [placeholderText startsWith Ascii.eqb Bool.eqb andb];
      rewrite (splitAtFirst_skips_brace_free _ "blobId}" r eq_refl);
      now destruct (splitAtFirst _ r) as [[b a]|].
  - change (placeholderText PName ++ r) with (String "{" ("name}" ++ r)).
    rewrite splitAtFirst_unfold.
    destruct v; try discriminate; cbn [placeholderText startsWith Ascii.eqb Bool.eqb andb];
      rewrite (splitAtFirst_skips_brace_free _ "name}" r eq_refl);
      now destruct (splitAtFirst _ r) as [[b a]|].
  - change (placeholderText PType ++ r) with (String "{" ("type}" ++ r)).
    rewrite splitAtFirst_unfold.
    destruct v; try discriminate; cbn [placeholderText startsWith Ascii.eqb Bool.eqb andb];
      rewrite (splitAtFirst_skips_brace_free _ "type}" r eq_refl);
      now destruct (splitAtFirst _ r) as [[b a]|].
Qed.

Lemma splitAtFirst_at_placeholder (v : placeholder) (r : string) :
  splitAtFirst (placeholderText v) (placeholderText v ++ r) = Some (EmptyString, r).
Proof. destruct v; reflexivity. Qed.

Lemma substitution_dollar_free (matched before after text : string) :
  freeOf "$" text = true -> substitution matched before after text = text.
Proof.
  induction text as [|c text IH]; intros Hf; [reflexivity|].
  simpl in Hf. apply andb_true_iff in Hf. destruct Hf as [Hc Ht].
  apply negb_true_iff in Hc. cbn [substitution]. rewrite Hc. now rewrite (IH Ht).
Qed.

Lemma replace_dollar_free (s pattern text : string) :
  freeOf "$" text = true ->
  replace s pattern text =
  match splitAtFirst pattern s with
  | Some (before, after) => before ++ text ++ after
  | None => s
  end.
Proof.
  intros Hd. unfold replace. destruct (splitAtFirst pattern s) as [[b a]|]; [|reflexivity].
  now rewrite substitution_dollar_free.
Qed.

(** Replacing a placeholder in a rendered template replaces its first
    occurrence among the pieces. *)
Lemma replace_render (v : placeholder) (text : string) (pieces : list piece) (r : string) :
  literalsBraceFree pieces = true ->
  freeOf "$" text = true ->
  splitAtFirst (placeholderText v) r = None ->
  replace (render pieces ++ r) (placeholderText v) text
  = render (substFirst v text pieces) ++ r.
Proof.
  intros Hwf Hd Hr. rewrite (replace_dollar_free _ _ _ Hd). revert Hwf.
  induction pieces as [|[t|w] pieces IH]; intros Hwf.
  - cbn [render substFirst append]. now rewrite Hr.
  - cbn [literalsBraceFree] in Hwf. apply andb_true_iff in Hwf.
    destruct Hwf as [Ht Hwf]. specialize (IH Hwf).
    cbn [render substFirst]. rewrite !JsStringFacts.append_assoc.
    assert (Hp : exists p, placeholderText v = String "{" p)
      by (destruct v; eexists; reflexivity).
    destruct Hp as [p Hp]. rewrite Hp in *.
    rewrite (splitAtFirst_skips_brace_free p t _ Ht).
    destruct (splitAtFirst (String "{" p) (render pieces ++ r)) as [[b a]|].
    + rewrite <- IH. now rewrite !JsStringFacts.append_assoc.
    + now rewrite <- IH.
  - cbn [literalsBraceFree] in Hwf. specialize (IH Hwf).
    cbn [render substFirst]. rewrite !JsStringFacts.append_assoc.
    destruct (placeholder_eqb v w) eqn:Evw.
    + assert (v = w) by (destruct v, w; try discriminate; reflexivity). subst w.
      rewrite splitAtFirst_at_placeholder. cbn [append render].
      now rewrite JsStringFacts.append_assoc.
    + rewrite (splitAtFirst_skips_other_placeholder v w _ Evw).
      cbn [render]. rewrite JsStringFacts.append_assoc.
      destruct (splitAtFirst (placeholderText v) (render pieces ++ r)) as [[b a]|].
      * rewrite <- IH. now rewrite !JsStringFacts.append_assoc.
      * now rewrite <- IH.
Qed.

Lemma literalsBraceFree_substFirst (v : placeholder) (text : string) (pieces : list piece) :
  literalsBraceFree pieces = true -> freeOf "{" text = true ->
  literalsBraceFree (substFirst v text pieces) = true.
Proof.
  intros Hwf Ht. induction pieces as [|[t|w] pieces IH]; cbn [substFirst literalsBraceFree] in *.
  - reflexivity.
  - apply andb_true_iff in Hwf. destruct Hwf as [H1 H2]. now rewrite H1, IH.
  - destruct (placeholder_eqb v w); cbn [literalsBraceFree]; [now rewrite Ht | now apply IH].
Qed.

Lemma escapeUnit_safe (c : ascii) :
  freeOf "{" (escapeUnit c) = true /\ freeOf "$" (escapeUnit c) = true.
Proof. destruct c as [[] [] [] [] [] [] [] []]; split; reflexivity. Qed.

Lemma unreserved_safe (c : ascii) :
  unreserved c = true -> Ascii.eqb c "{" = false /\ Ascii.eqb c "$" = false.
Proof. destruct c as [[] [] [] [] [] [] [] []]; intros H; try discriminate H; split; reflexivity. Qed.

Lemma freeOf_append (c : ascii) (a b : string) :
  freeOf c (a ++ b) = (freeOf c a && freeOf c b)%bool.
Proof. induction a as [|d a IH]; simpl; [reflexivity | now rewrite IH, andb_assoc]. Qed.

(** What [encodeURIComponent] produces has no brace and no dollar. *)
Lemma encodeURIComponent_safe (s : string) :
  freeOf "{" (encodeURIComponent s) = true /\ freeOf "$" (encodeURIComponent s) = true.
Proof.
  induction s as [|c s [IH1 IH2]]; [split; reflexivity|].
  cbn [encodeURIComponent]. rewrite !freeOf_append, IH1, IH2.
  destruct (unreserved c) eqn:U.
  - destruct (unreserved_safe c U) as [H1 H2]. simpl. now rewrite H1, H2.
  - destruct (escapeUnit_safe c) as [H1 H2]. now rewrite H1, H2.
Qed.

End DownloadUrlFacts.

(** X11 (downloadBlob, the download URL).  For a download URL template made of literal texts without an opening
    brace and of the placeholders {accountId}, {blobId}, {name} and {type}
    in any order, and for an account id and a blob id without a brace and
    without a dollar, the URL [downloadBlob] requests is the template with
    the first occurrence of each placeholder replaced by its value, the
    name and the type percent-encoded; a placeholder that occurs a second
    time stays in the URL as it is. *)
Theorem downloadUrl_substitutes_first_occurrences
        (pieces : list piece) (accountId blobId name type : string) :
  literalsBraceFree pieces = true ->
  freeOf "{" accountId = true -> freeOf "$" accountId = true ->
  freeOf "{" blobId = true -> freeOf "$" blobId = true ->
  downloadUrl (render pieces) accountId blobId name type =
  render (substFirst PType (JsText.encodeURIComponent type)
            (substFirst PName (JsText.encodeURIComponent name)
               (substFirst PBlobId blobId
                  (substFirst PAccountId accountId pieces)))).
Proof.
  intros Hwf Ha1 Ha2 Hb1 Hb2. unfold downloadUrl.
  destruct (DownloadUrlFacts.encodeURIComponent_safe name) as [Hn1 Hn2].
  destruct (DownloadUrlFacts.encodeURIComponent_safe type) as [Ht1 Ht2].
  assert (step : forall v text ps,
             literalsBraceFree ps = true -> freeOf "$" text = true ->
             JsText.replace (render ps) (placeholderText v) text
             = render (substFirst v text ps)).
  { intros v text ps H1 H2.
    pose proof (DownloadUrlFacts.replace_render v text ps EmptyString H1 H2) as H.
    rewrite !JsStringFacts.append_nil_r in H. apply H. now destruct v. }
  change "{accountId}" with (placeholderText PAccountId).
  change "{blobId}" with (placeholderText PBlobId).
  change "{name}" with (placeholderText PName).
  change "{type}" with (placeholderText PType).
  rewrite (step PAccountId accountId pieces Hwf Ha2).
  pose proof (DownloadUrlFacts.literalsBraceFree_substFirst PAccountId accountId pieces Hwf Ha1) as W1.
  rewrite (step PBlobId blobId _ W1 Hb2).
  pose proof (DownloadUrlFacts.literalsBraceFree_substFirst PBlobId blobId _ W1 Hb1) as W2.
  rewrite (step PName _ _ W2 Hn2).
  pose proof (DownloadUrlFacts.literalsBraceFree_substFirst PName _ _ W2 Hn1) as W3.
  now rewrite (step PType _ _ W3 Ht2).
Qed.

Lemma downloadUrl_substitutes_first_occurrences_witness :
  downloadUrl "https://dl.example.org/{accountId}/{blobId}/{name}?accept={type}&b={blobId}"
              "acc1" "G4f" "a b.pdf" "application/pdf"
  = "https://dl.example.org/acc1/G4f/a%20b.pdf?accept=application%2Fpdf&b={blobId}".
Proof.
  exact (downloadUrl_substitutes_first_occurrences
           [Lit "https://dl.example.org/"; Var PAccountId; Lit "/"; Var PBlobId; Lit "/";
            Var PName; Lit "?accept="; Var PType; Lit "&b="; Var PBlobId]
           "acc1" "G4f" "a b.pdf" "application/pdf"
           eq_refl eq_refl eq_refl eq_refl eq_refl).
Defined.

(* ================================================================== *)
(** * Further properties: downloading attachments *)
(* ================================================================== *)

Section AttachmentRuns.

Context {P : Platform}.
Variable prepareBinaryData : jsval -> jsval -> jsval -> outcome jsval.






End AttachmentRuns.



(** X13 (getAttachments).  When Email/get answers an empty list, [getAttachments] fails with an
    error that names the email id; when the email it answers lists no
    attachment (the property is absent, null or the empty list),
    [getAttachments] answers the empty list without fetching the session
    or any blob. *)
Theorem getAttachments_without_attachments_downloads_nothing
        (P : Platform) (prepareBinaryData : jsval -> jsval -> jsval -> outcome jsval)
        (accountId emails : jsval) (emailId : string)
        (opts : Attachments.IAttachmentOptions) (h h1 : Host P) :
  getEmails P accountId (JArr [JStr emailId]) ["id"; "subject"; "attachments"] true true h
    = (Returned emails, h1) ->
  (emails = JArr [] ->
   getAttachments P prepareBinaryData accountId emailId opts h
   = (Thrown (JsError ("Email with ID " ++ emailId ++ " not found")), h1))
  /\ (forall email others listed,
        emails = JArr (email :: others) ->
        Js.get_prop email "attachments" = Returned listed ->
        Js.truthy listed = false \/ listed = JArr [] ->
        getAttachments P prepareBinaryData accountId emailId opts h
        = (Returned (JArr []), h1))
  /\ issued h1 =
     (issued h ++ [emailGetCall accountId (JArr [JStr emailId])
                                ["id"; "subject"; "attachments"] true true])%list.
Proof.
  intros He. split; [|split].
  - intros ->. unfold getAttachments, bind at 1. rewrite He. reflexivity.
  - intros email others listed -> Hl Hc.
    unfold getAttachments, bind at 1. rewrite He.
    unfold bind at 1, lift at 1.
    cbn [Js.get_prop String.eqb Ascii.eqb Bool.eqb Js.strict_eq_zero].
    replace (Z.of_nat (List.length (email :: others)) =? 0) with false
      by (symmetry; apply Z.eqb_neq; simpl; lia).
    unfold bind at 1, lift at 1. cbn [Js.get_index nth].
    unfold bind at 1, lift at 1. rewrite Hl.
    destruct Hc as [Hf| ->]; [rewrite Hf|]; reflexivity.
  - apply (issuesOne_run (issuesOne_getEmails _ _ _ _ _) He).
Qed.

Lemma getAttachments_without_attachments_downloads_nothing_witness :
  let opts := {| Attachments.includeInline := true; Attachments.mimeTypeFilter := EmptyString |} in
  let h := Reference.host [Reference.getReply []] JUndefined in
  fst (getAttachments Reference.platform Samples.prepareBinaryData (JStr "acc1") "m404"
                      opts h)
  = Thrown (JsError "Email with ID m404 not found").
Proof.
  intros opts h.
  rewrite (proj1 (@getAttachments_without_attachments_downloads_nothing
                    Reference.platform Samples.prepareBinaryData (JStr "acc1") (JArr [])
                    "m404" opts h
                    (snd (getEmails Reference.platform (JStr "acc1") (JArr [JStr "m404"])
                                    ["id"; "subject"; "attachments"] true true h))
                    eq_refl) eq_refl).
  reflexivity.
Defined.

(** X14 (downloadBlob).  [downloadBlob] fails with the TypeError of the runtime, before any
    binary GET, when the session has no downloadUrl string; and when the
    binary GET is rejected it throws the rejection as it is, not wrapped
    in a NodeApiError as the rejections of the session and of the batch
    requests are. *)
Theorem downloadBlob_failures
        (P : Platform) (accountId blobId name type session : jsval) (h h1 : Host P) :
  getJmapSession P h = (Returned session, h1) ->
  ((forall template, Js.get_prop session "downloadUrl" <> Returned (JStr template)) ->
   downloadBlob P accountId blobId name type h = (Thrown TypeError, h1))
  /\ (forall template reason s',
        Js.get_prop session "downloadUrl" = Returned (JStr template) ->
        httpRequest P (server h1)
          {| hc_method := GET;
             hc_endpoint := downloadUrl template (Js.String_of accountId)
                              (Js.String_of blobId) (Js.String_of name)
                              (Js.String_of type);
             hc_body := JUndefined |} = (Rejected reason, s') ->
        fst (downloadBlob P accountId blobId name type h) = Thrown (HttpFailure reason)).
Proof.
  intros Hs. split.
  - intros Hn. unfold downloadBlob, bind at 1. rewrite Hs. unfold bind, lift.
    destruct (Js.get_prop session "downloadUrl") as [[| | | |s| |]|e] eqn:E; simpl;
      try reflexivity.
    + now destruct (Hn s).
    + destruct session; simpl in E; try discriminate; inversion E; reflexivity.
  - intros template reason s' Ht Hr.
    unfold downloadBlob, bind at 1. rewrite Hs. unfold bind, lift. rewrite Ht.
    cbn [Js.bindO string_receiver]. unfold httpGetBinary. rewrite Hr. reflexivity.
Qed.

Lemma downloadBlob_failures_witness :
  let h := Reference.host [Resolved Reference.session] JUndefined in
  let h' := Reference.host [Resolved Samples.sessionWithDownloads; Rejected (JNum 404)]
                           JUndefined in
  fst (downloadBlob Reference.platform (JStr "acc1") (JStr "b1") (JStr "n") (JStr "t") h)
    = Thrown TypeError
  /\ fst (downloadBlob Reference.platform (JStr "acc1") (JStr "b1") (JStr "n") (JStr "t") h')
     = Thrown (HttpFailure (JNum 404)).
Proof.
  intros h h'. split.
  - rewrite (proj1 (@downloadBlob_failures Reference.platform (JStr "acc1") (JStr "b1")
                      (JStr "n") (JStr "t") Reference.session h
                      (snd (getJmapSession Reference.platform h)) eq_refl));
      [reflexivity | intros template; discriminate].
  - apply (proj2 (@downloadBlob_failures Reference.platform (JStr "acc1") (JStr "b1")
                    (JStr "n") (JStr "t") Samples.sessionWithDownloads h'
                    (snd (getJmapSession Reference.platform h')) eq_refl)
                 "https://jmap.example.org/download/{accountId}/{blobId}/{name}?type={type}"
                 (JNum 404) [] eq_refl eq_refl).
Defined.

(* ================================================================== *)
(** * Jmap.execute *)
(* ================================================================== *)

Section ExecuteFacts.

Context {P : Platform}.
Variable ctx : NodeContext.

Lemma thrownMessage_thrown (e t : exn) :
  thrownMessage ctx e = Thrown t ->
  t = TypeError
  /\ exists reason, e = HttpFailure reason /\ (reason = JUndefined \/ reason = JNull).
Proof.
  destruct e as [m| |reason|m c]; cbn [thrownMessage]; intros H; try discriminate H.
  destruct reason; cbn in H; try discriminate H; injection H as <-;
    (split; [reflexivity | eexists; split; [reflexivity | auto]]).
Qed.

(** With continueOnFail the loop returns the items pushed so far and
    more, or throws the TypeError of its catch, at an item whose
    operation threw undefined or null. *)
Lemma execute_loop_continues (body : nat -> M P (list jsval)) (n i : nat)
      (acc : list jsval) (h : Host P) :
  continueOnFail ctx = true ->
  match execute_loop P ctx body i n acc h with
  | (Returned items, _) => exists rest, items = (acc ++ rest)%list
  | (Thrown t, h') =>
      t = TypeError
      /\ exists j h0 reason,
           body j h0 = (Thrown (HttpFailure reason), h')
           /\ (reason = JUndefined \/ reason = JNull)
  end.
Proof.
  intros Hc. revert i acc h. induction n as [|n IH]; intros i acc h.
  - cbn. exists []. now rewrite app_nil_r.
  - cbn [execute_loop]. unfold bind at 1, try_catch. rewrite Hc.
    destruct (body i h) as [[pushed|e] h1] eqn:Eb.
    + specialize (IH (S i) (acc ++ pushed)%list h1).
      destruct (execute_loop P ctx body (S i) n (acc ++ pushed) h1) as [[items|t] h2];
        [|exact IH].
      destruct IH as [rest ->]. exists (pushed ++ rest)%list. now rewrite app_assoc.
    + unfold bind, lift, errorItem.
      destruct (thrownMessage ctx e) as [message|t] eqn:Em; cbn [Js.bindO].
      * unfold ret at 1.
        specialize (IH (S i) (acc ++ [JObj [("json", JObj [("error", message)]);
                                            ("pairedItem",
                                             JObj [("item", JNum (Z.of_nat i))])]])%list h1).
        destruct (execute_loop P ctx body (S i) n _ h1) as [[items|t] h2]; [|exact IH].
        destruct IH as [rest ->]. eexists. now rewrite <- app_assoc.
      * destruct (thrownMessage_thrown _ _ Em) as (-> & reason & -> & Hr).
        split; [reflexivity|]. now exists i, h, reason.
Qed.

Lemma execute_run (resource operation : string) (accountId : jsval) (h h1 : Host P) :
  paramString ctx "resource" 0 = Returned resource ->
  paramString ctx "operation" 0 = Returned operation ->
  getPrimaryAccountId P h = (Returned accountId, h1) ->
  execute P ctx h
  = match execute_loop P ctx (execute_item P ctx accountId resource operation) 0
            (if String.eqb operation "getMany" then 1%nat else inputItems ctx) [] h1 with
    | (Returned returnData, h') => (Returned (JArr [JArr returnData]), h')
    | (Thrown e, h') => (Thrown e, h')
    end.
Proof.
  intros Hr Ho Ha. unfold execute. rewrite Hr, Ho.
  unfold bind at 1, lift at 1. unfold bind at 1, lift at 1. unfold bind at 1.
  rewrite Ha. unfold bind, ret. reflexivity.
Qed.

End ExecuteFacts.

(** X15 (Jmap.execute).  With continueOnFail set, [execute] never
    rethrows what the operation of an item threw.  Once its parameters
    resource and operation are read, it throws the failure of the account
    lookup as it is, that lookup being made before the loop and outside
    its try; after a successful lookup it returns one list of items, or
    throws the TypeError that its catch raises on reading the message of
    what was thrown, which happens only when the operation of an item
    threw undefined or null (the rejection of a blob download, which
    nothing wraps). *)
Theorem execute_continuing_on_failure_rethrows_no_operation_error
        (P : Platform) (ctx : NodeContext) (resource operation : string) (h : Host P) :
  continueOnFail ctx = true ->
  paramString ctx "resource" 0 = Returned resource ->
  paramString ctx "operation" 0 = Returned operation ->
  match getPrimaryAccountId P h with
  | (Thrown e, h1) => execute P ctx h = (Thrown e, h1)
  | (Returned accountId, _) =>
      match execute P ctx h with
      | (Returned result, _) => exists items, result = JArr [JArr items]
      | (Thrown t, h') =>
          t = TypeError
          /\ exists i h0 reason,
               execute_item P ctx accountId resource operation i h0
                 = (Thrown (HttpFailure reason), h')
               /\ (reason = JUndefined \/ reason = JNull)
      end
  end.
Proof.
  intros Hc Hr Ho.
  destruct (getPrimaryAccountId P h) as [[accountId|e] h1] eqn:Ha.
  - rewrite (execute_run ctx resource operation accountId h h1 Hr Ho Ha).
    pose proof (execute_loop_continues ctx (execute_item P ctx accountId resource operation)
                  (if String.eqb operation "getMany" then 1%nat else inputItems ctx)
                  0%nat [] h1 Hc) as Hl.
    destruct (execute_loop P ctx _ 0 _ [] h1) as [[items|t] h'].
    + now exists items.
    + exact Hl.
  - unfold execute. rewrite Hr, Ho.
    unfold bind at 1, lift at 1. unfold bind at 1, lift at 1. unfold bind at 1.
    now rewrite Ha.
Qed.

Lemma execute_continuing_on_failure_rethrows_no_operation_error_witness :
  (exists items,
      fst (execute Reference.platform (Samples.node 2 "email" "markAsRead" true)
                   (Reference.host [Resolved Reference.session; Rejected (JNum 500)]
                                   JUndefined))
      = Returned (JArr [JArr items]))
  /\ fst (execute Reference.platform (Samples.node 1 "email" "getAttachments" true)
                  (Reference.host [Resolved Reference.session;
                                   Reference.getReply [Samples.emailWithAttachments];
                                   Resolved Samples.sessionWithDownloads;
                                   Rejected JUndefined] JUndefined))
     = Thrown TypeError.
Proof.
  split.
  - pose proof (@execute_continuing_on_failure_rethrows_no_operation_error
                  Reference.platform (Samples.node 2 "email" "markAsRead" true)
                  "email" "markAsRead"
                  (Reference.host [Resolved Reference.session; Rejected (JNum 500)] JUndefined)
                  eq_refl eq_refl eq_refl) as H.
    cbn [getPrimaryAccountId] in H.
    destruct (execute Reference.platform _ _) as [[result|t] h'] eqn:E.
    + destruct (getPrimaryAccountId Reference.platform _) as [[a|e] h1] eqn:Ea;
        [|discriminate Ea].
      destruct H as [items ->]. now exists items.
    + discriminate E.
  - pose proof (@execute_continuing_on_failure_rethrows_no_operation_error
                  Reference.platform (Samples.node 1 "email" "getAttachments" true)
                  "email" "getAttachments"
                  (Reference.host [Resolved Reference.session;
                                   Reference.getReply [Samples.emailWithAttachments];
                                   Resolved Samples.sessionWithDownloads;
                                   Rejected JUndefined] JUndefined)
                  eq_refl eq_refl eq_refl) as H.
    destruct (execute Reference.platform _ _) as [[result|t] h'] eqn:E.
    + discriminate E.
    + destruct (getPrimaryAccountId Reference.platform _) as [[a|e] h1] eqn:Ea;
        [|discriminate Ea].
      now destruct H as [-> _].
Defined.

(** X16 (Jmap.execute, the catch of the loop).  When the operation of the
    first processed item throws [e]: without continueOnFail [execute]
    rethrows [e] as it is from the state of the failure, so that no later
    item is processed.  With continueOnFail, when [e] has a message to
    read, the item [{ json: { error: message }, pairedItem: { item: 0 } }]
    opens the list that [execute] returns, unless a later item makes the
    catch throw its TypeError; and when reading the message of [e] throws
    (the thrown value is undefined or null), [execute] throws that
    TypeError from the state of the failure. *)
Theorem execute_first_item_failure
        (P : Platform) (ctx : NodeContext) (resource operation : string)
        (accountId : jsval) (e : exn) (h h1 h2 : Host P) :
  paramString ctx "resource" 0 = Returned resource ->
  paramString ctx "operation" 0 = Returned operation ->
  getPrimaryAccountId P h = (Returned accountId, h1) ->
  operation = "getMany" \/ (0 < inputItems ctx)%nat ->
  execute_item P ctx accountId resource operation 0 h1 = (Thrown e, h2) ->
  if continueOnFail ctx
  then match thrownMessage ctx e with
       | Returned message =>
           match execute P ctx h with
           | (Returned result, _) =>
               exists rest,
                 result = JArr [JArr (JObj [("json", JObj [("error", message)]);
                                            ("pairedItem", JObj [("item", JNum 0)])]
                                      :: rest)]
           | (Thrown t, _) => t = TypeError
           end
       | Thrown t => execute P ctx h = (Thrown t, h2)
       end
  else execute P ctx h = (Thrown e, h2).
Proof.
  intros Hr Ho Ha Hn He.
  rewrite (execute_run ctx resource operation accountId h h1 Hr Ho Ha).
  assert (exists n, (if String.eqb operation "getMany" then 1%nat else inputItems ctx)
                    = S n) as [n ->].
  { destruct (String.eqb_spec operation "getMany") as [E|E].
    - now exists 0%nat.
    - destruct Hn as [Hn|Hn]; [contradiction|].
      destruct (inputItems ctx) as [|n]; [lia|now exists n]. }
  cbn [execute_loop].
  destruct (continueOnFail ctx) eqn:Hc.
  - destruct (thrownMessage ctx e) as [message|t] eqn:Em;
      unfold bind at 1, try_catch; rewrite He;
      unfold bind at 1, lift at 1, errorItem; rewrite Em; cbn [Js.bindO].
    + unfold ret at 1. cbn [app Z.of_nat].
      pose proof (execute_loop_continues ctx
                    (execute_item P ctx accountId resource operation) n 1%nat
                    [JObj [("json", JObj [("error", message)]);
                           ("pairedItem", JObj [("item", JNum 0)])]] h2 Hc) as Hl.
      destruct (execute_loop P ctx _ 1 n _ h2) as [[items|t] h'].
      * destruct Hl as [rest ->]. now exists rest.
      * now destruct Hl.
    + reflexivity.
  - unfold bind at 1, try_catch. rewrite He. reflexivity.
Qed.

Lemma execute_first_item_failure_witness :
  let script := [Resolved Reference.session; Rejected (JNum 500); Rejected (JNum 500)] in
  fst (execute Reference.platform (Samples.node 2 "email" "markAsRead" false)
               (Reference.host script JUndefined))
  = Thrown (NodeApiError "JMAP API request failed" (HttpFailure (JNum 500)))
  /\ exists rest,
       fst (execute Reference.platform (Samples.node 2 "email" "markAsRead" true)
                    (Reference.host script JUndefined))
       = Returned (JArr [JArr (JObj [("json", JObj [("error", JStr "JMAP API request failed")]);
                                     ("pairedItem", JObj [("item", JNum 0)])] :: rest)]).
Proof.
  intros script. split.
  - rewrite (@execute_first_item_failure Reference.platform
               (Samples.node 2 "email" "markAsRead" false) "email" "markAsRead"
               (JStr "acc1")
               (NodeApiError "JMAP API request failed" (HttpFailure (JNum 500)))
               (Reference.host script JUndefined)
               (snd (getPrimaryAccountId Reference.platform (Reference.host script JUndefined)))
               (snd (execute_item Reference.platform
                       (Samples.node 2 "email" "markAsRead" false) (JStr "acc1")
                       "email" "markAsRead" 0
                       (snd (getPrimaryAccountId Reference.platform
                               (Reference.host script JUndefined)))))
               eq_refl eq_refl eq_refl (or_intror (Nat.lt_0_succ 1)) eq_refl).
    reflexivity.
  - pose proof (@execute_first_item_failure Reference.platform
                  (Samples.node 2 "email" "markAsRead" true) "email" "markAsRead"
                  (JStr "acc1")
                  (NodeApiError "JMAP API request failed" (HttpFailure (JNum 500)))
                  (Reference.host script JUndefined)
                  (snd (getPrimaryAccountId Reference.platform
                          (Reference.host script JUndefined)))
                  (snd (execute_item Reference.platform
                          (Samples.node 2 "email" "markAsRead" true) (JStr "acc1")
                          "email" "markAsRead" 0
                          (snd (getPrimaryAccountId Reference.platform
                                  (Reference.host script JUndefined)))))
                  eq_refl eq_refl eq_refl (or_intror (Nat.lt_0_succ 1)) eq_refl) as H.
    cbn [continueOnFail Samples.node thrownMessage errorMessage] in H.
    destruct (execute Reference.platform _ _) as [[result|t] h'] eqn:E.
    + destruct H as [rest ->]. now exists rest.
    + discriminate E.
Defined.

(** X17 (Jmap.execute, operations get and reply).  When Email/get finds
    no email under the id, the operation get is no error: its item is the
    empty object; the operation reply throws Original email not found
    from the state the lookup left, so that nothing is sent. *)
Theorem missing_email_is_empty_for_get_and_an_error_for_reply
        (P : Platform) (ctx : NodeContext) (accountId : jsval) (i : nat)
        (emailId fromIdentity emailType message : string) (h h' : Host P) :
  paramString ctx "emailId" i = Returned emailId ->
  paramString ctx "fromIdentity" i = Returned fromIdentity ->
  paramString ctx "emailType" i = Returned emailType ->
  paramString ctx "message" i = Returned message ->
  getEmails P accountId (JArr [JStr emailId]) defaultProperties true true h
    = (Returned (JArr []), h') ->
  execute_item P ctx accountId "email" "get" i h
    = (Returned (constructExecutionMetaData ctx (returnJsonArray ctx (JObj [])) i), h')
  /\ execute_item P ctx accountId "email" "reply" i h
     = (Thrown (JsError "Original email not found"), h').
Proof.
  intros Hid Hfrom Htype Hmsg Hget. split.
  - unfold execute_item, whenOperation. cbn [String.eqb Ascii.eqb Bool.eqb andb].
    unfold operation_get. rewrite Hid.
    unfold bind, lift, ret. rewrite Hget. reflexivity.
  - unfold execute_item, whenOperation. cbn [String.eqb Ascii.eqb Bool.eqb andb].
    unfold operation_reply. rewrite Hid, Hfrom, Htype, Hmsg.
    unfold bind, lift, ret, throw. rewrite Hget. reflexivity.
Qed.

Lemma missing_email_is_empty_for_get_and_an_error_for_reply_witness :
  let h := Reference.host [Reference.getReply []] JUndefined in
  fst (execute_item Reference.platform (Samples.node 1 "email" "get" false) (JStr "acc1")
                    "email" "get" 0 h)
  = Returned [JObj [("json", JObj []); ("pairedItem", JObj [("item", JNum 0)])]]
  /\ fst (execute_item Reference.platform (Samples.node 1 "email" "reply" false)
                       (JStr "acc1") "email" "reply" 0 h)
     = Thrown (JsError "Original email not found").
Proof.
  intros h. split.
  - rewrite (proj1 (@missing_email_is_empty_for_get_and_an_error_for_reply
                      Reference.platform (Samples.node 1 "email" "get" false) (JStr "acc1")
                      0 "m1" "identity1" "text" "thanks" h
                      (snd (getEmails Reference.platform (JStr "acc1") (JArr [JStr "m1"])
                                      defaultProperties true true h))
                      eq_refl eq_refl eq_refl eq_refl eq_refl)).
    reflexivity.
  - rewrite (proj2 (@missing_email_is_empty_for_get_and_an_error_for_reply
                      Reference.platform (Samples.node 1 "email" "reply" false) (JStr "acc1")
                      0 "m1" "identity1" "text" "thanks" h
                      (snd (getEmails Reference.platform (JStr "acc1") (JArr [JStr "m1"])
                                      defaultProperties true true h))
                      eq_refl eq_refl eq_refl eq_refl eq_refl)).
    reflexivity.
Defined.

(** X18 (Jmap.execute).  A resource or an operation that no branch of
    [execute] names is no error: the item issues no request and its
    output is the empty object the response starts as. *)
Theorem unrecognised_operation_yields_an_empty_object
        (P : Platform) (ctx : NodeContext) (accountId : jsval)
        (resource operation : string) (i : nat) (h : Host P) :
  (resource = "email" ->
   ~ In operation ["send"; "createDraft"; "get"; "getLabels"; "getAttachments";
                   "getMany"; "delete"; "markAsRead"; "markAsUnread"; "move";
                   "addLabel"; "removeLabel"; "reply"]) ->
  (resource = "mailbox" \/ resource = "thread" -> ~ In operation ["get"; "getMany"]) ->
  execute_item P ctx accountId resource operation i h
  = (Returned (constructExecutionMetaData ctx (returnJsonArray ctx (JObj [])) i), h).
Proof.
  intros He Hm.
  assert (Hno : forall name ops, ~ In operation ops -> In name ops ->
                                 String.eqb operation name = false).
  { intros name ops Hn Hi. destruct (String.eqb_spec operation name) as [E|E];
      [subst; contradiction | reflexivity]. }
  unfold execute_item, whenOperation.
  destruct (String.eqb_spec resource "email") as [E|E].
  - specialize (He E). subst resource.
    rewrite !(Hno _ _ He) by (cbn [In]; tauto).
    cbn [String.eqb Ascii.eqb Bool.eqb andb]. reflexivity.
  - destruct (String.eqb_spec resource "mailbox") as [Em|Em].
    + specialize (Hm (or_introl Em)). subst resource.
      rewrite !(Hno _ _ Hm) by (cbn [In]; tauto).
      cbn [String.eqb Ascii.eqb Bool.eqb andb]. reflexivity.
    + destruct (String.eqb_spec resource "thread") as [Et|Et].
      * specialize (Hm (or_intror Et)).
        rewrite !(Hno _ _ Hm) by (cbn [In]; tauto). reflexivity.
      * reflexivity.
Qed.

Lemma unrecognised_operation_yields_an_empty_object_witness :
  let h := Reference.host [] JUndefined in
  execute_item Reference.platform (Samples.node 1 "email" "archive" false) (JStr "acc1")
               "email" "archive" 0 h
  = (Returned [JObj [("json", JObj []); ("pairedItem", JObj [("item", JNum 0)])]], h).
Proof.
  intros h.
  apply (@unrecognised_operation_yields_an_empty_object Reference.platform
           (Samples.node 1 "email" "archive" false) (JStr "acc1") "email" "archive" 0 h).
  - intros _. cbn [In]. intros H.
    repeat (destruct H as [H|H]; [discriminate H|]). exact H.
  - intros [H|H]; discriminate H.
Defined.

(** X19 (Jmap.execute, the single execution of getMany).  The operation
    getMany of the resource mailbox runs once whatever the number of
    input items, none included: a successful run issues the session
    request and one Mailbox/get, and its items are those of the mailbox
    list, all paired with the input item 0. *)
Theorem mailbox_getMany_runs_once_whatever_the_input
        (P : Platform) (ctx : NodeContext) (accountId mailboxes : jsval)
        (h h1 h2 : Host P) :
  paramString ctx "resource" 0 = Returned "mailbox" ->
  paramString ctx "operation" 0 = Returned "getMany" ->
  getPrimaryAccountId P h = (Returned accountId, h1) ->
  getMailboxes P accountId h1 = (Returned mailboxes, h2) ->
  execute P ctx h
  = (Returned (JArr [JArr (constructExecutionMetaData ctx
                             (returnJsonArray ctx mailboxes) 0)]), h2)
  /\ issued h2 = (issued h ++ [sessionCall; mailboxGetCall accountId])%list.
Proof.
  intros Hr Ho Ha Hm. split.
  - rewrite (execute_run ctx "mailbox" "getMany" accountId h h1 Hr Ho Ha).
    cbn [String.eqb Ascii.eqb Bool.eqb andb execute_loop].
    unfold bind at 1, try_catch, execute_item, whenOperation.
    cbn [String.eqb Ascii.eqb Bool.eqb andb].
    unfold bind, ret. rewrite Hm. reflexivity.
  - pose proof (issuesOne_getPrimaryAccountId (P:=P) h) as [H1 _].
    pose proof (issuesOne_getMailboxes (P:=P) accountId h1) as [H2 _].
    rewrite Ha in H1. rewrite Hm in H2. cbn [snd] in H1, H2.
    rewrite H2, H1, <- app_assoc. reflexivity.
Qed.

Lemma mailbox_getMany_runs_once_whatever_the_input_witness :
  let h := Reference.host [Resolved Reference.session;
                           Reference.mailboxesReply [Reference.inbox; Reference.archive]]
                          JUndefined in
  fst (execute Reference.platform (Samples.node 0 "mailbox" "getMany" false) h)
  = Returned (JArr [JArr [JObj [("json", Reference.inbox);
                                ("pairedItem", JObj [("item", JNum 0)])];
                          JObj [("json", Reference.archive);
                                ("pairedItem", JObj [("item", JNum 0)])]]])
  /\ fst (execute Reference.platform (Samples.node 3 "mailbox" "getMany" false) h)
     = fst (execute Reference.platform (Samples.node 0 "mailbox" "getMany" false) h).
Proof.
  intros h.
  pose proof (fun n =>
    proj1 (@mailbox_getMany_runs_once_whatever_the_input Reference.platform
             (Samples.node n "mailbox" "getMany" false) (JStr "acc1")
             (JArr [Reference.inbox; Reference.archive]) h
             (snd (getPrimaryAccountId Reference.platform h))
             (snd (getMailboxes Reference.platform (JStr "acc1")
                     (snd (getPrimaryAccountId Reference.platform h))))
             eq_refl eq_refl eq_refl eq_refl)) as H.
  split.
  - rewrite (H 0%nat). reflexivity.
  - rewrite (H 3%nat), (H 0%nat). reflexivity.
Defined.

(** X20 (Jmap.execute, operation getMany of the resource email).  The
    query runs once, with the parameters of the input item 0, the filter
    built from them, the newest first and the limit given.  When it
    matches no email no Email/get follows and the response is the empty
    list; otherwise the emails of the matched ids are fetched with the
    default properties and are the response. *)
Theorem email_getMany_fetches_only_what_the_query_matched
        (P : Platform) (ctx : NodeContext) (accountId filter options : jsval)
        (mailbox : string) (limit : Z) (q : QueryResult) (matched : list jsval)
        (h h1 h2 : Host P) :
  paramString ctx "resource" 0 = Returned "email" ->
  paramString ctx "operation" 0 = Returned "getMany" ->
  paramString ctx "mailbox" 0 = Returned mailbox ->
  paramNumber ctx "limit" 0 = Returned limit ->
  paramObject ctx "getManyOptions" 0 = Returned options ->
  getManyFilter ctx mailbox options = Returned filter ->
  getPrimaryAccountId P h = (Returned accountId, h1) ->
  queryEmails P accountId filter defaultSort limit 0 h1 = (Returned q, h2) ->
  ids q = JArr matched ->
  (matched = [] ->
   execute P ctx h
   = (Returned (JArr [JArr (constructExecutionMetaData ctx
                              (returnJsonArray ctx (JArr [])) 0)]), h2))
  /\ (matched <> [] ->
      forall emails h3,
        getEmails P accountId (JArr matched) defaultProperties true true h2
          = (Returned emails, h3) ->
        execute P ctx h
        = (Returned (JArr [JArr (constructExecutionMetaData ctx
                                   (returnJsonArray ctx emails) 0)]), h3)).
Proof.
  intros Hr Ho Hmb Hl Hopt Hf Ha Hq Hids.
  assert (Hrun : forall r h',
             operation_getMany P ctx accountId 0 h1 = (Returned r, h') ->
             execute P ctx h
             = (Returned (JArr [JArr (constructExecutionMetaData ctx
                                        (returnJsonArray ctx r) 0)]), h')).
  { intros r h' Hrun.
    rewrite (execute_run ctx "email" "getMany" accountId h h1 Hr Ho Ha).
    cbn [String.eqb Ascii.eqb Bool.eqb andb execute_loop].
    unfold bind at 1, try_catch, execute_item, whenOperation.
    cbn [String.eqb Ascii.eqb Bool.eqb andb].
    unfold bind, ret. rewrite Hrun. reflexivity. }
  assert (Hop : operation_getMany P ctx accountId 0 h1
                = if gt_zero (JNum (Z.of_nat (List.length matched)))
                  then getEmails P accountId (JArr matched) defaultProperties true true h2
                  else (Returned (JArr []), h2)).
  { unfold operation_getMany. rewrite Hmb, Hl, Hopt.
    unfold bind at 1, lift at 1. unfold bind at 1, lift at 1.
    unfold bind at 1, lift at 1. rewrite Hf. unfold bind at 1, lift at 1.
    unfold bind at 1. rewrite Hq. rewrite Hids.
    unfold bind at 1, lift at 1. cbn [Js.get_prop String.eqb Ascii.eqb Bool.eqb andb].
    destruct (gt_zero (JNum (Z.of_nat (List.length matched)))); reflexivity. }
  split.
  - intros ->. apply Hrun. rewrite Hop. reflexivity.
  - intros Hne emails h3 Hg. apply Hrun. rewrite Hop.
    destruct matched as [|m ms]; [contradiction|].
    change (gt_zero (JNum (Z.of_nat (List.length (m :: ms)))))
      with (0 <? Z.of_nat (S (List.length ms))).
    replace (0 <? Z.of_nat (S (List.length ms))) with true
      by (symmetry; apply Z.ltb_lt; lia).
    exact Hg.
Qed.

Lemma email_getMany_fetches_only_what_the_query_matched_witness :
  let ctx := Samples.node 4 "email" "getMany" false in
  let empty := Reference.host [Resolved Reference.session; Reference.queryReply []]
                              JUndefined in
  let some := Reference.host [Resolved Reference.session; Reference.queryReply ["m1"];
                              Reference.getReply
                                [Reference.email "m1" "2024-01-02T00:00:00Z"]]
                             JUndefined in
  (fst (execute Reference.platform ctx empty) = Returned (JArr [JArr []])
   /\ List.length (issued (snd (execute Reference.platform ctx empty))) = 2%nat)
  /\ fst (execute Reference.platform ctx some)
     = Returned (JArr [JArr [JObj [("json", Reference.email "m1" "2024-01-02T00:00:00Z");
                                   ("pairedItem", JObj [("item", JNum 0)])]]]).
Proof.
  intros ctx empty some. split.
  - rewrite (proj1 (@email_getMany_fetches_only_what_the_query_matched
                      Reference.platform ctx (JStr "acc1") (JObj []) (JObj [])
                      EmptyString 50
                      {| ids := JArr []; total := JNum 0 |} [] empty
                      (snd (getPrimaryAccountId Reference.platform empty))
                      (snd (queryEmails Reference.platform (JStr "acc1") (JObj [])
                              defaultSort 50 0
                              (snd (getPrimaryAccountId Reference.platform empty))))
                      eq_refl eq_refl eq_refl eq_refl eq_refl eq_refl eq_refl eq_refl
                      eq_refl) eq_refl).
    split; reflexivity.
  - rewrite (proj2 (@email_getMany_fetches_only_what_the_query_matched
                      Reference.platform ctx (JStr "acc1") (JObj []) (JObj [])
                      EmptyString 50
                      {| ids := JArr [JStr "m1"]; total := JNum 1 |} [JStr "m1"] some
                      (snd (getPrimaryAccountId Reference.platform some))
                      (snd (queryEmails Reference.platform (JStr "acc1") (JObj [])
                              defaultSort 50 0
                              (snd (getPrimaryAccountId Reference.platform some))))
                      eq_refl eq_refl eq_refl eq_refl eq_refl eq_refl eq_refl eq_refl
                      eq_refl)
                   ltac:(discriminate)
                   (JArr [Reference.email "m1" "2024-01-02T00:00:00Z"])
                   (snd (execute Reference.platform ctx some)) eq_refl).
    reflexivity.
Defined.

(* ------------------------------------------------------------------ *)
(** ** The recipients and the emails built by the operations *)

Module RecipientFacts.
Import JsString.

Lemma split_from_cons (sep : ascii) (s cur : string) :
  exists p ps, split_from sep cur s = p :: ps.
Proof.
  revert cur. induction s as [|c s IH]; intros cur; cbn [split_from].
  - now exists cur, [].
  - destruct (Ascii.eqb c sep); [now exists cur, (split_from sep EmptyString s) | apply IH].
Qed.

Lemma concat_cons (sep p q : string) (ps : list string) :
  String.concat sep (p :: q :: ps) = p ++ sep ++ String.concat sep (q :: ps).
Proof. reflexivity. Qed.

(** Joining the pieces with the separator gives the text back. *)
Lemma split_from_concat (sep : ascii) (s cur : string) :
  String.concat (String sep EmptyString) (split_from sep cur s) = cur ++ s.
Proof.
  revert cur. induction s as [|c s IH]; intros cur; cbn [split_from].
  - cbn [String.concat]. now rewrite JsStringFacts.append_nil_r.
  - destruct (Ascii.eqb_spec c sep) as [E|E].
    + subst c. destruct (split_from_cons sep s EmptyString) as (p & ps & Hp).
      pose proof (IH EmptyString) as H. rewrite Hp in *.
      rewrite concat_cons, H. reflexivity.
    + rewrite IH, JsStringFacts.append_assoc. reflexivity.
Qed.

Lemma split_from_free (sep : ascii) (s cur : string) :
  freeOf sep cur = true ->
  Forall (fun p => freeOf sep p = true) (split_from sep cur s).
Proof.
  revert cur. induction s as [|c s IH]; intros cur Hc; cbn [split_from].
  - now constructor.
  - destruct (Ascii.eqb c sep) eqn:E.
    + constructor; [exact Hc | now apply IH].
    + apply IH. rewrite DownloadUrlFacts.freeOf_append, Hc. cbn. now rewrite E.
Qed.

End RecipientFacts.

(** X21 (Jmap.execute, the recipients of send and createDraft).  The
    recipients of an address line are its pieces between the commas, each
    trimmed: the pieces hold no comma, joined by commas they give the line
    back, and none is left out, so that an empty piece (an empty line, a
    doubled or a final comma) is a recipient with the empty address. *)
Theorem recipients_are_the_trimmed_pieces_between_commas (line : string) :
  exists pieces,
    recipients line
    = JArr (map (fun p => JObj [("email", JStr (JsString.trim p))]) pieces)
    /\ String.concat "," pieces = line
    /\ Forall (fun p => freeOf "," p = true) pieces
    /\ pieces <> [].
Proof.
  exists (JsString.split "," line). unfold recipients, JsString.split.
  repeat split.
  - apply (RecipientFacts.split_from_concat "," line EmptyString).
  - now apply RecipientFacts.split_from_free.
  - destruct (RecipientFacts.split_from_cons "," line EmptyString) as (p & ps & ->).
    discriminate.
Qed.

Lemma withRecipients_fields (k : string) (options : jsval)
      (email email' : list (string * jsval)) :
  withRecipients k options email = Returned email' ->
  forall k',
    Js.assoc k' email'
    = match Js.get_prop options k with
      | Returned (JStr line) =>
          if JsString.nonempty line && String.eqb k' k
          then Some (recipients line) else Js.assoc k' email
      | _ => Js.assoc k' email
      end.
Proof.
  unfold withRecipients. intros H k'.
  destruct (Js.get_prop options k) as [v|e]; [|discriminate H].
  cbn [Js.bindO] in H.
  destruct v as [| |b|n|line|items|fields]; cbn [Js.truthy] in H;
    try (injection H as <-; reflexivity).
  - destruct b; [discriminate H | injection H as <-; reflexivity].
  - destruct (n =? 0); [injection H as <-; reflexivity | discriminate H].
  - destruct (JsString.nonempty line); cbn [andb].
    + injection H as <-. apply assoc_set_field.
    + injection H as <-. reflexivity.
  - discriminate H.
  - discriminate H.
Qed.

(** X22 (Jmap.execute, the email of send and createDraft).  The email
    built from the parameters is addressed to the recipients of the to
    line and carries exactly one body part: htmlBody when the email type
    is html, textBody in every other case.  It has a cc (a bcc) only when
    the option is a line that is not empty, and then it is the
    recipients of that line. *)
Theorem composeEmail_has_one_body_part_and_optional_copies
        (to subject emailType message : string) (options email : jsval) :
  composeEmail to subject emailType message options = Returned email ->
  Js.get_prop email "to" = Returned (recipients to)
  /\ Js.get_prop email "subject" = Returned (JStr subject)
  /\ (Js.get_prop email "htmlBody" = Returned JUndefined <-> emailType <> "html")
  /\ (Js.get_prop email "textBody" = Returned JUndefined <-> emailType = "html")
  /\ (forall k, k = "cc" \/ k = "bcc" ->
        Js.get_prop email k
        = Returned (match Js.get_prop options k with
                    | Returned (JStr line) =>
                        if JsString.nonempty line then recipients line else JUndefined
                    | _ => JUndefined
                    end)).
Proof.
  unfold composeEmail. intros H.
  destruct (withRecipients "cc" options _) as [e1|x] eqn:E1; [|discriminate H].
  cbn [Js.bindO] in H.
  destruct (withRecipients "bcc" options e1) as [e2|x] eqn:E2; [|discriminate H].
  cbn [Js.bindO] in H. injection H as <-.
  pose proof (withRecipients_fields _ _ _ _ E1) as F1.
  pose proof (withRecipients_fields _ _ _ _ E2) as F2.
  assert (F : forall k', Js.get_prop (JObj e2) k' = Returned (Js.or_undefined (Js.assoc k' e2)))
    by reflexivity.
  assert (Hbody : forall k',
             Js.assoc k' (withBodyPart emailType
                            [("to", recipients to); ("subject", JStr subject);
                             ("bodyValues", bodyValues message)])
             = if String.eqb emailType "html"
               then if String.eqb k' "htmlBody"
                    then Some (JArr [JObj [("partId", JStr "body"); ("type", JStr "text/html")]])
                    else Js.assoc k' [("to", recipients to); ("subject", JStr subject);
                                      ("bodyValues", bodyValues message)]
               else if String.eqb k' "textBody"
                    then Some (JArr [JObj [("partId", JStr "body"); ("type", JStr "text/plain")]])
                    else Js.assoc k' [("to", recipients to); ("subject", JStr subject);
                                      ("bodyValues", bodyValues message)]).
  { intros k'. unfold withBodyPart. destruct (String.eqb emailType "html");
      apply assoc_set_field. }
  assert (Hother : forall k', String.eqb k' "cc" = false -> String.eqb k' "bcc" = false ->
             Js.assoc k' e2
             = Js.assoc k' (withBodyPart emailType
                              [("to", recipients to); ("subject", JStr subject);
                               ("bodyValues", bodyValues message)])).
  { intros k' Hc Hb. rewrite F2, F1, Hc, Hb.
    destruct (Js.get_prop options "bcc") as [[]|]; destruct (Js.get_prop options "cc") as [[]|];
      rewrite ?andb_false_r; reflexivity. }
  rewrite !F. repeat split.
  - rewrite Hother, Hbody by reflexivity. destruct (String.eqb emailType "html"); reflexivity.
  - rewrite Hother, Hbody by reflexivity. destruct (String.eqb emailType "html"); reflexivity.
  - intros H. rewrite Hother, Hbody in H by reflexivity.
    destruct (String.eqb_spec emailType "html") as [E|E]; [discriminate H | exact E].
  - intros E. rewrite Hother, Hbody by reflexivity.
    destruct (String.eqb_spec emailType "html"); [contradiction | reflexivity].
  - intros H. rewrite Hother, Hbody in H by reflexivity.
    destruct (String.eqb_spec emailType "html") as [E|E]; [exact E | discriminate H].
  - intros E. rewrite Hother, Hbody by reflexivity.
    destruct (String.eqb_spec emailType "html"); [reflexivity | contradiction].
  - assert (Hn : forall k', String.eqb k' "htmlBody" = false ->
                            String.eqb k' "textBody" = false ->
                            String.eqb k' "to" = false -> String.eqb k' "subject" = false ->
                            String.eqb k' "bodyValues" = false ->
             Js.assoc k' (withBodyPart emailType
                            [("to", recipients to); ("subject", JStr subject);
                             ("bodyValues", bodyValues message)]) = None).
    { intros k' H1 H2 H3 H4 H5. rewrite Hbody, H1, H2. cbn [Js.assoc].
      rewrite H3, H4, H5. destruct (String.eqb emailType "html"); reflexivity. }
    intros k [-> | ->]; rewrite F; f_equal; rewrite F2, F1, Hn by reflexivity;
      cbn [String.eqb Ascii.eqb Bool.eqb andb].
    + destruct (Js.get_prop options "bcc") as [[| | | |l2| |]|];
        destruct (Js.get_prop options "cc") as [[| | | |l1| |]|];
        rewrite ?andb_false_r, ?andb_true_r; try reflexivity;
        destruct (JsString.nonempty l1); reflexivity.
    + destruct (Js.get_prop options "cc") as [[| | | |l1| |]|];
        destruct (Js.get_prop options "bcc") as [[| | | |l2| |]|];
        rewrite ?andb_false_r, ?andb_true_r; try reflexivity;
        destruct (JsString.nonempty l2); reflexivity.
Qed.

Lemma composeEmail_has_one_body_part_and_optional_copies_witness :
  let options := JObj [("cc", JStr "carol@example.org, dave@example.org");
                       ("bcc", JStr EmptyString)] in
  exists email,
    composeEmail "alice@example.org" "hello" "HTML" "<p>hi</p>" options = Returned email
    /\ Js.get_prop email "htmlBody" = Returned JUndefined
    /\ Js.get_prop email "textBody" <> Returned JUndefined
    /\ Js.get_prop email "cc"
       = Returned (JArr [JObj [("email", JStr "carol@example.org")];
                         JObj [("email", JStr "dave@example.org")]])
    /\ Js.get_prop email "bcc" = Returned JUndefined.
Proof.
  intros options.
  destruct (composeEmail "alice@example.org" "hello" "HTML" "<p>hi</p>" options)
    as [email|e] eqn:E; [|discriminate E].
  exists email. split; [reflexivity|].
  destruct (@composeEmail_has_one_body_part_and_optional_copies
              "alice@example.org" "hello" "HTML" "<p>hi</p>" options email E)
    as (_ & _ & Hh & Ht & Hc).
  split; [|split; [|split]].
  - apply Hh. discriminate.
  - intros H. apply Ht in H. discriminate H.
  - exact (Hc "cc" (or_introl eq_refl)).
  - exact (Hc "bcc" (or_intror eq_refl)).
Defined.

Lemma get_prop_of_truthy (v : jsval) (k : string) :
  Js.truthy v = true -> exists x, Js.get_prop v k = Returned x.
Proof. destruct v; cbn; intros H; try discriminate H; eexists; reflexivity. Qed.

(** X23 (Jmap.execute, operation reply).  When the original email is
    found, the reply is what [sendEmail] is called with, under the
    identity given: it is addressed to the replyTo of the original when
    that is truthy (an empty list of addresses is) and to its from
    otherwise, its subject is that of the original after Re: and a space,
    whether or not it has that prefix already, and inReplyTo and
    references are both the id of the original. *)
Theorem reply_is_sent_to_replyTo_or_else_from
        (P : Platform) (ctx : NodeContext) (accountId : jsval) (i : nat)
        (emailId fromIdentity emailType message : string)
        (original replyTo from subject : jsval) (others : list jsval)
        (h h1 : Host P) :
  paramString ctx "emailId" i = Returned emailId ->
  paramString ctx "fromIdentity" i = Returned fromIdentity ->
  paramString ctx "emailType" i = Returned emailType ->
  paramString ctx "message" i = Returned message ->
  getEmails P accountId (JArr [JStr emailId]) defaultProperties true true h
    = (Returned (JArr (original :: others)), h1) ->
  Js.truthy original = true ->
  Js.get_prop original "replyTo" = Returned replyTo ->
  Js.get_prop original "from" = Returned from ->
  Js.get_prop original "subject" = Returned subject ->
  exists email,
    execute_item P ctx accountId "email" "reply" i h
    = bind (sendEmail P accountId email (JStr fromIdentity))
           (fun response =>
              ret (constructExecutionMetaData ctx (returnJsonArray ctx response) i)) h1
    /\ Js.get_prop email "to" = Returned (if Js.truthy replyTo then replyTo else from)
    /\ Js.get_prop email "subject" = Returned (JStr ("Re: " ++ Js.String_of subject))
    /\ Js.get_prop email "inReplyTo" = Js.get_prop original "id"
    /\ Js.get_prop email "references" = Js.get_prop original "id".
Proof.
  intros Hid Hfrom Htype Hmsg Hget Ht Hrt Hf Hs.
  destruct (get_prop_of_truthy original "id" Ht) as [id Eid].
  destruct (get_prop_of_truthy original "threadId" Ht) as [threadId Eth].
  exists (JObj (withBodyPart emailType
                  [("to", if Js.truthy replyTo then replyTo else from);
                   ("subject", JStr ("Re: " ++ Js.String_of subject));
                   ("inReplyTo", id); ("references", id); ("threadId", threadId);
                   ("bodyValues", bodyValues message)])).
  split; [|rewrite Eid; unfold withBodyPart;
           destruct (String.eqb emailType "html"); repeat split; reflexivity].
  unfold execute_item, whenOperation. cbn [String.eqb Ascii.eqb Bool.eqb andb].
  unfold operation_reply. rewrite Hid, Hfrom, Htype, Hmsg.
  unfold bind at 1, ret at 1. unfold bind at 1, ret at 1. unfold bind at 1, ret at 1.
  unfold bind at 1, ret at 1. unfold bind at 1, ret at 1. unfold bind at 1, ret at 1.
  unfold bind at 1, ret at 1. unfold bind at 1, ret at 1. unfold bind at 1, ret at 1.
  unfold bind at 1, ret at 1. unfold bind at 1, ret at 1. unfold bind at 1.
  unfold bind at 1, lift at 1. unfold bind at 1, lift at 1.
  unfold bind at 1, lift at 1. unfold bind at 1, lift at 1.
  unfold bind at 1. rewrite Hget.
  unfold bind at 1, lift at 1. cbn [Js.iterate hd]. rewrite Ht. cbn [negb].
  unfold replyEmail. rewrite Hrt, Hf, Hs, Eid, Eth. cbn [Js.bindO].
  replace (if Js.truthy replyTo then Returned replyTo else Returned from)
    with (Returned (if Js.truthy replyTo then replyTo else from))
    by (destruct (Js.truthy replyTo); reflexivity).
  cbn [Js.bindO]. unfold bind, lift, ret.
  destruct (sendEmail P accountId _ (JStr fromIdentity) h1) as [[r|e] h2]; reflexivity.
Qed.

Lemma reply_is_sent_to_replyTo_or_else_from_witness :
  let original := JObj [("id", JStr "m1"); ("threadId", JStr "t1");
                        ("from", JArr [JObj [("email", JStr "alice@example.org")]]);
                        ("replyTo", JArr []); ("subject", JStr "Re: hello")] in
  let ctx := Samples.node 1 "email" "reply" false in
  let h := Reference.host [Reference.getReply [original]] JUndefined in
  exists email,
    execute_item Reference.platform ctx (JStr "acc1") "email" "reply" 0 h
    = bind (sendEmail Reference.platform (JStr "acc1") email (JStr "identity1"))
           (fun response =>
              ret (constructExecutionMetaData ctx (returnJsonArray ctx response) 0))
           (snd (getEmails Reference.platform (JStr "acc1") (JArr [JStr "m1"])
                           defaultProperties true true h))
    /\ Js.get_prop email "to" = Returned (JArr [])
    /\ Js.get_prop email "subject" = Returned (JStr "Re: Re: hello")
    /\ Js.get_prop email "inReplyTo" = Returned (JStr "m1")
    /\ Js.get_prop email "references" = Returned (JStr "m1").
Proof.
  intros original ctx h.
  exact (@reply_is_sent_to_replyTo_or_else_from Reference.platform ctx (JStr "acc1") 0
           "m1" "identity1" "text" "thanks" original (JArr [])
           (JArr [JObj [("email", JStr "alice@example.org")]]) (JStr "Re: hello") []
           h (snd (getEmails Reference.platform (JStr "acc1") (JArr [JStr "m1"])
                             defaultProperties true true h))
           eq_refl eq_refl eq_refl eq_refl eq_refl eq_refl eq_refl eq_refl eq_refl).
Defined.

(* ------------------------------------------------------------------ *)
(** ** The Email/set operations and the option lists *)

Section SetFacts.

Context {P : Platform}.

Lemma jmapApiRequest_resolved (methodCalls : list MethodCall) (using_ : list string)
      (h : Host P) (response : jsval) (s' : Server P) :
  httpRequest P (server h) (apiCall methodCalls using_) = (Resolved response, s') ->
  fst (jmapApiRequest P methodCalls using_ h) = Returned response.
Proof.
  intros H. unfold jmapApiRequest, try_catch, makeJmapRequest.
  unfold apiCall in H. rewrite H. reflexivity.
Qed.

Lemma bind_returned A B (m : M P A) (k : A -> M P B) (h : Host P) (a : A) :
  fst (m h) = Returned a -> fst (bind m k h) = fst (k a (snd (m h))).
Proof.
  unfold bind. destruct (m h) as [[a'|e] h1]; simpl; intros H;
    [now inversion H | discriminate H].
Qed.

Lemma map_total (f : jsval -> outcome jsval) (rel : jsval -> jsval -> Prop)
      (items : list jsval) :
  (forall x, In x items -> exists y, f x = Returned y /\ rel x y) ->
  exists ys, Js.map f items = Returned ys /\ Forall2 rel items ys.
Proof.
  induction items as [|x items IH]; intros H.
  - exists []. split; [reflexivity | constructor].
  - destruct (H x (or_introl eq_refl)) as (y & Hy & Hr).
    destruct IH as (ys & Hys & Hf); [intros z Hz; apply H; now right|].
    exists (y :: ys). cbn [Js.map]. rewrite Hy, Hys. split; [reflexivity | now constructor].
Qed.

End SetFacts.

(** X24 (updateEmailKeywords, moveEmail, addLabel, removeLabel,
    deleteEmails).  When the first entry of the response is named
    Email/set, each of these operations returns its result as it is,
    whatever it holds and whatever the call id and the entries after it:
    an update or a destruction that the server refused (notUpdated,
    notDestroyed in the result) is returned, not thrown. *)
Theorem email_set_result_is_returned_unexamined
        (P : Platform) (h : Host P) (result : jsval) (callId st : string)
        (rest : list MethodResponse) (s' : Server P) :
  (forall call,
      httpRequest P (server h) call
      = (Resolved (IJmapResponse ({| mr_name := "Email/set"; mr_result := result;
                                     mr_callId := callId |} :: rest) st), s')) ->
  (forall a i k, fst (updateEmailKeywords P a i k h) = Returned result)
  /\ (forall a i m, fst (moveEmail P a i m h) = Returned result)
  /\ (forall a i m, fst (addLabel P a i m h) = Returned result)
  /\ (forall a i m, fst (removeLabel P a i m h) = Returned result)
  /\ (forall a l, fst (deleteEmails P a l h) = Returned result).
Proof.
  intros H.
  assert (Ha : forall calls u failure,
             fst (bind (jmapApiRequest P calls u)
                       (fun response =>
                          lift (expectFirst "Email/set" failure select_all response)) h)
             = Returned result).
  { intros calls u failure.
    rewrite (bind_returned _ _ _ _ h _ (jmapApiRequest_resolved calls u h _ s' (H _))).
    unfold lift. cbn [fst]. rewrite expectFirst_typed. reflexivity. }
  repeat split; intros; apply Ha.
Qed.

Lemma email_set_result_is_returned_unexamined_witness :
  let refused := JObj [("notUpdated",
                        JObj [("m1", JObj [("type", JStr "notFound")])])] in
  let h := Reference.host
             [Resolved (IJmapResponse [{| mr_name := "Email/set"; mr_result := refused;
                                          mr_callId := "c1" |}] "s1")] JUndefined in
  fst (moveEmail Reference.platform (JStr "acc1") "m1" "mb2" h) = Returned refused.
Proof.
  intros refused h.
  apply (proj1 (proj2 (@email_set_result_is_returned_unexamined Reference.platform h
                         refused "c1" "s1" [] [] (fun call => eq_refl)))).
Defined.

(** X25 (methods.loadOptions).  The list of mailbox options has one
    option per entry of the mailbox list, in the order of the list: its
    value is the id of the mailbox and its name is the name of the
    mailbox followed by its totalEmails in brackets, each as JavaScript
    prints it (the text undefined for a property the server left out).
    The list of identity options is made in the same way, with the email
    of the identity in angle brackets. *)
Theorem option_lists_follow_the_server_lists
        (P : Platform) (accountId : jsval) (entries : list jsval) (h h1 h2 : Host P) :
  getPrimaryAccountId P h = (Returned accountId, h1) ->
  (forall entry, In entry entries -> Js.truthy entry = true) ->
  (getMailboxes P accountId h1 = (Returned (JArr entries), h2) ->
   exists options,
     loadOptions_getMailboxes P h = (Returned (JArr options), h2)
     /\ Forall2 (fun mailbox option =>
                   exists name totalEmails id,
                     Js.get_prop mailbox "name" = Returned name
                     /\ Js.get_prop mailbox "totalEmails" = Returned totalEmails
                     /\ Js.get_prop mailbox "id" = Returned id
                     /\ option = JObj [("name", JStr (Js.String_of name ++ " ("
                                                      ++ Js.String_of totalEmails
                                                      ++ " emails)"));
                                       ("value", id)])
                entries options)
  /\ (getIdentities P accountId h1 = (Returned (JArr entries), h2) ->
      exists options,
        loadOptions_getIdentities P h = (Returned (JArr options), h2)
        /\ Forall2 (fun identity option =>
                      exists name email id,
                        Js.get_prop identity "name" = Returned name
                        /\ Js.get_prop identity "email" = Returned email
                        /\ Js.get_prop identity "id" = Returned id
                        /\ option = JObj [("name", JStr (Js.String_of name ++ " <"
                                                         ++ Js.String_of email ++ ">"));
                                          ("value", id)])
                   entries options).
Proof.
  intros Ha Ht. split; intros Hl.
  - destruct (map_total mailboxOption
                (fun mailbox option =>
                   exists name totalEmails id,
                     Js.get_prop mailbox "name" = Returned name
                     /\ Js.get_prop mailbox "totalEmails" = Returned totalEmails
                     /\ Js.get_prop mailbox "id" = Returned id
                     /\ option = JObj [("name", JStr (Js.String_of name ++ " ("
                                                      ++ Js.String_of totalEmails
                                                      ++ " emails)"));
                                       ("value", id)])
                entries) as (options & Hm & Hf).
    { intros x Hx. specialize (Ht x Hx).
      destruct (get_prop_of_truthy x "name" Ht) as [name En].
      destruct (get_prop_of_truthy x "totalEmails" Ht) as [total Et].
      destruct (get_prop_of_truthy x "id" Ht) as [id Ei].
      unfold mailboxOption. rewrite En, Et, Ei. cbn [Js.bindO].
      eexists. split; [reflexivity|]. now exists name, total, id. }
    exists options. split; [|exact Hf].
    unfold loadOptions_getMailboxes. unfold bind at 1. rewrite Ha.
    unfold bind at 1. rewrite Hl. unfold lift. cbn [Js.array_receiver Js.bindO].
    rewrite Hm. reflexivity.
  - destruct (map_total identityOption
                (fun identity option =>
                   exists name email id,
                     Js.get_prop identity "name" = Returned name
                     /\ Js.get_prop identity "email" = Returned email
                     /\ Js.get_prop identity "id" = Returned id
                     /\ option = JObj [("name", JStr (Js.String_of name ++ " <"
                                                      ++ Js.String_of email ++ ">"));
                                       ("value", id)])
                entries) as (options & Hm & Hf).
    { intros x Hx. specialize (Ht x Hx).
      destruct (get_prop_of_truthy x "name" Ht) as [name En].
      destruct (get_prop_of_truthy x "email" Ht) as [email Ee].
      destruct (get_prop_of_truthy x "id" Ht) as [id Ei].
      unfold identityOption. rewrite En, Ee, Ei. cbn [Js.bindO].
      eexists. split; [reflexivity|]. now exists name, email, id. }
    exists options. split; [|exact Hf].
    unfold loadOptions_getIdentities. unfold bind at 1. rewrite Ha.
    unfold bind at 1. rewrite Hl. unfold lift. cbn [Js.array_receiver Js.bindO].
    rewrite Hm. reflexivity.
Qed.

Lemma option_lists_follow_the_server_lists_witness :
  let h := Reference.host [Resolved Reference.session;
                           Reference.mailboxesReply [Reference.inbox; Reference.archive]]
                          JUndefined in
  exists options,
    loadOptions_getMailboxes Reference.platform h
    = (Returned (JArr options),
       snd (getMailboxes Reference.platform (JStr "acc1")
              (snd (getPrimaryAccountId Reference.platform h))))
    /\ List.length options = 2%nat.
Proof.
  intros h.
  destruct (proj1 (@option_lists_follow_the_server_lists Reference.platform (JStr "acc1")
                     [Reference.inbox; Reference.archive] h
                     (snd (getPrimaryAccountId Reference.platform h))
                     (snd (getMailboxes Reference.platform (JStr "acc1")
                             (snd (getPrimaryAccountId Reference.platform h))))
                     eq_refl
                     ltac:(intros entry [<-|[<-|[]]]; reflexivity))
                  eq_refl) as (options & Hrun & Hf).
  exists options. split; [exact Hrun|].
  apply Forall2_length in Hf. symmetry. exact Hf.
Defined.

Lemma find_first (p : jsval -> outcome bool) (before after : list jsval) (x : jsval) :
  (forall y, In y before -> p y = Returned false) ->
  p x = Returned true ->
  Js.find p (before ++ x :: after) = Returned x.
Proof.
  intros Hb Hx. induction before as [|y before IH]; cbn [app Js.find].
  - now rewrite Hx.
  - rewrite (Hb y (or_introl eq_refl)). cbn [Js.bindO].
    apply IH. intros z Hz. apply Hb. now right.
Qed.

(** X26 (findMailboxByName, findMailboxByRole).  The lookup of a mailbox
    by name (by role) returns the first entry of the mailbox list whose
    name (role) is exactly the text asked for, as a string and letter for
    letter; entries before it with another name (role) or without one are
    passed over, and entries after it are not looked at. *)
Theorem findMailbox_returns_the_first_exact_match
        (P : Platform) (accountId mailbox : jsval) (wanted : string)
        (before after : list jsval) (h h' : Host P) :
  getMailboxes P accountId h = (Returned (JArr (before ++ mailbox :: after)), h') ->
  (forall entry, In entry before -> Js.truthy entry = true) ->
  ((forall entry, In entry before -> Js.get_prop entry "name" <> Returned (JStr wanted)) ->
   Js.get_prop mailbox "name" = Returned (JStr wanted) ->
   findMailboxByName P accountId wanted h = (Returned mailbox, h'))
  /\ ((forall entry, In entry before -> Js.get_prop entry "role" <> Returned (JStr wanted)) ->
      Js.get_prop mailbox "role" = Returned (JStr wanted) ->
      findMailboxByRole P accountId wanted h = (Returned mailbox, h')).
Proof.
  intros Hm Ht.
  assert (Hfind : forall key,
             (forall entry, In entry before ->
                            Js.get_prop entry key <> Returned (JStr wanted)) ->
             Js.get_prop mailbox key = Returned (JStr wanted) ->
             Js.find (fun mb => Js.bindO (Js.get_prop mb key)
                                  (fun v => Returned (Js.strict_eq_str v wanted)))
                     (before ++ mailbox :: after) = Returned mailbox).
  { intros key Hn Hk. apply find_first.
    - intros y Hy. destruct (get_prop_of_truthy y key (Ht y Hy)) as [v Ev].
      rewrite Ev. cbn [Js.bindO]. f_equal.
      destruct v; cbn [Js.strict_eq_str]; try reflexivity.
      destruct (String.eqb_spec s wanted) as [E|E]; [|reflexivity].
      subst s. now destruct (Hn y Hy).
    - rewrite Hk. cbn [Js.bindO Js.strict_eq_str]. now rewrite String.eqb_refl. }
  split; intros Hn Hk.
  - unfold findMailboxByName, bind. rewrite Hm. unfold lift.
    cbn [Js.array_receiver Js.bindO]. now rewrite (Hfind "name" Hn Hk).
  - unfold findMailboxByRole, bind. rewrite Hm. unfold lift.
    cbn [Js.array_receiver Js.bindO]. now rewrite (Hfind "role" Hn Hk).
Qed.

Lemma findMailbox_returns_the_first_exact_match_witness :
  let lower := JObj [("id", JStr "mb0"); ("name", JStr "archive")] in
  let twin := JObj [("id", JStr "mb3"); ("name", JStr "Archive")] in
  let h := Reference.host [Reference.mailboxesReply
                             [Reference.inbox; lower; Reference.archive; twin]]
                          JUndefined in
  fst (findMailboxByName Reference.platform (JStr "acc1") "Archive" h)
  = Returned Reference.archive.
Proof.
  intros lower twin h.
  rewrite (proj1 (@findMailbox_returns_the_first_exact_match Reference.platform
                    (JStr "acc1") Reference.archive "Archive"
                    [Reference.inbox; lower] [twin] h
                    (snd (getMailboxes Reference.platform (JStr "acc1") h))
                    eq_refl
                    ltac:(intros entry [<-|[<-|[]]]; reflexivity))
                 ltac:(intros entry [<-|[<-|[]]]; discriminate)
                 eq_refl).
  reflexivity.
Defined.
